(** * projen: the TypeScript project type (src/typescript.ts)

    A shallow embedding of [TypeScriptProject], [TypescriptConfig],
    [SampleCode] and [TypeScriptAppProject], and the properties of their
    constructors and of sample-code synthesis. *)

From Stdlib Require Import Ascii String.
From stdpp Require Import base option list strings gmap.

Local Open Scope stdpp_scope.

(** ** Node's [path] module (POSIX flavour)

    [path] belongs to the Node runtime, not to this repository.  The functions
    below follow the documented behaviour of [path.posix]: [dirname],
    [basename] with a suffix, [normalize] and [join].  They work on the list
    of characters of a path. *)

Module path.

Definition sep : ascii := "/"%char.
Definition period : ascii := "."%char.

Definition is_sep (c : ascii) : bool := bool_decide (c = sep).

Definition chars (s : string) : list ascii := list_ascii_of_string s.
Definition str (l : list ascii) : string := string_of_list_ascii l.

(** Splitting at every separator: [split "a/b" = ["a"; "b"]],
    [split "a/" = ["a"; ""]], [split "" = [""]]. *)
Fixpoint split (l : list ascii) : list (list ascii) :=
  match l with
  | [] => [[]]
  | c :: l' =>
      if is_sep c then [] :: split l'
      else match split l' with
           | [] => [[c]]
           | seg :: segs => (c :: seg) :: segs
           end
  end.

Fixpoint unsplit (segs : list (list ascii)) : list ascii :=
  match segs with
  | [] => []
  | [seg] => seg
  | seg :: segs' => seg ++ sep :: unsplit segs'
  end.

Fixpoint take_while (f : ascii → bool) (l : list ascii) : list ascii :=
  match l with
  | c :: l' => if f c then c :: take_while f l' else []
  | [] => []
  end.

Fixpoint drop_while (f : ascii → bool) (l : list ascii) : list ascii :=
  match l with
  | c :: l' => if f c then drop_while f l' else l
  | [] => []
  end.

Definition dot : list ascii := [period].
Definition dotdot : list ascii := [period; period].

(** [normalizeString]: the stack of segments is kept reversed (last segment
    first).  Empty and "." segments are dropped; ".." removes the last
    segment unless there is none or it is ".." itself, in which case it is
    kept only when the path may climb above its root. *)
Definition normalize_step (allowAboveRoot : bool)
    (res : list (list ascii)) (seg : list ascii) : list (list ascii) :=
  if bool_decide (seg = []) || bool_decide (seg = dot) then res
  else if bool_decide (seg = dotdot) then
    match res with
    | last :: res' =>
        if bool_decide (last = dotdot)
        then (if allowAboveRoot then dotdot :: res else res)
        else res'
    | [] => if allowAboveRoot then [dotdot] else []
    end
  else seg :: res.

Definition normalizeString (l : list ascii) (allowAboveRoot : bool) : list ascii :=
  unsplit (rev (foldl (normalize_step allowAboveRoot) [] (split l))).

Definition ends_with_sep (l : list ascii) : bool :=
  match rev l with
  | c :: _ => is_sep c
  | [] => false
  end.

Definition normalize_chars (l : list ascii) : list ascii :=
  match l with
  | [] => dot
  | c :: _ =>
      let isAbsolute := is_sep c in
      let trailingSeparator := ends_with_sep l in
      let p := normalizeString l (negb isAbsolute) in
      match p with
      | [] =>
          if isAbsolute then [sep]
          else if trailingSeparator then [period; sep] else dot
      | _ =>
          let p := if trailingSeparator then p ++ [sep] else p in
          if isAbsolute then sep :: p else p
      end
  end.

(** [path.join]: the non-empty arguments are glued with "/" and the result
    is normalized; with nothing to glue the result is ".". *)
Definition join_chars (args : list (list ascii)) : list ascii :=
  match filter (λ a, a ≠ []) args with
  | [] => dot
  | parts => normalize_chars (unsplit parts)
  end.

(** [path.dirname]: trailing separators are ignored, then everything from
    the last separator on (never the first character) is cut off. *)
Definition dirname_chars (l : list ascii) : list ascii :=
  match l with
  | [] => dot
  | c :: l' =>
      let hasRoot := is_sep c in
      let r := drop_while (λ x, negb (is_sep x)) (drop_while is_sep (rev l')) in
      match r with
      | [] => if hasRoot then [sep] else dot
      | _ :: rest =>
          if hasRoot && bool_decide (rest = []) then [sep; sep]
          else c :: rev rest
      end
  end.

(** The last segment of a path, trailing separators ignored. *)
Definition last_segment (l : list ascii) : list ascii :=
  rev (take_while (λ x, negb (is_sep x)) (drop_while is_sep (rev l))).

Definition trailing_seps (l : list ascii) : list ascii :=
  take_while is_sep (rev l).

Fixpoint is_prefix (a b : list ascii) : bool :=
  match a, b with
  | [], _ => true
  | x :: a', y :: b' => bool_decide (x = y) && is_prefix a' b'
  | _ :: _, [] => false
  end.

Definition is_suffix (a b : list ascii) : bool := is_prefix (rev a) (rev b).

(** [path.basename p ext].  When [ext] applies, it is removed from the last
    segment unless the segment is the suffix itself; a segment that is only
    the tail of [ext] is returned together with the trailing separators,
    as Node's loop leaves its end index at the end of the path. *)
Definition basename_chars (l ext : list ascii) : list ascii :=
  let seg := last_segment l in
  if bool_decide (ext ≠ []) && bool_decide (length ext ≤ length l) then
    if bool_decide (ext = l) then []
    else if bool_decide (seg = []) then l
    else if is_suffix ext seg then
      (if bool_decide (seg = ext) then seg
       else take (length seg - length ext) seg)
    else if is_suffix seg ext then seg ++ trailing_seps l
    else seg
  else seg.

Definition normalize (p : string) : string := str (normalize_chars (chars p)).
Definition join (a b : string) : string := str (join_chars [chars a; chars b]).
Definition dirname (p : string) : string := str (dirname_chars (chars p)).
Definition basename (p ext : string) : string :=
  str (basename_chars (chars p) (chars ext)).

End path.

Definition backslash : ascii := Ascii false false true true true false true false.

(** [s.replace(/\\/g, '/')] *)
Fixpoint replace_backslashes (s : string) : string :=
  match s with
  | EmptyString => EmptyString
  | String c s' =>
      String (if bool_decide (c = backslash) then path.sep else c)
        (replace_backslashes s')
  end.

(** [s.endsWith(suffix)] *)
Definition endsWith (s suffix : string) : bool :=
  path.is_suffix (path.chars suffix) (path.chars s).

(** ** Values shared by the components *)

(** The values that occur in compiler options and in the manifest. *)
Inductive JsonValue :=
  | JBool (b : bool)
  | JString (s : string)
  | JArray (l : list string).

(** JavaScript truthiness of an optional string: [undefined] and [''] are
    falsy. *)
Definition truthy_string (s : option string) : bool :=
  match s with
  | Some v => negb (bool_decide (v = ""))
  | None => false
  end.

(** JavaScript truthiness of an optional boolean. *)
Definition truthy_bool (b : option bool) : bool := default false b.

(** An array is an object, hence truthy whatever it holds. *)
Definition truthy_array {A} (l : list A) : bool := true.

(** One property of an object spread [{ k: base, ...over }]: the key of the
    spread object wins when it is there. *)
Definition spread_key {A} (base over : option A) : option A :=
  match over with
  | Some v => Some v
  | None => base
  end.

(** Modelled from the spec: the version constraints of ./semver (a caret
    expression over a version). *)
Module Semver.
Record t := mk { spec : string }.
Definition caret (version : string) : t := mk ("^" +:+ version).
End Semver.

(** Modelled from the spec: the Pattern List behind an ignore file.  [exclude]
    and [include] append entries in call order, nothing is ever removed. *)
Module IgnoreFile.
Inductive entry :=
  | Include (pattern : string)
  | Exclude (pattern : string).

Definition t := list entry.

Definition exclude (pattern : string) (f : t) : t := f ++ [Exclude pattern].
Definition include (pattern : string) (f : t) : t := f ++ [Include pattern].
End IgnoreFile.

(** Categories of ./start that this file uses. *)
Inductive StartEntryCategory := BUILD | RELEASE.

Record StartEntryOptions := {
  desc : string;
  category : StartEntryCategory;
}.

(** Modelled from the spec: the Structured File Emitter of ./json, with the
    relative path it writes to and the object it holds, here the object of a
    [TypescriptConfig]. *)
Module JsonFile.
Record obj := mkobj {
  obj_compilerOptions : gmap string JsonValue;
  obj_include : list string;
  obj_exclude : list string;
}.

Record t := mk {
  path : string;
  contents : obj;
}.
End JsonFile.

Module TypescriptConfigOptions.
Record t := mk {
  fileName : option string;
  include : option (list string);
  exclude : option (list string);
  compilerOptions : gmap string JsonValue;
}.

(** [{ ...base, ...over }] where [over] may be [undefined]. *)
Definition spread (base : t) (over : option t) : t :=
  match over with
  | None => base
  | Some o =>
      mk (spread_key (fileName base) (fileName o))
         (spread_key (include base) (include o))
         (spread_key (exclude base) (exclude o))
         (compilerOptions o)
  end.
End TypescriptConfigOptions.

Module TypescriptConfig.
Record t := mk {
  compilerOptions : gmap string JsonValue;
  include : list string;
  exclude : list string;
  fileName : string;
  file : JsonFile.t;
}.
End TypescriptConfig.

(** The options of ./jest and ./eslint that this file passes on. *)
Module JestOptions.
Record t := mk {
  typescript : option TypescriptConfig.t;
  other : gmap string JsonValue;
}.
End JestOptions.

Module EslintOptions.
Record t := mk {
  tsconfigPath : string;
  dirs : list string;
}.
End EslintOptions.

(** Modelled from the spec: the components of other modules ([Jest], [Eslint],
    [TypedocDocgen]) and [SampleCode] register under the project that owns
    them; each is kept with the options its constructor received. *)
Inductive Component :=
  | JestComponent (options : JestOptions.t)
  | EslintComponent (options : EslintOptions.t)
  | SampleCodeComponent (srcdir testdir : string)
  | TypedocDocgenComponent.

(** ** The project state of ./node-project *)

(** Modelled from the spec: [NodeProject] and its methods, which live in
    ./node-project.  It is the Project aggregate with its Script Registry,
    its two Pattern Lists (the package one is optional), its development
    dependencies, its manifest, its file emitters and its component tree.
    [addScript] and [addScriptCommand] append to the named script and create
    it when it is missing; a dependency registered again is overwritten. *)
Module NodeProject.
Record t := mk {
  entrypoint : string;
  packageManager : string;
  runScriptCommand : string;
  minNodeVersion : option string;
  manifest : gmap string JsonValue;
  scripts : gmap string (list string);
  start : option (list (string * StartEntryOptions));
  gitignore : IgnoreFile.t;
  npmignore : option IgnoreFile.t;
  devDependencies : gmap string Semver.t;
  files : list JsonFile.t;
  components : list Component;
}.

Definition set_manifest (v : gmap string JsonValue) (p : t) : t :=
  mk (entrypoint p) (packageManager p) (runScriptCommand p) (minNodeVersion p)
     v (scripts p) (start p) (gitignore p) (npmignore p)
     (devDependencies p) (files p) (components p).

Definition set_scripts (v : gmap string (list string)) (p : t) : t :=
  mk (entrypoint p) (packageManager p) (runScriptCommand p) (minNodeVersion p)
     (manifest p) v (start p) (gitignore p) (npmignore p)
     (devDependencies p) (files p) (components p).

Definition set_start (v : option (list (string * StartEntryOptions))) (p : t) : t :=
  mk (entrypoint p) (packageManager p) (runScriptCommand p) (minNodeVersion p)
     (manifest p) (scripts p) v (gitignore p) (npmignore p)
     (devDependencies p) (files p) (components p).

Definition set_gitignore (v : IgnoreFile.t) (p : t) : t :=
  mk (entrypoint p) (packageManager p) (runScriptCommand p) (minNodeVersion p)
     (manifest p) (scripts p) (start p) v (npmignore p)
     (devDependencies p) (files p) (components p).

Definition set_npmignore (v : option IgnoreFile.t) (p : t) : t :=
  mk (entrypoint p) (packageManager p) (runScriptCommand p) (minNodeVersion p)
     (manifest p) (scripts p) (start p) (gitignore p) v
     (devDependencies p) (files p) (components p).

Definition set_devDependencies (v : gmap string Semver.t) (p : t) : t :=
  mk (entrypoint p) (packageManager p) (runScriptCommand p) (minNodeVersion p)
     (manifest p) (scripts p) (start p) (gitignore p) (npmignore p)
     v (files p) (components p).

Definition set_files (v : list JsonFile.t) (p : t) : t :=
  mk (entrypoint p) (packageManager p) (runScriptCommand p) (minNodeVersion p)
     (manifest p) (scripts p) (start p) (gitignore p) (npmignore p)
     (devDependencies p) v (components p).

Definition set_components (v : list Component) (p : t) : t :=
  mk (entrypoint p) (packageManager p) (runScriptCommand p) (minNodeVersion p)
     (manifest p) (scripts p) (start p) (gitignore p) (npmignore p)
     (devDependencies p) (files p) v.

(** The commands of a script, none when the script is missing. *)
Definition script (name : string) (p : t) : list string :=
  default [] (scripts p !! name).

Definition addScriptCommand (name : string) (commands : list string) (p : t) : t :=
  set_scripts (<[name := script name p ++ commands]> (scripts p)) p.

Definition addScript (name : string) (commands : list string) (p : t) : t :=
  addScriptCommand name commands p.

Definition addCompileCommand (commands : list string) (p : t) : t :=
  addScriptCommand "compile" commands p.

Definition addTestCommand (commands : list string) (p : t) : t :=
  addScriptCommand "test" commands p.

(** [this.start?.addEntry(name, options)] *)
Definition start_addEntry (name : string) (o : StartEntryOptions) (p : t) : t :=
  set_start ((λ entries, entries ++ [(name, o)]) <$> start p) p.

Definition gitignore_exclude (pattern : string) (p : t) : t :=
  set_gitignore (IgnoreFile.exclude pattern (gitignore p)) p.

Definition gitignore_include (pattern : string) (p : t) : t :=
  set_gitignore (IgnoreFile.include pattern (gitignore p)) p.

(** [this.npmignore?.exclude(pattern)]: skipped without a package-ignore
    list. *)
Definition npmignore_exclude (pattern : string) (p : t) : t :=
  set_npmignore (IgnoreFile.exclude pattern <$> npmignore p) p.

Definition npmignore_include (pattern : string) (p : t) : t :=
  set_npmignore (IgnoreFile.include pattern <$> npmignore p) p.

(** Later keys replace earlier ones. *)
Definition addDevDependencies (deps : gmap string Semver.t) (p : t) : t :=
  set_devDependencies (deps ∪ devDependencies p) p.

(** [new JsonFile(project, path, { obj })] binds one more emitter to the
    project. *)
Definition addFile (f : JsonFile.t) (p : t) : t :=
  set_files (files p ++ [f]) p.

(** A component constructed under the project joins its component tree. *)
Definition addComponent (c : Component) (p : t) : t :=
  set_components (components p ++ [c]) p.
End NodeProject.

(** ** What the components of other modules contribute *)

(** Modelled from the spec: a Component is a unit that registers
    contributions into the shared project state (scripts, ignores,
    dependencies) while it is constructed.  Scripts and Pattern Lists are
    appended to in contribution order and nothing is removed; a dependency
    that is registered again is overwritten.  Manifest keys and start-menu
    entries are contributions as well, so that a component may register
    them.  The emitters in [NodeProject.files] hold compiler configurations
    and change through [TypescriptConfig] alone; the component tree changes
    by building a component. *)
Inductive Contribution :=
  | AddScriptCommand (name : string) (commands : list string)
  | AddStartEntry (name : string) (options : StartEntryOptions)
  | GitignoreExclude (pattern : string)
  | GitignoreInclude (pattern : string)
  | NpmignoreExclude (pattern : string)
  | NpmignoreInclude (pattern : string)
  | AddDevDependencies (deps : gmap string Semver.t)
  | SetManifest (key : string) (value : JsonValue).

Definition contribute (p : NodeProject.t) (c : Contribution) : NodeProject.t :=
  match c with
  | AddScriptCommand name commands => NodeProject.addScriptCommand name commands p
  | AddStartEntry name options => NodeProject.start_addEntry name options p
  | GitignoreExclude pattern => NodeProject.gitignore_exclude pattern p
  | GitignoreInclude pattern => NodeProject.gitignore_include pattern p
  | NpmignoreExclude pattern => NodeProject.npmignore_exclude pattern p
  | NpmignoreInclude pattern => NodeProject.npmignore_include pattern p
  | AddDevDependencies deps => NodeProject.addDevDependencies deps p
  | SetManifest key value =>
      NodeProject.set_manifest (<[key := value]> (NodeProject.manifest p)) p
  end.

(** The contributions of one constructor, in the order it makes them. *)
Definition contribute_all (cs : list Contribution) (p : NodeProject.t) : NodeProject.t :=
  foldl contribute p cs.

(** The constructors of [Jest] (./jest), [Eslint] (./eslint) and
    [TypedocDocgen] (./typescript-typedoc) are not in this file: what each
    of them contributes, given its options and the project it is built
    under, is a parameter. *)
Class Components := {
  Jest_new : JestOptions.t → NodeProject.t → list Contribution;
  Eslint_new : EslintOptions.t → NodeProject.t → list Contribution;
  TypedocDocgen_new : NodeProject.t → list Contribution;
}.

(** [new C(project, ...)]: the component joins the project that its
    constructor received and makes its contributions to it. *)
Definition construct (c : Component)
    (contributions : NodeProject.t → list Contribution) (project : NodeProject.t)
    : NodeProject.t :=
  contribute_all (contributions project) (NodeProject.addComponent c project).

(** ** [TypescriptConfig] (lines 603-629) *)

(** The constructor returns the new instance and the project it has
    registered in. *)
Definition TypescriptConfig_new (project : NodeProject.t)
    (options : TypescriptConfigOptions.t) : TypescriptConfig.t * NodeProject.t :=
  let fileName := default "tsconfig.json" (TypescriptConfigOptions.fileName options) in
  let include := default ["**/*.ts"] (TypescriptConfigOptions.include options) in
  let exclude := default ["node_modules"] (TypescriptConfigOptions.exclude options) in
  let compilerOptions := TypescriptConfigOptions.compilerOptions options in
  let file := JsonFile.mk fileName (JsonFile.mkobj compilerOptions include exclude) in
  let project := NodeProject.addFile file project in
  let project := NodeProject.npmignore_exclude ("/" +:+ fileName) project in
  (TypescriptConfig.mk compilerOptions include exclude fileName file, project).

(** ** [TypeScriptProjectOptions] (lines 12-93)

    The keys inherited from [NodeProjectOptions] that this file reads or
    presets are fields of their own, the remaining ones are kept in
    [otherNodeOptions].  [None] is a key that the caller left out. *)
Module TypeScriptProjectOptions.
Record t := mk {
  srcdir : option string;
  libdir : option string;
  testdir : option string;
  entrypoint : option string;
  allowLibraryDependencies : option bool;
  releaseWorkflow : option bool;
  otherNodeOptions : gmap string JsonValue;
  jest : option bool;
  jestOptions : option JestOptions.t;
  eslint : option bool;
  typescriptVersion : option Semver.t;
  docgen : option bool;
  docsDirectory : option string;
  tsconfig : option TypescriptConfigOptions.t;
  disableTsconfig : option bool;
  compileBeforeTest : option bool;
  sampleCode : option bool;
  entrypointTypes : option string;
  package : option bool;
}.

(** The object literal [{}]. *)
Definition empty : t :=
  mk None None None None None None ∅ None None None None None None None None
     None None None None.

(** [{ ...base, ...over }]: every key of [over] replaces the key of
    [base]; values are never merged. *)
Definition spread (base over : t) : t :=
  mk (spread_key (srcdir base) (srcdir over))
     (spread_key (libdir base) (libdir over))
     (spread_key (testdir base) (testdir over))
     (spread_key (entrypoint base) (entrypoint over))
     (spread_key (allowLibraryDependencies base) (allowLibraryDependencies over))
     (spread_key (releaseWorkflow base) (releaseWorkflow over))
     (otherNodeOptions over ∪ otherNodeOptions base)
     (spread_key (jest base) (jest over))
     (spread_key (jestOptions base) (jestOptions over))
     (spread_key (eslint base) (eslint over))
     (spread_key (typescriptVersion base) (typescriptVersion over))
     (spread_key (docgen base) (docgen over))
     (spread_key (docsDirectory base) (docsDirectory over))
     (spread_key (tsconfig base) (tsconfig over))
     (spread_key (disableTsconfig base) (disableTsconfig over))
     (spread_key (compileBeforeTest base) (compileBeforeTest over))
     (spread_key (sampleCode base) (sampleCode over))
     (spread_key (entrypointTypes base) (entrypointTypes over))
     (spread_key (package base) (package over)).
End TypeScriptProjectOptions.

(** ** [TypeScriptProject] (lines 99-298) *)

Module TypeScriptProject.
Record t := mk {
  node : NodeProject.t;
  docgen : option bool;
  docsDirectory : string;
  eslint : option EslintOptions.t;
  jest : option JestOptions.t;
  tsconfig : option TypescriptConfig.t;
  srcdir : string;
  libdir : string;
  testdir : string;
}.
End TypeScriptProject.

(** [addBuildCommand] (lines 295-297) *)
Definition addBuildCommand (commands : list string) (this : NodeProject.t) : NodeProject.t :=
  NodeProject.addScriptCommand "build" commands this.

(** The local constant [compilerOptions] (lines 176-197). *)
Definition compilerOptions : gmap string JsonValue :=
  list_to_map [
    ("alwaysStrict", JBool true);
    ("declaration", JBool true);
    ("experimentalDecorators", JBool true);
    ("inlineSourceMap", JBool true);
    ("inlineSources", JBool true);
    ("lib", JArray ["es2018"]);
    ("module", JString "CommonJS");
    ("noEmitOnError", JBool false);
    ("noFallthroughCasesInSwitch", JBool true);
    ("noImplicitAny", JBool true);
    ("noImplicitReturns", JBool true);
    ("noImplicitThis", JBool true);
    ("noUnusedLocals", JBool true);
    ("noUnusedParameters", JBool true);
    ("resolveJsonModule", JBool true);
    ("strict", JBool true);
    ("strictNullChecks", JBool true);
    ("strictPropertyInitialization", JBool true);
    ("stripInternal", JBool true);
    ("target", JString "ES2018")
  ].

(** The options handed to the main [TypescriptConfig] (lines 200-212):
    [{ rootDir, outDir, ...compilerOptions }] inside, [...options.tsconfig]
    outside. *)
Definition tsconfig_options (srcdir libdir : string)
    (custom : option TypescriptConfigOptions.t) : TypescriptConfigOptions.t :=
  TypescriptConfigOptions.spread
    (TypescriptConfigOptions.mk None
       (Some [srcdir +:+ "/**/*.ts"])
       (Some ["node_modules"; libdir])
       (compilerOptions ∪ <["outDir" := JString libdir]> (<["rootDir" := JString srcdir]> ∅)))
    custom.

(** The options handed to the [TypescriptConfig] for jest (lines 238-248). *)
Definition jest_tsconfig_options (srcdir testdir : string) : TypescriptConfigOptions.t :=
  TypescriptConfigOptions.mk (Some "tsconfig.jest.json")
    (Some [srcdir +:+ "/**/*.ts"; testdir +:+ "/**/*.ts"])
    (Some ["node_modules"])
    compilerOptions.

(** [{ typescript: tsconfig, ...options.jestOptions }] (lines 260-263) *)
Definition jest_options (tsconfig : TypescriptConfig.t)
    (custom : option JestOptions.t) : JestOptions.t :=
  match custom with
  | None => JestOptions.mk (Some tsconfig) ∅
  | Some o =>
      JestOptions.mk (spread_key (Some tsconfig) (JestOptions.typescript o))
        (JestOptions.other o)
  end.

(** The declaration file named after the entrypoint (line 173). *)
Definition types_of_entrypoint (entrypoint : string) : string :=
  replace_backslashes
    (path.join (path.dirname entrypoint) (path.basename entrypoint ".js"))
  +:+ ".d.ts".

(** *** The blocks of the constructor

    Each block takes the project as the blocks before it left it. *)

(** Lines 131-170: the compile, watch, build and package scripts. *)
Definition register_scripts (options : TypeScriptProjectOptions.t)
    (this : NodeProject.t) : NodeProject.t :=
  let this := NodeProject.addCompileCommand ["tsc"] this in
  let this := NodeProject.start_addEntry "compile"
                {| desc := "Only compile"; category := BUILD |} this in

  let this := NodeProject.addScript "watch" ["tsc -w"] this in
  let this := NodeProject.start_addEntry "watch"
                {| desc := "Watch & compile in the background"; category := BUILD |} this in

  let compileBeforeTest := default false (TypeScriptProjectOptions.compileBeforeTest options) in

  let this :=
    if compileBeforeTest
    then addBuildCommand [NodeProject.runScriptCommand this +:+ " compile";
                          NodeProject.runScriptCommand this +:+ " test"] this
    else addBuildCommand [NodeProject.runScriptCommand this +:+ " test";
                          NodeProject.runScriptCommand this +:+ " compile"] this in
  let this := NodeProject.start_addEntry "build"
                {| desc := "Full release build (test+compile)"; category := BUILD |} this in

  if default true (TypeScriptProjectOptions.package options) then
    let this := NodeProject.addScript "package"
                  ["rm -fr dist";
                   "mkdir -p dist/js";
                   NodeProject.packageManager this +:+ " pack";
                   "mv *.tgz dist/js/"] this in
    let this := addBuildCommand [NodeProject.runScriptCommand this +:+ " package"] this in
    NodeProject.start_addEntry "package"
      {| desc := "Create an npm tarball"; category := RELEASE |} this
  else this.

(** Lines 172-174: the [types] field of the manifest. *)
Definition register_types (options : TypeScriptProjectOptions.t)
    (this : NodeProject.t) : NodeProject.t :=
  if truthy_string (TypeScriptProjectOptions.entrypointTypes options)
     || negb (bool_decide (NodeProject.entrypoint this = ""))
  then
    NodeProject.set_manifest
      (<["types" := JString
           (default (types_of_entrypoint (NodeProject.entrypoint this))
              (TypeScriptProjectOptions.entrypointTypes options))]>
         (NodeProject.manifest this)) this
  else this.

(** Lines 199-213: the main [TypescriptConfig], unless it is disabled. *)
Definition register_tsconfig (options : TypeScriptProjectOptions.t)
    (srcdir libdir : string) (this : NodeProject.t)
    : option TypescriptConfig.t * NodeProject.t :=
  if negb (truthy_bool (TypeScriptProjectOptions.disableTsconfig options)) then
    let '(tsconfig, this) :=
      TypescriptConfig_new this
        (tsconfig_options srcdir libdir (TypeScriptProjectOptions.tsconfig options)) in
    (Some tsconfig, this)
  else (None, this).

(** Lines 215-230: the ignore patterns. *)
Definition register_ignores (srcdir libdir : string) (this : NodeProject.t)
    : NodeProject.t :=
  let this := NodeProject.gitignore_exclude ("/" +:+ libdir) this in
  let this := NodeProject.npmignore_include ("/" +:+ libdir) this in

  let this := NodeProject.gitignore_include ("/" +:+ srcdir) this in
  let this := NodeProject.npmignore_exclude ("/" +:+ srcdir) this in

  let this := NodeProject.npmignore_include ("/" +:+ libdir +:+ "/**/*.js") this in
  let this := NodeProject.npmignore_include ("/" +:+ libdir +:+ "/**/*.d.ts") this in

  let this := NodeProject.gitignore_exclude "/dist" this in
  let this := NodeProject.npmignore_exclude "dist" this in

  let this := NodeProject.npmignore_exclude "/tsconfig.json" this in
  let this := NodeProject.npmignore_exclude "/.github" this in
  let this := NodeProject.npmignore_exclude "/.vscode" this in
  NodeProject.npmignore_exclude "/.projenrc.js" this.

(** Lines 232-267: jest with its own [TypescriptConfig].  The result holds the
    file name for eslint, the options of the [Jest] component and the
    project. *)
Definition register_jest {components : Components}
    (options : TypeScriptProjectOptions.t)
    (srcdir libdir testdir : string) (this : NodeProject.t)
    : string * option JestOptions.t * NodeProject.t :=
  let compileBeforeTest := default false (TypeScriptProjectOptions.compileBeforeTest options) in
  let eslintTsConfig := "tsconfig.json" in

  if default true (TypeScriptProjectOptions.jest options) then
    let '(tsconfig, this) :=
      TypescriptConfig_new this (jest_tsconfig_options srcdir testdir) in

    let eslintTsConfig := TypescriptConfig.fileName tsconfig in

    let this :=
      if negb compileBeforeTest
      then NodeProject.addTestCommand ["rm -fr " +:+ libdir +:+ "/"] this
      else this in

    let jest := jest_options tsconfig (TypeScriptProjectOptions.jestOptions options) in
    let this := construct (JestComponent jest) (Jest_new jest) this in

    let this := NodeProject.gitignore_include ("/" +:+ testdir) this in
    let this := NodeProject.npmignore_exclude ("/" +:+ testdir) this in
    (eslintTsConfig, Some jest, this)
  else (eslintTsConfig, None, this).

(** Lines 269-274: eslint, pointed at the file chosen by the jest block. *)
Definition register_eslint {components : Components}
    (options : TypeScriptProjectOptions.t)
    (srcdir testdir eslintTsConfig : string) (this : NodeProject.t)
    : option EslintOptions.t * NodeProject.t :=
  if default true (TypeScriptProjectOptions.eslint options) then
    let eslint := EslintOptions.mk ("./" +:+ eslintTsConfig) [srcdir; testdir] in
    (Some eslint, construct (EslintComponent eslint) (Eslint_new eslint) this)
  else (None, this).

(** Lines 276-288: development dependencies, sample code, docgen. *)
Definition register_tooling {components : Components}
    (options : TypeScriptProjectOptions.t)
    (srcdir testdir : string) (this : NodeProject.t) : NodeProject.t :=
  let this :=
    NodeProject.addDevDependencies
      (<["@types/node" :=
           Semver.caret (default "10.17.0" (NodeProject.minNodeVersion this))]>
         (<["typescript" :=
              default (Semver.caret "3.9.5")
                (TypeScriptProjectOptions.typescriptVersion options)]> ∅))
      this in

  let this :=
    if default true (TypeScriptProjectOptions.sampleCode options)
    then NodeProject.addComponent (SampleCodeComponent srcdir testdir) this
    else this in

  if truthy_bool (TypeScriptProjectOptions.docgen options)
  then construct TypedocDocgenComponent TypedocDocgen_new this
  else this.

(** The literal in front of [...options] in the constructor of
    [TypeScriptAppProject] (lines 683-689). *)
Definition app_defaults : TypeScriptProjectOptions.t :=
  {| TypeScriptProjectOptions.srcdir := None;
     TypeScriptProjectOptions.libdir := None;
     TypeScriptProjectOptions.testdir := None;
     TypeScriptProjectOptions.entrypoint := Some "";
     TypeScriptProjectOptions.allowLibraryDependencies := Some false;
     TypeScriptProjectOptions.releaseWorkflow := Some false;
     TypeScriptProjectOptions.otherNodeOptions := ∅;
     TypeScriptProjectOptions.jest := None;
     TypeScriptProjectOptions.jestOptions := None;
     TypeScriptProjectOptions.eslint := None;
     TypeScriptProjectOptions.typescriptVersion := None;
     TypeScriptProjectOptions.docgen := None;
     TypeScriptProjectOptions.docsDirectory := None;
     TypeScriptProjectOptions.tsconfig := None;
     TypeScriptProjectOptions.disableTsconfig := None;
     TypeScriptProjectOptions.compileBeforeTest := None;
     TypeScriptProjectOptions.sampleCode := None;
     TypeScriptProjectOptions.entrypointTypes := None;
     TypeScriptProjectOptions.package := Some false |}.

Section Constructors.

Context {components : Components}.

(** The constructor of [NodeProject] lives in ./node-project: the project
    it leaves behind for given options is a parameter. *)
Variable NodeProject_new : TypeScriptProjectOptions.t → NodeProject.t.

(** The constructor (lines 121-289). *)
Definition TypeScriptProject_new (options : TypeScriptProjectOptions.t)
    : TypeScriptProject.t :=
  let this := NodeProject_new options in

  let srcdir := default "src" (TypeScriptProjectOptions.srcdir options) in
  let libdir := default "lib" (TypeScriptProjectOptions.libdir options) in
  let testdir := default "test" (TypeScriptProjectOptions.testdir options) in

  let docgen := TypeScriptProjectOptions.docgen options in
  let docsDirectory := default "docs/" (TypeScriptProjectOptions.docsDirectory options) in

  let this := register_scripts options this in
  let this := register_types options this in
  let '(tsconfig, this) := register_tsconfig options srcdir libdir this in
  let this := register_ignores srcdir libdir this in
  let '(eslintTsConfig, jest, this) := register_jest options srcdir libdir testdir this in
  let '(eslint, this) := register_eslint options srcdir testdir eslintTsConfig this in
  let this := register_tooling options srcdir testdir this in

  TypeScriptProject.mk this docgen docsDirectory eslint jest tsconfig
    srcdir libdir testdir.

(** The project as the constructor has it in front of line 199, in front
    of line 232 and behind line 267. *)
Definition project_before_tsconfig (options : TypeScriptProjectOptions.t)
    : NodeProject.t :=
  register_types options (register_scripts options (NodeProject_new options)).

Definition project_before_jest (options : TypeScriptProjectOptions.t)
    : NodeProject.t :=
  let srcdir := default "src" (TypeScriptProjectOptions.srcdir options) in
  let libdir := default "lib" (TypeScriptProjectOptions.libdir options) in
  register_ignores srcdir libdir
    (register_tsconfig options srcdir libdir (project_before_tsconfig options)).2.

Definition project_after_jest (options : TypeScriptProjectOptions.t)
    : NodeProject.t :=
  let srcdir := default "src" (TypeScriptProjectOptions.srcdir options) in
  let libdir := default "lib" (TypeScriptProjectOptions.libdir options) in
  let testdir := default "test" (TypeScriptProjectOptions.testdir options) in
  (register_jest options srcdir libdir testdir (project_before_jest options)).2.

(** ** [TypeScriptAppProject] (lines 681-691) *)

Definition TypeScriptAppProject_new (options : TypeScriptProjectOptions.t)
    : TypeScriptProject.t :=
  TypeScriptProject_new (TypeScriptProjectOptions.spread app_defaults options).

End Constructors.

(** ** The file system seen by [SampleCode]

    [fs-extra] is a dependency, not part of this repository.  A file system
    is a finite map from resolved paths to nodes; the roots "/" and "." are
    directories that always exist.  [pathExistsSync], [readdirSync],
    [mkdirpSync] and [writeFileSync] follow their documented behaviour,
    exceptions included. *)
Module fs.

Inductive node :=
  | Dir
  | File (data : string).

Inductive error := ENOENT | ENOTDIR | EISDIR | EEXIST.

(** A path names the same node with or without a trailing separator. *)
Definition strip_trailing_sep (l : list ascii) : list ascii :=
  match rev l with
  | c :: (_ :: _) as r => if path.is_sep c then rev r else l
  | _ => l
  end.

Definition resolve (p : string) : string :=
  path.str (strip_trailing_sep (path.normalize_chars (path.chars p))).

Definition is_root (p : string) : bool :=
  bool_decide (p = "/") || bool_decide (p = ".").

(** The node under a resolved path. *)
Definition node_at (k : string) (d : gmap string node) : option node :=
  if is_root k then Some Dir else d !! k.

Definition stat (p : string) (d : gmap string node) : option node :=
  node_at (resolve p) d.

Definition pathExistsSync (p : string) (d : gmap string node) : bool :=
  match stat p d with
  | Some _ => true
  | None => false
  end.

(** The names of the entries directly under a directory. *)
Definition entries (p : string) (d : gmap string node) : list string :=
  let k := resolve p in
  (λ e, path.basename e.1 "") <$>
    filter (λ e, path.dirname e.1 = k ∧ e.1 ≠ k) (map_to_list d).

Definition readdirSync (p : string) (d : gmap string node) : error + list string :=
  match stat p d with
  | Some Dir => inr (entries p d)
  | Some (File _) => inl ENOTDIR
  | None => inl ENOENT
  end.

(** [mkdirpSync] creates the directory and every missing ancestor; an
    existing file on the way makes it throw before anything is created. *)
Fixpoint mkdirp_from (fuel : nat) (k : string) (d : gmap string node)
    : error + gmap string node :=
  if is_root k then inr d
  else
    match d !! k with
    | Some Dir => inr d
    | Some (File _) => inl EEXIST
    | None =>
        match fuel with
        | 0 => inr (<[k := Dir]> d)
        | S fuel' =>
            match mkdirp_from fuel' (path.dirname k) d with
            | inl _ => inl ENOTDIR
            | inr d' => inr (<[k := Dir]> d')
            end
        end
    end.

Definition mkdirpSync (p : string) (d : gmap string node) : error + gmap string node :=
  let k := resolve p in
  mkdirp_from (String.length k) k d.

(** [writeFileSync] needs the parent directory and replaces a file of the
    same name. *)
Definition writeFileSync (p data : string) (d : gmap string node)
    : error + gmap string node :=
  let k := resolve p in
  match node_at k d with
  | Some Dir => inl EISDIR
  | _ =>
      match node_at (path.dirname k) d with
      | Some Dir => inr (<[k := File data]> d)
      | Some (File _) => inl ENOTDIR
      | None => inl ENOENT
      end
  end.

End fs.

(** ** Synchronous file-system code: state with exceptions

    A computation takes the file system and leaves the file system it
    reached, together with its result or the exception that stopped it. *)
Definition IO (A : Type) : Type :=
  gmap string fs.node → gmap string fs.node * (fs.error + A).

Definition io_ret {A} (a : A) : IO A := λ d, (d, inr a).

Definition io_bind {A B} (m : IO A) (k : A → IO B) : IO B :=
  λ d, match m d with
       | (d', inr a) => k a d'
       | (d', inl e) => (d', inl e)
       end.

(** A query of the file system, which may throw. *)
Definition io_query {A} (f : gmap string fs.node → fs.error + A) : IO A :=
  λ d, (d, f d).

(** An update of the file system, which leaves it as it was when it throws. *)
Definition io_update (f : gmap string fs.node → fs.error + gmap string fs.node)
    : IO unit :=
  λ d, match f d with
       | inr d' => (d', inr tt)
       | inl e => (d, inl e)
       end.

Notation "'let!' x := m 'in' k" := (io_bind m (λ x, k))
  (at level 10, x name, m at level 200, k at level 200).
Notation "'do!' m 'in' k" := (io_bind m (λ _, k))
  (at level 10, m at level 200, k at level 200).

(** ** [SampleCode] (lines 632-674) *)

Definition newline : string := String (ascii_of_nat 10) EmptyString.

(** [lines.join('\n')] *)
Fixpoint join_lines (lines : list string) : string :=
  match lines with
  | [] => EmptyString
  | [l] => l
  | l :: rest => l +:+ newline +:+ join_lines rest
  end.

Definition srcCode : list string := [
  "export class Hello {";
  "  public sayHello() {";
  "    return 'hello, world!'";
  "  }";
  "}"
].

Definition testCode : list string := [
  "import { Hello } from '../src'";
  "";
  "test('hello', () => {";
  "  expect(new Hello().sayHello()).toBe('hello, world!');";
  "});"
].

(** The guard of both early returns:
    [fs.pathExistsSync(dir) && fs.readdirSync(dir).filter(x => x.endsWith('.ts'))].
    The right operand is an array, and the condition tests that array, not
    its length. *)
Definition has_sources (dir : string) : IO bool :=
  io_query (λ d,
    if fs.pathExistsSync dir d then
      match fs.readdirSync dir d with
      | inr names => inr (truthy_array (filter (λ x, endsWith x ".ts" = true) names))
      | inl e => inl e
      end
    else inr false).

(** [synthesize(outdir)] of a [SampleCode] whose project has the given
    [srcdir] and [testdir]. *)
Definition SampleCode_synthesize (project_srcdir project_testdir : string)
    (outdir : string) : IO unit :=
  let srcdir := path.join outdir project_srcdir in
  let! skip := has_sources srcdir in
  if skip : bool then io_ret tt
  else
    do! io_update (fs.mkdirpSync srcdir) in
    do! io_update (fs.writeFileSync (path.join srcdir "index.ts") (join_lines srcCode)) in
    let testdir := path.join outdir project_testdir in
    let! skip := has_sources testdir in
    if skip : bool then io_ret tt
    else
      do! io_update (fs.mkdirpSync testdir) in
      io_update (fs.writeFileSync (path.join testdir "hello.test.ts") (join_lines testCode)).

(** ** A project to run the constructors on *)

(** Modelled from the spec: the project that the [NodeProject] constructor
    (in ./node-project) hands over, as the Project aggregate of the data
    model starts: empty registries, a package-ignore list, and the entrypoint
    of the options or [lib/index.js]. *)
Definition NodeProject_fresh (options : TypeScriptProjectOptions.t) : NodeProject.t :=
  {| NodeProject.entrypoint :=
       default "lib/index.js" (TypeScriptProjectOptions.entrypoint options);
     NodeProject.packageManager := "yarn";
     NodeProject.runScriptCommand := "yarn run";
     NodeProject.minNodeVersion := None;
     NodeProject.manifest := ∅;
     NodeProject.scripts := ∅;
     NodeProject.start := Some [];
     NodeProject.gitignore := [];
     NodeProject.npmignore := Some [];
     NodeProject.devDependencies := ∅;
     NodeProject.files := [];
     NodeProject.components := [] |}.

(** The same project without a package-ignore list. *)
Definition NodeProject_unpackaged (options : TypeScriptProjectOptions.t) : NodeProject.t :=
  NodeProject.set_npmignore None (NodeProject_fresh options).

(** Components to run the constructors with.  [Jest] registers a test
    command, two scripts, two dependencies, the manifest key [jest] and the
    coverage directory; [Eslint] registers a script, a test command, a
    dependency and its configuration file; [TypedocDocgen] registers a script
    and a dependency. *)
Definition sample_components : Components :=
  {| Jest_new := λ _ _,
       [AddScriptCommand "test" ["jest --passWithNoTests"];
        AddScriptCommand "test:watch" ["jest --watch"];
        AddScriptCommand "test:update" ["jest -u"];
        AddDevDependencies
          (<["jest" := Semver.caret "26.0.1"]>
             (<["ts-jest" := Semver.caret "26.1.0"]> ∅));
        SetManifest "jest" (JArray ["ts-jest"]);
        GitignoreExclude "/coverage";
        NpmignoreExclude "/coverage"];
     Eslint_new := λ options _,
       [AddDevDependencies (<["eslint" := Semver.caret "6.8.0"]> ∅);
        AddScriptCommand "eslint"
          ["eslint --ext .ts --project " +:+ EslintOptions.tsconfigPath options];
        AddScriptCommand "test" ["eslint"];
        NpmignoreExclude "/.eslintrc.json"];
     TypedocDocgen_new := λ _,
       [AddDevDependencies (<["typedoc" := Semver.caret "0.17.8"]> ∅);
        AddScriptCommand "docgen" ["typedoc --out docs"]] |}.

(** The options object [{}]: every default applies. *)
Definition default_options : TypeScriptProjectOptions.t :=
  TypeScriptProjectOptions.empty.


(** ** Sample options *)

(** [{ disableTsconfig: true }] *)
Definition options_disableTsconfig : TypeScriptProjectOptions.t :=
  {| TypeScriptProjectOptions.srcdir := None;
     TypeScriptProjectOptions.libdir := None;
     TypeScriptProjectOptions.testdir := None;
     TypeScriptProjectOptions.entrypoint := None;
     TypeScriptProjectOptions.allowLibraryDependencies := None;
     TypeScriptProjectOptions.releaseWorkflow := None;
     TypeScriptProjectOptions.otherNodeOptions := ∅;
     TypeScriptProjectOptions.jest := None;
     TypeScriptProjectOptions.jestOptions := None;
     TypeScriptProjectOptions.eslint := None;
     TypeScriptProjectOptions.typescriptVersion := None;
     TypeScriptProjectOptions.docgen := None;
     TypeScriptProjectOptions.docsDirectory := None;
     TypeScriptProjectOptions.tsconfig := None;
     TypeScriptProjectOptions.disableTsconfig := Some true;
     TypeScriptProjectOptions.compileBeforeTest := None;
     TypeScriptProjectOptions.sampleCode := None;
     TypeScriptProjectOptions.entrypointTypes := None;
     TypeScriptProjectOptions.package := None |}.

(** [{ compileBeforeTest: true, package: false }] *)
Definition options_compileBeforeTest : TypeScriptProjectOptions.t :=
  {| TypeScriptProjectOptions.srcdir := None;
     TypeScriptProjectOptions.libdir := None;
     TypeScriptProjectOptions.testdir := None;
     TypeScriptProjectOptions.entrypoint := None;
     TypeScriptProjectOptions.allowLibraryDependencies := None;
     TypeScriptProjectOptions.releaseWorkflow := None;
     TypeScriptProjectOptions.otherNodeOptions := ∅;
     TypeScriptProjectOptions.jest := None;
     TypeScriptProjectOptions.jestOptions := None;
     TypeScriptProjectOptions.eslint := None;
     TypeScriptProjectOptions.typescriptVersion := None;
     TypeScriptProjectOptions.docgen := None;
     TypeScriptProjectOptions.docsDirectory := None;
     TypeScriptProjectOptions.tsconfig := None;
     TypeScriptProjectOptions.disableTsconfig := None;
     TypeScriptProjectOptions.compileBeforeTest := Some true;
     TypeScriptProjectOptions.sampleCode := None;
     TypeScriptProjectOptions.entrypointTypes := None;
     TypeScriptProjectOptions.package := Some false |}.

(** [{ compilerOptions: { allowJs: true } }] *)
Definition tsconfig_allowJs : TypescriptConfigOptions.t :=
  {| TypescriptConfigOptions.fileName := None;
     TypescriptConfigOptions.include := None;
     TypescriptConfigOptions.exclude := None;
     TypescriptConfigOptions.compilerOptions := {["allowJs" := JBool true]} |}.

(** [{ tsconfig: { compilerOptions: { allowJs: true } } }] *)
Definition options_custom_tsconfig : TypeScriptProjectOptions.t :=
  {| TypeScriptProjectOptions.srcdir := None;
     TypeScriptProjectOptions.libdir := None;
     TypeScriptProjectOptions.testdir := None;
     TypeScriptProjectOptions.entrypoint := None;
     TypeScriptProjectOptions.allowLibraryDependencies := None;
     TypeScriptProjectOptions.releaseWorkflow := None;
     TypeScriptProjectOptions.otherNodeOptions := ∅;
     TypeScriptProjectOptions.jest := None;
     TypeScriptProjectOptions.jestOptions := None;
     TypeScriptProjectOptions.eslint := None;
     TypeScriptProjectOptions.typescriptVersion := None;
     TypeScriptProjectOptions.docgen := None;
     TypeScriptProjectOptions.docsDirectory := None;
     TypeScriptProjectOptions.tsconfig := Some tsconfig_allowJs;
     TypeScriptProjectOptions.disableTsconfig := None;
     TypeScriptProjectOptions.compileBeforeTest := None;
     TypeScriptProjectOptions.sampleCode := None;
     TypeScriptProjectOptions.entrypointTypes := None;
     TypeScriptProjectOptions.package := None |}.

(** [{ entrypoint: '', entrypointTypes: '' }] *)
Definition options_empty_types : TypeScriptProjectOptions.t :=
  {| TypeScriptProjectOptions.srcdir := None;
     TypeScriptProjectOptions.libdir := None;
     TypeScriptProjectOptions.testdir := None;
     TypeScriptProjectOptions.entrypoint := Some "";
     TypeScriptProjectOptions.allowLibraryDependencies := None;
     TypeScriptProjectOptions.releaseWorkflow := None;
     TypeScriptProjectOptions.otherNodeOptions := ∅;
     TypeScriptProjectOptions.jest := None;
     TypeScriptProjectOptions.jestOptions := None;
     TypeScriptProjectOptions.eslint := None;
     TypeScriptProjectOptions.typescriptVersion := None;
     TypeScriptProjectOptions.docgen := None;
     TypeScriptProjectOptions.docsDirectory := None;
     TypeScriptProjectOptions.tsconfig := None;
     TypeScriptProjectOptions.disableTsconfig := None;
     TypeScriptProjectOptions.compileBeforeTest := None;
     TypeScriptProjectOptions.sampleCode := None;
     TypeScriptProjectOptions.entrypointTypes := Some "";
     TypeScriptProjectOptions.package := None |}.

(** [{ entrypoint: 'lib/main.js', jest: false, srcdir: 'source' }] *)
Definition options_app : TypeScriptProjectOptions.t :=
  {| TypeScriptProjectOptions.srcdir := Some "source";
     TypeScriptProjectOptions.libdir := None;
     TypeScriptProjectOptions.testdir := None;
     TypeScriptProjectOptions.entrypoint := Some "lib/main.js";
     TypeScriptProjectOptions.allowLibraryDependencies := None;
     TypeScriptProjectOptions.releaseWorkflow := None;
     TypeScriptProjectOptions.otherNodeOptions := ∅;
     TypeScriptProjectOptions.jest := Some false;
     TypeScriptProjectOptions.jestOptions := None;
     TypeScriptProjectOptions.eslint := None;
     TypeScriptProjectOptions.typescriptVersion := None;
     TypeScriptProjectOptions.docgen := None;
     TypeScriptProjectOptions.docsDirectory := None;
     TypeScriptProjectOptions.tsconfig := None;
     TypeScriptProjectOptions.disableTsconfig := None;
     TypeScriptProjectOptions.compileBeforeTest := None;
     TypeScriptProjectOptions.sampleCode := None;
     TypeScriptProjectOptions.entrypointTypes := None;
     TypeScriptProjectOptions.package := None |}.

(** ** Contributions of the constructor, as lists

    The commands, files and patterns that the blocks add, for use in the
    statements below. *)

(** The commands that the block appends to the build script. *)
Definition build_commands (options : TypeScriptProjectOptions.t) (run : string)
    : list string :=
  (if default false (TypeScriptProjectOptions.compileBeforeTest options)
   then [run +:+ " compile"; run +:+ " test"]
   else [run +:+ " test"; run +:+ " compile"])
  ++ (if default true (TypeScriptProjectOptions.package options)
      then [run +:+ " package"] else []).

(** The files and patterns that the block of the main instance adds. *)
Definition tsconfig_files (o : TypeScriptProjectOptions.t) (srcdir libdir : string)
    (p : NodeProject.t) : list JsonFile.t :=
  match (register_tsconfig o srcdir libdir p).1 with
  | Some c => [TypescriptConfig.file c]
  | None => []
  end.

Definition tsconfig_patterns (o : TypeScriptProjectOptions.t) (srcdir libdir : string)
    (p : NodeProject.t) : list IgnoreFile.entry :=
  match (register_tsconfig o srcdir libdir p).1 with
  | Some c => [IgnoreFile.Exclude ("/" +:+ TypescriptConfig.fileName c)]
  | None => []
  end.

(** The patterns that the block appends to the package-ignore list. *)
Definition package_patterns (sd ld : string) : list IgnoreFile.entry :=
  [IgnoreFile.Include ("/" +:+ ld);
   IgnoreFile.Exclude ("/" +:+ sd);
   IgnoreFile.Include ("/" +:+ ld +:+ "/**/*.js");
   IgnoreFile.Include ("/" +:+ ld +:+ "/**/*.d.ts");
   IgnoreFile.Exclude "dist";
   IgnoreFile.Exclude "/tsconfig.json";
   IgnoreFile.Exclude "/.github";
   IgnoreFile.Exclude "/.vscode";
   IgnoreFile.Exclude "/.projenrc.js"].

(** What the block adds to the registries. *)
Definition jest_enabled (o : TypeScriptProjectOptions.t) : bool :=
  default true (TypeScriptProjectOptions.jest o).

Definition jest_tsconfig (sd td : string) (p : NodeProject.t) : TypescriptConfig.t :=
  (TypescriptConfig_new p (jest_tsconfig_options sd td)).1.

Definition cleanup_commands (o : TypeScriptProjectOptions.t) (ld : string)
    : list string :=
  if jest_enabled o
     && negb (default false (TypeScriptProjectOptions.compileBeforeTest o))
  then ["rm -fr " +:+ ld +:+ "/"] else [].

(** ** Contributions of the components, as lists *)

(** The commands that the contributions append to the script [name]. *)
Definition script_commands (name : string) (cs : list Contribution) : list string :=
  cs ≫= λ c,
    match c with
    | AddScriptCommand n commands => if bool_decide (n = name) then commands else []
    | _ => []
    end.

(** The entries that they append to the start menu and to the two Pattern
    Lists. *)
Definition menu_entries (cs : list Contribution) : list (string * StartEntryOptions) :=
  cs ≫= λ c, match c with AddStartEntry name o => [(name, o)] | _ => [] end.

Definition gitignore_entries (cs : list Contribution) : list IgnoreFile.entry :=
  cs ≫= λ c,
    match c with
    | GitignoreExclude pattern => [IgnoreFile.Exclude pattern]
    | GitignoreInclude pattern => [IgnoreFile.Include pattern]
    | _ => []
    end.

Definition npmignore_entries (cs : list Contribution) : list IgnoreFile.entry :=
  cs ≫= λ c,
    match c with
    | NpmignoreExclude pattern => [IgnoreFile.Exclude pattern]
    | NpmignoreInclude pattern => [IgnoreFile.Include pattern]
    | _ => []
    end.

(** The development dependencies and the manifest behind the contributions,
    and the manifest keys that they write. *)
Definition devDependencies_after (cs : list Contribution)
    (deps : gmap string Semver.t) : gmap string Semver.t :=
  foldl (λ deps c, match c with AddDevDependencies d => d ∪ deps | _ => deps end)
    deps cs.

Definition manifest_after (cs : list Contribution)
    (manifest : gmap string JsonValue) : gmap string JsonValue :=
  foldl (λ manifest c,
           match c with SetManifest k v => <[k := v]> manifest | _ => manifest end)
    manifest cs.

Definition manifest_keys (cs : list Contribution) : list string :=
  cs ≫= λ c, match c with SetManifest k _ => [k] | _ => [] end.

(** What [Jest], [Eslint] and [TypedocDocgen] contribute when their blocks
    run on project [p]: nothing when the component is switched off. *)
Definition jest_contributions {components : Components}
    (o : TypeScriptProjectOptions.t) (sd ld td : string) (p : NodeProject.t)
    : list Contribution :=
  if jest_enabled o then
    let this := (TypescriptConfig_new p (jest_tsconfig_options sd td)).2 in
    let this :=
      if negb (default false (TypeScriptProjectOptions.compileBeforeTest o))
      then NodeProject.addTestCommand ["rm -fr " +:+ ld +:+ "/"] this
      else this in
    Jest_new (jest_options (jest_tsconfig sd td p) (TypeScriptProjectOptions.jestOptions o))
      this
  else [].

Definition eslint_contributions {components : Components}
    (o : TypeScriptProjectOptions.t) (sd td eslintTsConfig : string)
    (p : NodeProject.t) : list Contribution :=
  if default true (TypeScriptProjectOptions.eslint o)
  then Eslint_new (EslintOptions.mk ("./" +:+ eslintTsConfig) [sd; td]) p
  else [].

Definition docgen_contributions {components : Components}
    (o : TypeScriptProjectOptions.t) (sd td : string) (p : NodeProject.t)
    : list Contribution :=
  if truthy_bool (TypeScriptProjectOptions.docgen o) then
    let this :=
      NodeProject.addDevDependencies
        (<["@types/node" :=
             Semver.caret (default "10.17.0" (NodeProject.minNodeVersion p))]>
           (<["typescript" :=
                default (Semver.caret "3.9.5")
                  (TypeScriptProjectOptions.typescriptVersion o)]> ∅))
        p in
    let this :=
      if default true (TypeScriptProjectOptions.sampleCode o)
      then NodeProject.addComponent (SampleCodeComponent sd td) this
      else this in
    TypedocDocgen_new this
  else [].

(** The commands that the constructor itself appends to the script [name]:
    those of lines 131-170, and the cleanup of line 257 for the test
    script. *)
Definition constructor_commands (o : TypeScriptProjectOptions.t)
    (run packageManager ld name : string) : list string :=
  if bool_decide (name = "compile") then ["tsc"]
  else if bool_decide (name = "watch") then ["tsc -w"]
  else if bool_decide (name = "build") then build_commands o run
  else if bool_decide (name = "package") then
    (if default true (TypeScriptProjectOptions.package o)
     then ["rm -fr dist"; "mkdir -p dist/js"; packageManager +:+ " pack";
           "mv *.tgz dist/js/"]
     else [])
  else if bool_decide (name = "test") then cleanup_commands o ld
  else [].

Section Contributions.

Context {components : Components}.
Variable NodeProject_new : TypeScriptProjectOptions.t → NodeProject.t.

(** The contributions of the components that one run of the constructor
    builds: jest, eslint and docgen, in the order of their construction. *)
Definition jest_contributed (o : TypeScriptProjectOptions.t) : list Contribution :=
  jest_contributions o
    (default "src" (TypeScriptProjectOptions.srcdir o))
    (default "lib" (TypeScriptProjectOptions.libdir o))
    (default "test" (TypeScriptProjectOptions.testdir o))
    (project_before_jest NodeProject_new o).

Definition eslint_contributed (o : TypeScriptProjectOptions.t) : list Contribution :=
  eslint_contributions o
    (default "src" (TypeScriptProjectOptions.srcdir o))
    (default "test" (TypeScriptProjectOptions.testdir o))
    (if jest_enabled o then "tsconfig.jest.json" else "tsconfig.json")
    (project_after_jest NodeProject_new o).

Definition docgen_contributed (o : TypeScriptProjectOptions.t) : list Contribution :=
  let srcdir := default "src" (TypeScriptProjectOptions.srcdir o) in
  let testdir := default "test" (TypeScriptProjectOptions.testdir o) in
  docgen_contributions o srcdir testdir
    (register_eslint o srcdir testdir
       (if jest_enabled o then "tsconfig.jest.json" else "tsconfig.json")
       (project_after_jest NodeProject_new o)).2.

Definition component_contributions (o : TypeScriptProjectOptions.t)
    : list Contribution :=
  jest_contributed o ++ eslint_contributed o ++ docgen_contributed o.

End Contributions.

(** ** Paths made of clean segments *)

(** A segment that [normalize] keeps as it is. *)
Definition clean (s : list ascii) : Prop :=
  s ≠ [] ∧ s ≠ path.dot ∧ s ≠ path.dotdot
  ∧ Forall (λ c, c ≠ path.sep ∧ c ≠ backslash) s.

Definition clean_segment (s : string) : Prop := clean (path.chars s).

(** The path with the given segments: [path_of ["lib"; "index.js"]] is
    [lib/index.js]. *)
Definition path_of (segments : list string) : string :=
  path.str (path.unsplit (path.chars <$> segments)).

(** ** The preset of the app variant, as the specification words it

    Every key comes from the caller's options; [entrypoint], [package],
    [allowLibraryDependencies] and [releaseWorkflow] fall back to the preset
    values [''], [false], [false] and [false]. *)
Definition app_preset_options (o : TypeScriptProjectOptions.t)
    : TypeScriptProjectOptions.t :=
  {| TypeScriptProjectOptions.srcdir := TypeScriptProjectOptions.srcdir o;
     TypeScriptProjectOptions.libdir := TypeScriptProjectOptions.libdir o;
     TypeScriptProjectOptions.testdir := TypeScriptProjectOptions.testdir o;
     TypeScriptProjectOptions.entrypoint :=
       Some (default "" (TypeScriptProjectOptions.entrypoint o));
     TypeScriptProjectOptions.allowLibraryDependencies :=
       Some (default false (TypeScriptProjectOptions.allowLibraryDependencies o));
     TypeScriptProjectOptions.releaseWorkflow :=
       Some (default false (TypeScriptProjectOptions.releaseWorkflow o));
     TypeScriptProjectOptions.otherNodeOptions :=
       TypeScriptProjectOptions.otherNodeOptions o;
     TypeScriptProjectOptions.jest := TypeScriptProjectOptions.jest o;
     TypeScriptProjectOptions.jestOptions := TypeScriptProjectOptions.jestOptions o;
     TypeScriptProjectOptions.eslint := TypeScriptProjectOptions.eslint o;
     TypeScriptProjectOptions.typescriptVersion :=
       TypeScriptProjectOptions.typescriptVersion o;
     TypeScriptProjectOptions.docgen := TypeScriptProjectOptions.docgen o;
     TypeScriptProjectOptions.docsDirectory :=
       TypeScriptProjectOptions.docsDirectory o;
     TypeScriptProjectOptions.tsconfig := TypeScriptProjectOptions.tsconfig o;
     TypeScriptProjectOptions.disableTsconfig :=
       TypeScriptProjectOptions.disableTsconfig o;
     TypeScriptProjectOptions.compileBeforeTest :=
       TypeScriptProjectOptions.compileBeforeTest o;
     TypeScriptProjectOptions.sampleCode := TypeScriptProjectOptions.sampleCode o;
     TypeScriptProjectOptions.entrypointTypes :=
       TypeScriptProjectOptions.entrypointTypes o;
     TypeScriptProjectOptions.package :=
       Some (default false (TypeScriptProjectOptions.package o)) |}.

(** ** Sample projects and file systems

    The projects are built with [sample_components]. *)

Definition project_default : TypeScriptProject.t :=
  TypeScriptProject_new (components := sample_components) NodeProject_fresh default_options.

Definition project_disableTsconfig : TypeScriptProject.t :=
  TypeScriptProject_new (components := sample_components) NodeProject_fresh options_disableTsconfig.

Definition project_compileBeforeTest : TypeScriptProject.t :=
  TypeScriptProject_new (components := sample_components) NodeProject_fresh options_compileBeforeTest.

Definition project_custom_tsconfig : TypeScriptProject.t :=
  TypeScriptProject_new (components := sample_components) NodeProject_fresh options_custom_tsconfig.

Definition project_empty_types : TypeScriptProject.t :=
  TypeScriptProject_new (components := sample_components) NodeProject_fresh options_empty_types.

(** An output directory whose source directory is there and empty. *)
Definition fs_empty_srcdir : gmap string fs.node :=
  <["out/src" := fs.Dir]> (<["out" := fs.Dir]> ∅).

(** An output directory without a source directory whose test directory is
    there and empty. *)
Definition fs_empty_testdir : gmap string fs.node :=
  <["out/test" := fs.Dir]> (<["out" := fs.Dir]> ∅).

(** ** [TypeScriptLibraryProject] (line 696)

    The deprecated class adds nothing to [TypeScriptProject]. *)
Definition TypeScriptLibraryProject_new {components : Components}
    (NodeProject_new : TypeScriptProjectOptions.t → NodeProject.t)
    (options : TypeScriptProjectOptions.t) : TypeScriptProject.t :=
  TypeScriptProject_new NodeProject_new options.

(** ** Statements about file systems *)

(** The paths of [d] are all there in [d'], directories as directories and
    files as files. *)
Definition fs_extends (d d' : gmap string fs.node) : Prop :=
  ∀ k, (d !! k = Some fs.Dir → d' !! k = Some fs.Dir)
       ∧ (∀ data, d !! k = Some (fs.File data) → ∃ data', d' !! k = Some (fs.File data')).

(** A path whose last segment is [name]. *)
Definition ends_in (name l : list ascii) : Prop :=
  ∃ pre, l = pre ++ name ∧ (pre = [] ∨ ∃ pre', pre = pre' ++ [path.sep]).

(** The commands of the package script (lines 157-162). *)
Definition package_commands (packageManager : string) : list string :=
  ["rm -fr dist"; "mkdir -p dist/js"; packageManager +:+ " pack"; "mv *.tgz dist/js/"].

(** The entries of the start menu (lines 132-169). *)
Definition start_entries (options : TypeScriptProjectOptions.t)
    : list (string * StartEntryOptions) :=
  [("compile", {| desc := "Only compile"; category := BUILD |});
   ("watch", {| desc := "Watch & compile in the background"; category := BUILD |});
   ("build", {| desc := "Full release build (test+compile)"; category := BUILD |})]
  ++ (if default true (TypeScriptProjectOptions.package options)
      then [("package", {| desc := "Create an npm tarball"; category := RELEASE |})]
      else []).

(** A computation that keeps every path of the file system. *)
Definition io_extends {A} (m : IO A) : Prop := ∀ d, fs_extends d (m d).1.

(** File systems for the exceptions of [synthesize]: the source path, or the
    test path, is a regular file. *)
Definition fs_src_is_file : gmap string fs.node :=
  <["out/src" := fs.File "x"]> (<["out" := fs.Dir]> ∅).

Definition fs_test_is_file : gmap string fs.node :=
  <["out/test" := fs.File "x"]> (<["out" := fs.Dir]> ∅).

(** An output directory that holds nothing yet. *)
Definition fs_empty_outdir : gmap string fs.node := <["out" := fs.Dir]> ∅.

(** * Properties *)

(** ** The path functions on examples *)

Example dirname_ex1 : path.dirname "lib/index.js" = "lib". Proof. reflexivity. Qed.
Example dirname_ex2 : path.dirname "index.js" = ".". Proof. reflexivity. Qed.
Example dirname_ex3 : path.dirname "/a" = "/". Proof. reflexivity. Qed.
Example dirname_ex4 : path.dirname "a//b" = "a/". Proof. reflexivity. Qed.
Example dirname_ex5 : path.dirname "/a/b/" = "/a". Proof. reflexivity. Qed.
Example dirname_ex6 : path.dirname "//a" = "//". Proof. reflexivity. Qed.
Example basename_ex1 : path.basename "lib/index.js" ".js" = "index". Proof. reflexivity. Qed.
Example basename_ex2 : path.basename "lib/.js" ".js" = ".js". Proof. reflexivity. Qed.
Example basename_ex3 : path.basename ".js" ".js" = "". Proof. reflexivity. Qed.
Example basename_ex4 : path.basename "x/js/" ".js" = "js/". Proof. reflexivity. Qed.
Example basename_ex5 : path.basename "lib/index.ts" ".js" = "index.ts". Proof. reflexivity. Qed.
Example join_ex1 : path.join "lib" "index" = "lib/index". Proof. reflexivity. Qed.
Example join_ex2 : path.join "." "index" = "index". Proof. reflexivity. Qed.
Example join_ex3 : path.join "./lib/../x/" "a/./b" = "x/a/b". Proof. reflexivity. Qed.
Example join_ex4 : path.join "" "" = ".". Proof. reflexivity. Qed.
Example join_ex5 : path.join "/a/.." "../b/" = "/b/". Proof. reflexivity. Qed.
Example join_ex6 : path.join "../a" "../../b" = "../../b". Proof. reflexivity. Qed.

(** ** The registries, one operation at a time *)

Ltac project_simpl :=
  cbn beta iota zeta delta
    [NodeProject.entrypoint NodeProject.packageManager
     NodeProject.runScriptCommand NodeProject.minNodeVersion
     NodeProject.manifest NodeProject.scripts NodeProject.start
     NodeProject.gitignore NodeProject.npmignore NodeProject.devDependencies
     NodeProject.files NodeProject.components
     NodeProject.set_manifest NodeProject.set_scripts NodeProject.set_start
     NodeProject.set_gitignore NodeProject.set_npmignore
     NodeProject.set_devDependencies NodeProject.set_files
     NodeProject.set_components
     NodeProject.script NodeProject.addScriptCommand NodeProject.addScript
     NodeProject.addCompileCommand NodeProject.addTestCommand
     NodeProject.start_addEntry
     NodeProject.gitignore_exclude NodeProject.gitignore_include
     NodeProject.npmignore_exclude NodeProject.npmignore_include
     NodeProject.addDevDependencies NodeProject.addFile
     NodeProject.addComponent addBuildCommand
     TypescriptConfig_new fst snd].

(** A block leaves a registry alone: unfold it, split on its tests, and
    read the field off. *)
Ltac frame block :=
  intros; unfold block, TypescriptConfig_new; cbn beta iota zeta;
  repeat case_match; reflexivity.

Lemma script_addScriptCommand name commands p :
  NodeProject.script name (NodeProject.addScriptCommand name commands p)
  = NodeProject.script name p ++ commands.
Proof.
  unfold NodeProject.script, NodeProject.addScriptCommand. project_simpl.
  by rewrite lookup_insert_eq.
Qed.

Lemma script_addScriptCommand_ne name name' commands p :
  name ≠ name' →
  NodeProject.script name' (NodeProject.addScriptCommand name commands p)
  = NodeProject.script name' p.
Proof.
  intros. unfold NodeProject.script, NodeProject.addScriptCommand. project_simpl.
  by rewrite lookup_insert_ne.
Qed.

Lemma script_start_addEntry name entry o p :
  NodeProject.script name (NodeProject.start_addEntry entry o p)
  = NodeProject.script name p.
Proof. reflexivity. Qed.

(** ** The script block *)

Lemma register_scripts_entrypoint o p :
  NodeProject.entrypoint (register_scripts o p) = NodeProject.entrypoint p.
Proof. frame register_scripts. Qed.

Lemma register_scripts_manifest o p :
  NodeProject.manifest (register_scripts o p) = NodeProject.manifest p.
Proof. frame register_scripts. Qed.

Lemma register_scripts_gitignore o p :
  NodeProject.gitignore (register_scripts o p) = NodeProject.gitignore p.
Proof. frame register_scripts. Qed.

Lemma register_scripts_npmignore o p :
  NodeProject.npmignore (register_scripts o p) = NodeProject.npmignore p.
Proof. frame register_scripts. Qed.

Lemma register_scripts_files o p :
  NodeProject.files (register_scripts o p) = NodeProject.files p.
Proof. frame register_scripts. Qed.

Lemma register_scripts_components o p :
  NodeProject.components (register_scripts o p) = NodeProject.components p.
Proof. frame register_scripts. Qed.


Lemma register_scripts_build o p :
  NodeProject.script "build" (register_scripts o p)
  = NodeProject.script "build" p ++ build_commands o (NodeProject.runScriptCommand p).
Proof.
  unfold register_scripts, build_commands, addBuildCommand,
    NodeProject.addScript, NodeProject.addCompileCommand.
  repeat case_match;
    repeat first
      [ rewrite script_start_addEntry
      | rewrite script_addScriptCommand
      | rewrite script_addScriptCommand_ne by done ].
  all: rewrite <- ?app_assoc; reflexivity.
Qed.

Lemma register_scripts_test o p :
  NodeProject.script "test" (register_scripts o p) = NodeProject.script "test" p.
Proof.
  unfold register_scripts, addBuildCommand,
    NodeProject.addScript, NodeProject.addCompileCommand.
  repeat case_match;
    repeat first
      [ rewrite script_start_addEntry
      | rewrite script_addScriptCommand_ne by done ];
    reflexivity.
Qed.

(** ** The manifest block *)

Lemma register_types_gitignore o p :
  NodeProject.gitignore (register_types o p) = NodeProject.gitignore p.
Proof. frame register_types. Qed.

Lemma register_types_npmignore o p :
  NodeProject.npmignore (register_types o p) = NodeProject.npmignore p.
Proof. frame register_types. Qed.

Lemma register_types_files o p :
  NodeProject.files (register_types o p) = NodeProject.files p.
Proof. frame register_types. Qed.

Lemma register_types_components o p :
  NodeProject.components (register_types o p) = NodeProject.components p.
Proof. frame register_types. Qed.

Lemma register_types_script o p name :
  NodeProject.script name (register_types o p) = NodeProject.script name p.
Proof. frame register_types. Qed.

(** ** [TypescriptConfig] and the block of the main instance *)

Lemma TypescriptConfig_new_files p o :
  NodeProject.files (TypescriptConfig_new p o).2
  = NodeProject.files p ++ [TypescriptConfig.file (TypescriptConfig_new p o).1].
Proof. reflexivity. Qed.

Lemma TypescriptConfig_new_npmignore p o :
  NodeProject.npmignore (TypescriptConfig_new p o).2
  = (λ l, l ++ [IgnoreFile.Exclude
                  ("/" +:+ TypescriptConfig.fileName (TypescriptConfig_new p o).1)])
    <$> NodeProject.npmignore p.
Proof. reflexivity. Qed.

Lemma TypescriptConfig_new_gitignore p o :
  NodeProject.gitignore (TypescriptConfig_new p o).2 = NodeProject.gitignore p.
Proof. reflexivity. Qed.

Lemma TypescriptConfig_new_manifest p o :
  NodeProject.manifest (TypescriptConfig_new p o).2 = NodeProject.manifest p.
Proof. reflexivity. Qed.

Lemma TypescriptConfig_new_components p o :
  NodeProject.components (TypescriptConfig_new p o).2 = NodeProject.components p.
Proof. reflexivity. Qed.

Lemma TypescriptConfig_new_script p o name :
  NodeProject.script name (TypescriptConfig_new p o).2 = NodeProject.script name p.
Proof. reflexivity. Qed.

(** The instance does not depend on the project it registers in. *)
Lemma TypescriptConfig_new_instance p q o :
  (TypescriptConfig_new p o).1 = (TypescriptConfig_new q o).1.
Proof. reflexivity. Qed.



Lemma register_tsconfig_instance o sd ld p q :
  (register_tsconfig o sd ld p).1 = (register_tsconfig o sd ld q).1.
Proof. unfold register_tsconfig. by case_match. Qed.

Lemma register_tsconfig_files o sd ld p :
  NodeProject.files (register_tsconfig o sd ld p).2
  = NodeProject.files p ++ tsconfig_files o sd ld p.
Proof.
  unfold tsconfig_files, register_tsconfig. case_match; simpl.
  - reflexivity.
  - by rewrite app_nil_r.
Qed.

Lemma register_tsconfig_npmignore o sd ld p :
  NodeProject.npmignore (register_tsconfig o sd ld p).2
  = (λ l, l ++ tsconfig_patterns o sd ld p) <$> NodeProject.npmignore p.
Proof.
  unfold tsconfig_patterns, register_tsconfig. case_match; simpl.
  - reflexivity.
  - destruct (NodeProject.npmignore p); simpl; by rewrite ?app_nil_r.
Qed.

Lemma register_tsconfig_gitignore o sd ld p :
  NodeProject.gitignore (register_tsconfig o sd ld p).2 = NodeProject.gitignore p.
Proof. frame register_tsconfig. Qed.

Lemma register_tsconfig_manifest o sd ld p :
  NodeProject.manifest (register_tsconfig o sd ld p).2 = NodeProject.manifest p.
Proof. frame register_tsconfig. Qed.

Lemma register_tsconfig_components o sd ld p :
  NodeProject.components (register_tsconfig o sd ld p).2 = NodeProject.components p.
Proof. frame register_tsconfig. Qed.

Lemma register_tsconfig_script o sd ld p name :
  NodeProject.script name (register_tsconfig o sd ld p).2 = NodeProject.script name p.
Proof. frame register_tsconfig. Qed.

(** ** The ignore block *)

Lemma register_ignores_gitignore sd ld p :
  NodeProject.gitignore (register_ignores sd ld p)
  = NodeProject.gitignore p ++
      [IgnoreFile.Exclude ("/" +:+ ld); IgnoreFile.Include ("/" +:+ sd);
       IgnoreFile.Exclude "/dist"].
Proof.
  unfold register_ignores. project_simpl.
  unfold IgnoreFile.exclude, IgnoreFile.include.
  by rewrite <- !app_assoc.
Qed.


Lemma register_ignores_npmignore sd ld p :
  NodeProject.npmignore (register_ignores sd ld p)
  = (λ l, l ++ package_patterns sd ld) <$> NodeProject.npmignore p.
Proof.
  unfold register_ignores. project_simpl.
  destruct (NodeProject.npmignore p) as [l|]; [|reflexivity].
  cbn [fmap option_fmap option_map]. f_equal.
  unfold IgnoreFile.exclude, IgnoreFile.include, package_patterns.
  by rewrite <- !app_assoc.
Qed.

Lemma register_ignores_files sd ld p :
  NodeProject.files (register_ignores sd ld p) = NodeProject.files p.
Proof. reflexivity. Qed.

Lemma register_ignores_manifest sd ld p :
  NodeProject.manifest (register_ignores sd ld p) = NodeProject.manifest p.
Proof. reflexivity. Qed.

Lemma register_ignores_components sd ld p :
  NodeProject.components (register_ignores sd ld p) = NodeProject.components p.
Proof. reflexivity. Qed.

Lemma register_ignores_script sd ld p name :
  NodeProject.script name (register_ignores sd ld p) = NodeProject.script name p.
Proof. reflexivity. Qed.

(** ** The contributions of a component *)

Lemma contribute_all_cons c cs p :
  contribute_all (c :: cs) p = contribute_all cs (contribute p c).
Proof. reflexivity. Qed.

Lemma contribute_all_files cs p :
  NodeProject.files (contribute_all cs p) = NodeProject.files p.
Proof.
  revert p. induction cs as [|c cs IH]; intros p; [reflexivity|].
  rewrite contribute_all_cons, IH. by destruct c.
Qed.

Lemma contribute_all_components cs p :
  NodeProject.components (contribute_all cs p) = NodeProject.components p.
Proof.
  revert p. induction cs as [|c cs IH]; intros p; [reflexivity|].
  rewrite contribute_all_cons, IH. by destruct c.
Qed.

Lemma contribute_all_minNodeVersion cs p :
  NodeProject.minNodeVersion (contribute_all cs p) = NodeProject.minNodeVersion p.
Proof.
  revert p. induction cs as [|c cs IH]; intros p; [reflexivity|].
  rewrite contribute_all_cons, IH. by destruct c.
Qed.

Lemma contribute_all_gitignore cs p :
  NodeProject.gitignore (contribute_all cs p)
  = NodeProject.gitignore p ++ gitignore_entries cs.
Proof.
  revert p. induction cs as [|c cs IH]; intros p.
  { symmetry. apply app_nil_r. }
  rewrite contribute_all_cons, IH.
  destruct c; try reflexivity.
  all: symmetry; apply (app_assoc _ [_]).
Qed.

Lemma contribute_all_npmignore cs p :
  NodeProject.npmignore (contribute_all cs p)
  = (λ l, l ++ npmignore_entries cs) <$> NodeProject.npmignore p.
Proof.
  revert p. induction cs as [|c cs IH]; intros p.
  { change (contribute_all [] p) with p.
    destruct (NodeProject.npmignore p) as [l|]; [|reflexivity].
    cbn [fmap option_fmap option_map]. f_equal. symmetry. apply app_nil_r. }
  rewrite contribute_all_cons, IH.
  destruct c; try reflexivity.
  all: project_simpl; cbn [contribute]; project_simpl.
  all: destruct (NodeProject.npmignore p) as [l|]; [|reflexivity].
  all: cbn [fmap option_fmap option_map]; f_equal.
  all: symmetry; apply (app_assoc _ [_]).
Qed.

Lemma contribute_all_start cs p :
  NodeProject.start (contribute_all cs p)
  = (λ entries, entries ++ menu_entries cs) <$> NodeProject.start p.
Proof.
  revert p. induction cs as [|c cs IH]; intros p.
  { change (contribute_all [] p) with p.
    destruct (NodeProject.start p) as [l|]; [|reflexivity].
    cbn [fmap option_fmap option_map]. f_equal. symmetry. apply app_nil_r. }
  rewrite contribute_all_cons, IH.
  destruct c; try reflexivity.
  cbn [contribute]; project_simpl.
  destruct (NodeProject.start p) as [l|]; [|reflexivity].
  cbn [fmap option_fmap option_map]; f_equal.
  symmetry; apply (app_assoc _ [_]).
Qed.

Lemma contribute_all_script cs p name :
  NodeProject.script name (contribute_all cs p)
  = NodeProject.script name p ++ script_commands name cs.
Proof.
  revert p. induction cs as [|c cs IH]; intros p.
  { symmetry. apply app_nil_r. }
  rewrite contribute_all_cons, IH.
  destruct c as [n commands| | | | | | |]; try reflexivity.
  cbn [contribute].
  change (script_commands name (AddScriptCommand n commands :: cs))
    with ((if bool_decide (n = name) then commands else [])
          ++ script_commands name cs).
  case_bool_decide as Hname.
  - subst n. rewrite script_addScriptCommand. symmetry. apply app_assoc.
  - by rewrite script_addScriptCommand_ne.
Qed.

Lemma contribute_all_manifest cs p :
  NodeProject.manifest (contribute_all cs p)
  = manifest_after cs (NodeProject.manifest p).
Proof.
  revert p. induction cs as [|c cs IH]; intros p; [reflexivity|].
  rewrite contribute_all_cons, IH. by destruct c.
Qed.

Lemma contribute_all_devDependencies cs p :
  NodeProject.devDependencies (contribute_all cs p)
  = devDependencies_after cs (NodeProject.devDependencies p).
Proof.
  revert p. induction cs as [|c cs IH]; intros p; [reflexivity|].
  rewrite contribute_all_cons, IH. by destruct c.
Qed.

(** The lists of the contributions of several components, one behind the
    other. *)
Lemma script_commands_app name cs cs' :
  script_commands name (cs ++ cs')
  = script_commands name cs ++ script_commands name cs'.
Proof. apply bind_app. Qed.

Lemma menu_entries_app cs cs' :
  menu_entries (cs ++ cs') = menu_entries cs ++ menu_entries cs'.
Proof. apply bind_app. Qed.

Lemma manifest_after_app cs cs' m :
  manifest_after (cs ++ cs') m = manifest_after cs' (manifest_after cs m).
Proof. apply foldl_app. Qed.

Lemma devDependencies_after_app cs cs' m :
  devDependencies_after (cs ++ cs') m
  = devDependencies_after cs' (devDependencies_after cs m).
Proof. apply foldl_app. Qed.

(** A key that no contribution writes keeps its value. *)
Lemma manifest_after_lookup cs m k :
  k ∉ manifest_keys cs → manifest_after cs m !! k = m !! k.
Proof.
  revert m. induction cs as [|c cs IH]; intros m Hk; [reflexivity|].
  change (manifest_after (c :: cs) m)
    with (manifest_after cs
            (match c with SetManifest k v => <[k := v]> m | _ => m end)).
  destruct c as [| | | | | | |key value]; try (apply IH; exact Hk).
  change (manifest_keys (SetManifest key value :: cs))
    with (key :: manifest_keys cs) in Hk.
  apply not_elem_of_cons in Hk as [Hne Hk].
  rewrite IH by exact Hk. by rewrite lookup_insert_ne.
Qed.

(** ** Building a component *)

Lemma construct_files c f p :
  NodeProject.files (construct c f p) = NodeProject.files p.
Proof. unfold construct. by rewrite contribute_all_files. Qed.

Lemma construct_components c f p :
  NodeProject.components (construct c f p) = NodeProject.components p ++ [c].
Proof. unfold construct. by rewrite contribute_all_components. Qed.

Lemma construct_minNodeVersion c f p :
  NodeProject.minNodeVersion (construct c f p) = NodeProject.minNodeVersion p.
Proof. unfold construct. by rewrite contribute_all_minNodeVersion. Qed.

Lemma construct_gitignore c f p :
  NodeProject.gitignore (construct c f p)
  = NodeProject.gitignore p ++ gitignore_entries (f p).
Proof. unfold construct. by rewrite contribute_all_gitignore. Qed.

Lemma construct_npmignore c f p :
  NodeProject.npmignore (construct c f p)
  = (λ l, l ++ npmignore_entries (f p)) <$> NodeProject.npmignore p.
Proof. unfold construct. by rewrite contribute_all_npmignore. Qed.

Lemma construct_start c f p :
  NodeProject.start (construct c f p)
  = (λ entries, entries ++ menu_entries (f p)) <$> NodeProject.start p.
Proof. unfold construct. by rewrite contribute_all_start. Qed.

Lemma construct_script c f p name :
  NodeProject.script name (construct c f p)
  = NodeProject.script name p ++ script_commands name (f p).
Proof. unfold construct. by rewrite contribute_all_script. Qed.

Lemma construct_manifest c f p :
  NodeProject.manifest (construct c f p) = manifest_after (f p) (NodeProject.manifest p).
Proof. unfold construct. by rewrite contribute_all_manifest. Qed.

Lemma construct_devDependencies c f p :
  NodeProject.devDependencies (construct c f p)
  = devDependencies_after (f p) (NodeProject.devDependencies p).
Proof. unfold construct. by rewrite contribute_all_devDependencies. Qed.

(** ** The jest block *)

Lemma script_gitignore_include name pattern p :
  NodeProject.script name (NodeProject.gitignore_include pattern p)
  = NodeProject.script name p.
Proof. reflexivity. Qed.

Lemma script_npmignore_exclude name pattern p :
  NodeProject.script name (NodeProject.npmignore_exclude pattern p)
  = NodeProject.script name p.
Proof. reflexivity. Qed.

Lemma script_addFile name f p :
  NodeProject.script name (NodeProject.addFile f p) = NodeProject.script name p.
Proof. reflexivity. Qed.

Lemma script_addDevDependencies name deps p :
  NodeProject.script name (NodeProject.addDevDependencies deps p)
  = NodeProject.script name p.
Proof. reflexivity. Qed.

Lemma script_addComponent name c p :
  NodeProject.script name (NodeProject.addComponent c p) = NodeProject.script name p.
Proof. reflexivity. Qed.

Section Blocks.

Context {components : Components}.

Ltac open_jest :=
  unfold register_jest, jest_contributions, cleanup_commands, jest_enabled,
    jest_tsconfig, TypescriptConfig_new;
  cbn beta iota zeta;
  destruct (default true (TypeScriptProjectOptions.jest _));
  [destruct (default false (TypeScriptProjectOptions.compileBeforeTest _));
   cbn [negb andb]|].

Lemma register_jest_files o sd ld td p :
  NodeProject.files (register_jest o sd ld td p).2
  = NodeProject.files p ++
      (if jest_enabled o then [TypescriptConfig.file (jest_tsconfig sd td p)] else []).
Proof.
  open_jest; project_simpl; rewrite ?construct_files; project_simpl;
    by rewrite ?app_nil_r.
Qed.

Lemma register_jest_npmignore o sd ld td p :
  NodeProject.npmignore (register_jest o sd ld td p).2
  = (λ l, l ++
       (if jest_enabled o then [IgnoreFile.Exclude "/tsconfig.jest.json"] else []) ++
       npmignore_entries (jest_contributions o sd ld td p) ++
       (if jest_enabled o then [IgnoreFile.Exclude ("/" +:+ td)] else []))
    <$> NodeProject.npmignore p.
Proof.
  open_jest; project_simpl; rewrite ?construct_npmignore; project_simpl.
  all: destruct (NodeProject.npmignore p) as [l|]; [|reflexivity].
  all: cbn [fmap option_fmap option_map]; f_equal.
  all: unfold IgnoreFile.exclude; by rewrite <- ?app_assoc, ?app_nil_r.
Qed.

Lemma register_jest_gitignore o sd ld td p :
  NodeProject.gitignore (register_jest o sd ld td p).2
  = NodeProject.gitignore p ++
      gitignore_entries (jest_contributions o sd ld td p) ++
      (if jest_enabled o then [IgnoreFile.Include ("/" +:+ td)] else []).
Proof.
  open_jest; project_simpl; rewrite ?construct_gitignore; project_simpl.
  all: unfold IgnoreFile.include; by rewrite <- ?app_assoc, ?app_nil_r.
Qed.

Lemma register_jest_manifest o sd ld td p :
  NodeProject.manifest (register_jest o sd ld td p).2
  = manifest_after (jest_contributions o sd ld td p) (NodeProject.manifest p).
Proof.
  open_jest; project_simpl; rewrite ?construct_manifest; reflexivity.
Qed.

Lemma register_jest_devDependencies o sd ld td p :
  NodeProject.devDependencies (register_jest o sd ld td p).2
  = devDependencies_after (jest_contributions o sd ld td p)
      (NodeProject.devDependencies p).
Proof.
  open_jest; project_simpl; rewrite ?construct_devDependencies; reflexivity.
Qed.

Lemma register_jest_start o sd ld td p :
  NodeProject.start (register_jest o sd ld td p).2
  = (λ entries, entries ++ menu_entries (jest_contributions o sd ld td p))
    <$> NodeProject.start p.
Proof.
  open_jest; project_simpl; rewrite ?construct_start; try reflexivity.
  destruct (NodeProject.start p) as [l|]; [|reflexivity].
  cbn [fmap option_fmap option_map]. f_equal. symmetry. apply app_nil_r.
Qed.

Lemma register_jest_minNodeVersion o sd ld td p :
  NodeProject.minNodeVersion (register_jest o sd ld td p).2
  = NodeProject.minNodeVersion p.
Proof.
  open_jest; project_simpl; rewrite ?construct_minNodeVersion; reflexivity.
Qed.

Lemma register_jest_components o sd ld td p :
  NodeProject.components (register_jest o sd ld td p).2
  = NodeProject.components p ++
      (if jest_enabled o
       then [JestComponent (jest_options (jest_tsconfig sd td p)
                              (TypeScriptProjectOptions.jestOptions o))]
       else []).
Proof.
  open_jest; project_simpl; rewrite ?construct_components; project_simpl;
    by rewrite ?app_nil_r.
Qed.

(** The cleanup command is in the test script when the [Jest] component is
    built: what that component appends comes behind it. *)
Lemma register_jest_script o sd ld td p name :
  NodeProject.script name (register_jest o sd ld td p).2
  = NodeProject.script name p ++
      (if bool_decide (name = "test") then cleanup_commands o ld else []) ++
      script_commands name (jest_contributions o sd ld td p).
Proof.
  open_jest.
  - cbn [snd].
    rewrite script_npmignore_exclude, script_gitignore_include, construct_script,
      script_npmignore_exclude, script_addFile.
    by case_bool_decide.
  - cbn [snd]. unfold NodeProject.addTestCommand.
    rewrite script_npmignore_exclude, script_gitignore_include, construct_script.
    case_bool_decide as Hname.
    + subst name.
      by rewrite script_addScriptCommand, script_npmignore_exclude, script_addFile,
        <- app_assoc.
    + by rewrite script_addScriptCommand_ne,
        script_npmignore_exclude, script_addFile.
  - cbn [snd]. case_bool_decide; by rewrite !app_nil_r.
Qed.

Lemma register_jest_fileName o sd ld td p :
  (register_jest o sd ld td p).1.1
  = if jest_enabled o then "tsconfig.jest.json" else "tsconfig.json".
Proof. open_jest; reflexivity. Qed.

Lemma register_jest_jest o sd ld td p :
  (register_jest o sd ld td p).1.2
  = if jest_enabled o
    then Some (jest_options (jest_tsconfig sd td p)
                 (TypeScriptProjectOptions.jestOptions o))
    else None.
Proof. open_jest; reflexivity. Qed.

(** ** The eslint block and the remaining tooling *)

Ltac open_eslint :=
  unfold register_eslint, eslint_contributions;
  destruct (default true (TypeScriptProjectOptions.eslint _)); cbn [fst snd].

Lemma register_eslint_eslint o sd td name p :
  (register_eslint o sd td name p).1
  = if default true (TypeScriptProjectOptions.eslint o)
    then Some (EslintOptions.mk ("./" +:+ name) [sd; td]) else None.
Proof. open_eslint; reflexivity. Qed.

Lemma register_eslint_gitignore o sd td name p :
  NodeProject.gitignore (register_eslint o sd td name p).2
  = NodeProject.gitignore p ++
      gitignore_entries (eslint_contributions o sd td name p).
Proof.
  open_eslint; [apply construct_gitignore|]. symmetry. apply app_nil_r.
Qed.

Lemma register_eslint_npmignore o sd td name p :
  NodeProject.npmignore (register_eslint o sd td name p).2
  = (λ l, l ++ npmignore_entries (eslint_contributions o sd td name p))
    <$> NodeProject.npmignore p.
Proof.
  open_eslint; [apply construct_npmignore|].
  destruct (NodeProject.npmignore p) as [l|]; [|reflexivity].
  cbn [fmap option_fmap option_map]. f_equal. symmetry. apply app_nil_r.
Qed.

Lemma register_eslint_start o sd td name p :
  NodeProject.start (register_eslint o sd td name p).2
  = (λ entries, entries ++ menu_entries (eslint_contributions o sd td name p))
    <$> NodeProject.start p.
Proof.
  open_eslint; [apply construct_start|].
  destruct (NodeProject.start p) as [l|]; [|reflexivity].
  cbn [fmap option_fmap option_map]. f_equal. symmetry. apply app_nil_r.
Qed.

Lemma register_eslint_files o sd td name p :
  NodeProject.files (register_eslint o sd td name p).2 = NodeProject.files p.
Proof. open_eslint; [apply construct_files|reflexivity]. Qed.

Lemma register_eslint_minNodeVersion o sd td name p :
  NodeProject.minNodeVersion (register_eslint o sd td name p).2
  = NodeProject.minNodeVersion p.
Proof. open_eslint; [apply construct_minNodeVersion|reflexivity]. Qed.

Lemma register_eslint_manifest o sd td name p :
  NodeProject.manifest (register_eslint o sd td name p).2
  = manifest_after (eslint_contributions o sd td name p) (NodeProject.manifest p).
Proof. open_eslint; [apply construct_manifest|reflexivity]. Qed.

Lemma register_eslint_devDependencies o sd td name p :
  NodeProject.devDependencies (register_eslint o sd td name p).2
  = devDependencies_after (eslint_contributions o sd td name p)
      (NodeProject.devDependencies p).
Proof. open_eslint; [apply construct_devDependencies|reflexivity]. Qed.

Lemma register_eslint_script o sd td name p s :
  NodeProject.script s (register_eslint o sd td name p).2
  = NodeProject.script s p ++ script_commands s (eslint_contributions o sd td name p).
Proof.
  open_eslint; [apply construct_script|]. symmetry. apply app_nil_r.
Qed.

Lemma register_eslint_components o sd td name p :
  NodeProject.components (register_eslint o sd td name p).2
  = NodeProject.components p ++
      (if default true (TypeScriptProjectOptions.eslint o)
       then [EslintComponent (EslintOptions.mk ("./" +:+ name) [sd; td])] else []).
Proof.
  open_eslint; [apply construct_components|]. symmetry. apply app_nil_r.
Qed.

Ltac open_tooling :=
  unfold register_tooling, docgen_contributions;
  cbn beta zeta;
  destruct (truthy_bool (TypeScriptProjectOptions.docgen _));
  destruct (default true (TypeScriptProjectOptions.sampleCode _)).

Lemma register_tooling_gitignore o sd td p :
  NodeProject.gitignore (register_tooling o sd td p)
  = NodeProject.gitignore p ++ gitignore_entries (docgen_contributions o sd td p).
Proof.
  open_tooling; rewrite ?construct_gitignore; project_simpl;
    by rewrite ?app_nil_r.
Qed.

Lemma register_tooling_npmignore o sd td p :
  NodeProject.npmignore (register_tooling o sd td p)
  = (λ l, l ++ npmignore_entries (docgen_contributions o sd td p))
    <$> NodeProject.npmignore p.
Proof.
  open_tooling; rewrite ?construct_npmignore; project_simpl; try reflexivity.
  all: destruct (NodeProject.npmignore p) as [l|]; [|reflexivity].
  all: cbn [fmap option_fmap option_map]; f_equal; symmetry; apply app_nil_r.
Qed.

Lemma register_tooling_start o sd td p :
  NodeProject.start (register_tooling o sd td p)
  = (λ entries, entries ++ menu_entries (docgen_contributions o sd td p))
    <$> NodeProject.start p.
Proof.
  open_tooling; rewrite ?construct_start; project_simpl; try reflexivity.
  all: destruct (NodeProject.start p) as [l|]; [|reflexivity].
  all: cbn [fmap option_fmap option_map]; f_equal; symmetry; apply app_nil_r.
Qed.

Lemma register_tooling_files o sd td p :
  NodeProject.files (register_tooling o sd td p) = NodeProject.files p.
Proof. open_tooling; rewrite ?construct_files; reflexivity. Qed.

Lemma register_tooling_manifest o sd td p :
  NodeProject.manifest (register_tooling o sd td p)
  = manifest_after (docgen_contributions o sd td p) (NodeProject.manifest p).
Proof. open_tooling; rewrite ?construct_manifest; reflexivity. Qed.

Lemma register_tooling_script o sd td p s :
  NodeProject.script s (register_tooling o sd td p)
  = NodeProject.script s p ++ script_commands s (docgen_contributions o sd td p).
Proof.
  open_tooling; rewrite ?construct_script, ?script_addComponent,
    ?script_addDevDependencies, ?app_nil_r; reflexivity.
Qed.

(** The two pins are registered behind the dependencies of jest and eslint
    and in front of those of docgen. *)
Lemma register_tooling_devDependencies o sd td p :
  NodeProject.devDependencies (register_tooling o sd td p)
  = devDependencies_after (docgen_contributions o sd td p)
      (<["@types/node" := Semver.caret (default "10.17.0" (NodeProject.minNodeVersion p))]>
         (<["typescript" := default (Semver.caret "3.9.5")
                              (TypeScriptProjectOptions.typescriptVersion o)]>
            (NodeProject.devDependencies p))).
Proof.
  open_tooling; rewrite ?construct_devDependencies; project_simpl.
  all: by rewrite <- !insert_union_l, (left_id_L ∅ (∪)).
Qed.

Lemma register_tooling_components o sd td p :
  NodeProject.components (register_tooling o sd td p)
  = NodeProject.components p ++
      (if default true (TypeScriptProjectOptions.sampleCode o)
       then [SampleCodeComponent sd td] else []) ++
      (if truthy_bool (TypeScriptProjectOptions.docgen o)
       then [TypedocDocgenComponent] else []).
Proof.
  open_tooling; rewrite ?construct_components; project_simpl;
    by rewrite <- ?app_assoc, ?app_nil_r.
Qed.

End Blocks.

Create Rewrite HintDb registry.

#[local] Hint Rewrite
  register_scripts_entrypoint register_scripts_manifest
  register_scripts_gitignore register_scripts_npmignore register_scripts_files
  register_scripts_components register_scripts_build register_scripts_test
  register_types_gitignore register_types_npmignore register_types_files
  register_types_components register_types_script
  register_tsconfig_files register_tsconfig_npmignore
  register_tsconfig_gitignore register_tsconfig_manifest
  register_tsconfig_components register_tsconfig_script
  register_ignores_gitignore register_ignores_npmignore register_ignores_files
  register_ignores_manifest register_ignores_components register_ignores_script
  @register_jest_files @register_jest_npmignore @register_jest_gitignore
  @register_jest_manifest @register_jest_components
  @register_jest_fileName @register_jest_jest
  @register_eslint_eslint @register_eslint_gitignore @register_eslint_npmignore
  @register_eslint_files @register_eslint_manifest @register_eslint_script
  @register_eslint_components
  @register_tooling_gitignore @register_tooling_npmignore @register_tooling_files
  @register_tooling_manifest @register_tooling_script @register_tooling_components
  : registry.

(** ** The finished project, registry by registry *)

Section Finished.

Context {components : Components}.
Variable NodeProject_new : TypeScriptProjectOptions.t → NodeProject.t.

Local Abbreviation new := (TypeScriptProject_new NodeProject_new).
Local Abbreviation before_tsconfig := (project_before_tsconfig NodeProject_new).
Local Abbreviation before_jest := (project_before_jest NodeProject_new).
Local Abbreviation after_jest := (project_after_jest NodeProject_new).

Ltac open_constructor :=
  unfold TypeScriptProject_new, project_after_jest, project_before_jest,
    project_before_tsconfig;
  cbn beta zeta;
  repeat match goal with
         | |- context [let '(_, _) := ?x in _] =>
             destruct x as [? ?]; cbn [fst snd]
         end.

Lemma new_srcdir o :
  TypeScriptProject.srcdir (new o) = default "src" (TypeScriptProjectOptions.srcdir o).
Proof. open_constructor. reflexivity. Qed.

Lemma new_libdir o :
  TypeScriptProject.libdir (new o) = default "lib" (TypeScriptProjectOptions.libdir o).
Proof. open_constructor. reflexivity. Qed.

Lemma new_testdir o :
  TypeScriptProject.testdir (new o) = default "test" (TypeScriptProjectOptions.testdir o).
Proof. open_constructor. reflexivity. Qed.

Lemma new_tsconfig o :
  TypeScriptProject.tsconfig (new o)
  = (register_tsconfig o (TypeScriptProject.srcdir (new o))
       (TypeScriptProject.libdir (new o)) (before_tsconfig o)).1.
Proof. rewrite new_srcdir, new_libdir. open_constructor. reflexivity. Qed.

Lemma new_jest o :
  TypeScriptProject.jest (new o)
  = (register_jest o (TypeScriptProject.srcdir (new o))
       (TypeScriptProject.libdir (new o)) (TypeScriptProject.testdir (new o))
       (before_jest o)).1.2.
Proof.
  rewrite new_srcdir, new_libdir, new_testdir. open_constructor. reflexivity.
Qed.

Lemma new_eslint o :
  TypeScriptProject.eslint (new o)
  = (register_eslint o (TypeScriptProject.srcdir (new o))
       (TypeScriptProject.testdir (new o))
       (if jest_enabled o then "tsconfig.jest.json" else "tsconfig.json")
       (after_jest o)).1.
Proof.
  rewrite new_srcdir, new_testdir.
  rewrite <- (register_jest_fileName o
    (default "src" (TypeScriptProjectOptions.srcdir o))
    (default "lib" (TypeScriptProjectOptions.libdir o))
    (default "test" (TypeScriptProjectOptions.testdir o)) (before_jest o)).
  open_constructor. reflexivity.
Qed.

Lemma new_node o :
  TypeScriptProject.node (new o)
  = register_tooling o (TypeScriptProject.srcdir (new o))
      (TypeScriptProject.testdir (new o))
      (register_eslint o (TypeScriptProject.srcdir (new o))
         (TypeScriptProject.testdir (new o))
         (if jest_enabled o then "tsconfig.jest.json" else "tsconfig.json")
         (after_jest o)).2.
Proof.
  rewrite new_srcdir, new_testdir.
  rewrite <- (register_jest_fileName o
    (default "src" (TypeScriptProjectOptions.srcdir o))
    (default "lib" (TypeScriptProjectOptions.libdir o))
    (default "test" (TypeScriptProjectOptions.testdir o)) (before_jest o)).
  open_constructor. reflexivity.
Qed.

End Finished.

(** The blocks are opened from the last to the first; what a component
    contributes is named before the blocks in front of it are opened. *)
Ltac name_contributions :=
  repeat match goal with
    | |- context [docgen_contributions ?o ?sd ?td
                    (register_eslint ?o ?sd ?td ?name (project_after_jest ?N ?o)).2] =>
        change (docgen_contributions o sd td
                  (register_eslint o sd td name (project_after_jest N o)).2)
          with (docgen_contributed N o)
    | |- context [eslint_contributions ?o ?sd ?td ?name (project_after_jest ?N ?o)] =>
        change (eslint_contributions o sd td name (project_after_jest N o))
          with (eslint_contributed N o)
    | |- context [jest_contributions ?o ?sd ?ld ?td (project_before_jest ?N ?o)] =>
        change (jest_contributions o sd ld td (project_before_jest N o))
          with (jest_contributed N o)
    end.

Ltac registries :=
  rewrite ?new_node, ?new_srcdir, ?new_libdir, ?new_testdir;
  autorewrite with registry; name_contributions;
  unfold project_after_jest; cbn beta zeta;
  autorewrite with registry; name_contributions;
  unfold project_before_jest, project_before_tsconfig; cbn beta zeta;
  autorewrite with registry.

Section Registries.

Context {components : Components}.
Variable NodeProject_new : TypeScriptProjectOptions.t → NodeProject.t.

Local Abbreviation new := (TypeScriptProject_new NodeProject_new).

Lemma new_gitignore o :
  NodeProject.gitignore (TypeScriptProject.node (new o))
  = NodeProject.gitignore (NodeProject_new o) ++
      [IgnoreFile.Exclude ("/" +:+ TypeScriptProject.libdir (new o));
       IgnoreFile.Include ("/" +:+ TypeScriptProject.srcdir (new o));
       IgnoreFile.Exclude "/dist"] ++
      gitignore_entries (jest_contributed NodeProject_new o) ++
      (if jest_enabled o
       then [IgnoreFile.Include ("/" +:+ TypeScriptProject.testdir (new o))]
       else []) ++
      gitignore_entries (eslint_contributed NodeProject_new o) ++
      gitignore_entries (docgen_contributed NodeProject_new o).
Proof. registries. by rewrite <- !app_assoc. Qed.

Lemma new_npmignore o :
  NodeProject.npmignore (TypeScriptProject.node (new o))
  = (λ l, l ++
       tsconfig_patterns o (TypeScriptProject.srcdir (new o))
         (TypeScriptProject.libdir (new o)) (NodeProject_new o) ++
       package_patterns (TypeScriptProject.srcdir (new o))
         (TypeScriptProject.libdir (new o)) ++
       (if jest_enabled o then [IgnoreFile.Exclude "/tsconfig.jest.json"] else []) ++
       npmignore_entries (jest_contributed NodeProject_new o) ++
       (if jest_enabled o
        then [IgnoreFile.Exclude ("/" +:+ TypeScriptProject.testdir (new o))]
        else []) ++
       npmignore_entries (eslint_contributed NodeProject_new o) ++
       npmignore_entries (docgen_contributed NodeProject_new o))
    <$> NodeProject.npmignore (NodeProject_new o).
Proof.
  registries.
  destruct (NodeProject.npmignore (NodeProject_new o)) as [l|]; [|reflexivity].
  cbn [fmap option_fmap option_map]. f_equal.
  rewrite <- !app_assoc. do 2 f_equal.
  unfold tsconfig_patterns.
  by rewrite (register_tsconfig_instance _ _ _ _ (NodeProject_new o)).
Qed.

Lemma new_files o :
  NodeProject.files (TypeScriptProject.node (new o))
  = NodeProject.files (NodeProject_new o) ++
      tsconfig_files o (TypeScriptProject.srcdir (new o))
        (TypeScriptProject.libdir (new o)) (NodeProject_new o) ++
      (if jest_enabled o
       then [TypescriptConfig.file
               (jest_tsconfig (TypeScriptProject.srcdir (new o))
                  (TypeScriptProject.testdir (new o)) (NodeProject_new o))]
       else []).
Proof.
  registries.
  rewrite <- !app_assoc. do 2 f_equal.
  unfold tsconfig_files.
  by rewrite (register_tsconfig_instance _ _ _ _ (NodeProject_new o)).
Qed.

Lemma new_build o :
  NodeProject.script "build" (TypeScriptProject.node (new o))
  = NodeProject.script "build" (NodeProject_new o) ++
      build_commands o (NodeProject.runScriptCommand (NodeProject_new o)) ++
      script_commands "build" (component_contributions NodeProject_new o).
Proof.
  registries. rewrite register_jest_script. name_contributions.
  unfold project_before_jest, project_before_tsconfig. cbn beta zeta.
  autorewrite with registry.
  unfold component_contributions. rewrite !script_commands_app.
  rewrite bool_decide_eq_false_2 by done. by rewrite <- !app_assoc.
Qed.

Lemma new_test o :
  NodeProject.script "test" (TypeScriptProject.node (new o))
  = NodeProject.script "test" (NodeProject_new o) ++
      cleanup_commands o (TypeScriptProject.libdir (new o)) ++
      script_commands "test" (component_contributions NodeProject_new o).
Proof.
  registries. rewrite register_jest_script. name_contributions.
  unfold project_before_jest, project_before_tsconfig. cbn beta zeta.
  autorewrite with registry.
  unfold component_contributions. rewrite !script_commands_app.
  rewrite bool_decide_eq_true_2 by done. by rewrite <- !app_assoc.
Qed.

Lemma new_manifest o :
  NodeProject.manifest (TypeScriptProject.node (new o))
  = manifest_after (component_contributions NodeProject_new o)
      (NodeProject.manifest (register_types o (NodeProject_new o))).
Proof.
  registries. unfold component_contributions.
  rewrite !manifest_after_app. do 3 f_equal.
  unfold register_types.
  rewrite register_scripts_entrypoint.
  case_match; project_simpl; by rewrite register_scripts_manifest.
Qed.

(** The [types] key of the finished manifest, when no component writes
    it. *)
Lemma new_manifest_types o :
  "types" ∉ manifest_keys (component_contributions NodeProject_new o) →
  NodeProject.manifest (TypeScriptProject.node (new o)) !! "types"
  = NodeProject.manifest (register_types o (NodeProject_new o)) !! "types".
Proof. intros Hkeys. rewrite new_manifest. by apply manifest_after_lookup. Qed.

(** The manifest when the first component is about to be built. *)
Lemma before_jest_manifest o :
  NodeProject.manifest (project_before_jest NodeProject_new o)
  = NodeProject.manifest (register_types o (NodeProject_new o)).
Proof.
  unfold project_before_jest, project_before_tsconfig. cbn beta zeta.
  autorewrite with registry. unfold register_types.
  rewrite register_scripts_entrypoint.
  case_match; project_simpl; by rewrite register_scripts_manifest.
Qed.

End Registries.

(** ** Entrypoints and their declaration files *)

Lemma is_sep_false c : c ≠ path.sep → path.is_sep c = false.
Proof. intros. unfold path.is_sep. by rewrite bool_decide_eq_false. Qed.

Lemma clean_no_sep s : clean s → Forall (λ c, path.is_sep c = false) s.
Proof.
  intros (_ & _ & _ & H). eapply Forall_impl; [exact H|].
  intros c [Hc _]. by apply is_sep_false.
Qed.

Lemma drop_while_stop f l1 x l2 :
  Forall (λ c, f c = true) l1 → f x = false →
  path.drop_while f (l1 ++ x :: l2) = x :: l2.
Proof.
  intros H Hx. induction H as [|c l1 Hc _ IH]; simpl.
  - by rewrite Hx.
  - by rewrite Hc.
Qed.

Lemma drop_while_all f l :
  Forall (λ c, f c = true) l → path.drop_while f l = [].
Proof. induction 1 as [|c l Hc _ IH]; simpl; [done|by rewrite Hc]. Qed.

Lemma take_while_stop f l1 x l2 :
  Forall (λ c, f c = true) l1 → f x = false →
  path.take_while f (l1 ++ x :: l2) = l1.
Proof.
  intros H Hx. induction H as [|c l1 Hc _ IH]; simpl.
  - by rewrite Hx.
  - rewrite Hc. by f_equal.
Qed.

Lemma take_while_all f l :
  Forall (λ c, f c = true) l → path.take_while f l = l.
Proof. induction 1 as [|c l Hc _ IH]; simpl; [done|rewrite Hc; by f_equal]. Qed.

Lemma Forall_rev_list {A} (P : A → Prop) l : Forall P l → Forall P (rev l).
Proof.
  intros H. apply Forall_forall. intros x Hx.
  rewrite Forall_forall in H. apply H.
  apply list_elem_of_In. apply list_elem_of_In in Hx. by apply in_rev.
Qed.

Lemma unsplit_snoc segs x :
  segs ≠ [] → path.unsplit (segs ++ [x]) = path.unsplit segs ++ path.sep :: x.
Proof.
  induction segs as [|s segs IH]; [done|]. intros _.
  destruct segs as [|s' segs]; [reflexivity|].
  change (path.unsplit ((s :: s' :: segs) ++ [x]))
    with (s ++ path.sep :: path.unsplit ((s' :: segs) ++ [x])).
  rewrite IH by done.
  change (path.unsplit (s :: s' :: segs))
    with (s ++ path.sep :: path.unsplit (s' :: segs)).
  by rewrite <- app_assoc.
Qed.

Lemma unsplit_head segs :
  segs ≠ [] → Forall clean segs →
  ∃ c rest, path.unsplit segs = c :: rest ∧ path.is_sep c = false.
Proof.
  destruct segs as [|s segs]; [done|]. intros _ H.
  apply Forall_cons in H as [Hs _].
  pose proof (clean_no_sep _ Hs) as Hsep.
  destruct Hs as (Hne & _).
  destruct s as [|c s]; [done|].
  apply Forall_cons in Hsep as [Hc _].
  destruct segs; simpl; eauto.
Qed.

Lemma split_no_sep s :
  Forall (λ c, path.is_sep c = false) s → path.split s = [s].
Proof.
  induction 1 as [|c s Hc _ IH]; simpl; [done|]. by rewrite Hc, IH.
Qed.

Lemma split_app_sep s l :
  Forall (λ c, path.is_sep c = false) s →
  path.split (s ++ path.sep :: l) = s :: path.split l.
Proof.
  induction 1 as [|c s Hc _ IH]; simpl.
  - reflexivity.
  - by rewrite Hc, IH.
Qed.

Lemma split_unsplit segs :
  segs ≠ [] → Forall (Forall (λ c, path.is_sep c = false)) segs →
  path.split (path.unsplit segs) = segs.
Proof.
  induction segs as [|s segs IH]; [done|]. intros _ H.
  apply Forall_cons in H as [Hs Hsegs].
  destruct segs as [|s' segs].
  - by apply split_no_sep.
  - change (path.unsplit (s :: s' :: segs))
      with (s ++ path.sep :: path.unsplit (s' :: segs)).
    rewrite split_app_sep by done. by rewrite IH.
Qed.

Lemma normalize_step_clean allow res s :
  clean s → path.normalize_step allow res s = s :: res.
Proof.
  intros (Hne & Hdot & Hdotdot & _). unfold path.normalize_step.
  rewrite (bool_decide_eq_false_2 _ Hne), (bool_decide_eq_false_2 _ Hdot),
    (bool_decide_eq_false_2 _ Hdotdot).
  reflexivity.
Qed.

Lemma foldl_normalize_step_clean allow res segs :
  Forall clean segs →
  foldl (path.normalize_step allow) res segs = rev segs ++ res.
Proof.
  intros H. revert res. induction H as [|s segs Hs _ IH]; intros res; simpl.
  - reflexivity.
  - rewrite normalize_step_clean by done. rewrite IH.
    by rewrite <- app_assoc.
Qed.

Lemma normalizeString_clean allow segs :
  segs ≠ [] → Forall clean segs →
  path.normalizeString (path.unsplit segs) allow = path.unsplit segs.
Proof.
  intros Hne H. unfold path.normalizeString.
  rewrite split_unsplit; [|done|].
  - rewrite foldl_normalize_step_clean by done.
    by rewrite app_nil_r, rev_involutive.
  - eapply Forall_impl; [exact H|]. apply clean_no_sep.
Qed.

Lemma ends_with_sep_snoc l c :
  path.ends_with_sep (l ++ [c]) = path.is_sep c.
Proof. unfold path.ends_with_sep. by rewrite rev_unit. Qed.

Lemma clean_last s :
  clean s → ∃ l c, s = l ++ [c] ∧ path.is_sep c = false.
Proof.
  intros Hs. pose proof (clean_no_sep _ Hs) as Hsep.
  destruct Hs as (Hne & _).
  destruct (exists_last Hne) as (l & c & ->).
  exists l, c. split; [done|].
  apply Forall_app in Hsep as [_ Hc]. by inversion Hc.
Qed.

(** A relative path of clean segments is its own normal form. *)
Lemma normalize_chars_clean segs :
  segs ≠ [] → Forall clean segs →
  path.normalize_chars (path.unsplit segs) = path.unsplit segs.
Proof.
  intros Hne H.
  destruct (unsplit_head segs Hne H) as (c & rest & Heq & Hc).
  assert (Hlast : path.ends_with_sep (path.unsplit segs) = false).
  { destruct (exists_last Hne) as (init & s & ->).
    apply Forall_app in H as [_ Hs]. inversion Hs as [|? ? Hs' _]; subst.
    clear Hs; rename Hs' into Hs.
    destruct (clean_last s Hs) as (l & c' & -> & Hc').
    destruct init as [|s0 init].
    - simpl. by rewrite ends_with_sep_snoc.
    - rewrite unsplit_snoc by done.
      replace (path.unsplit (s0 :: init) ++ path.sep :: l ++ [c'])
        with ((path.unsplit (s0 :: init) ++ path.sep :: l) ++ [c'])
        by (by rewrite <- app_assoc).
      by rewrite ends_with_sep_snoc. }
  unfold path.normalize_chars.
  rewrite Heq. cbn beta iota zeta. rewrite <- Heq.
  rewrite Hc, Hlast. cbn [negb].
  rewrite normalizeString_clean by done.
  by rewrite Heq.
Qed.

Lemma chars_str l : path.chars (path.str l) = l.
Proof. apply list_ascii_of_string_of_list_ascii. Qed.

Lemma str_chars s : path.str (path.chars s) = s.
Proof. apply string_of_list_ascii_of_string. Qed.

Lemma chars_app a b : path.chars (a +:+ b) = path.chars a ++ path.chars b.
Proof.
  induction a as [|c a IH]; [reflexivity|].
  change (path.chars (String c a +:+ b)) with (c :: path.chars (a +:+ b)).
  by rewrite IH.
Qed.

Lemma str_app l k : path.str (l ++ k) = path.str l +:+ path.str k.
Proof.
  induction l as [|c l IH]; [reflexivity|].
  change (path.str ((c :: l) ++ k)) with (String c (path.str (l ++ k))).
  by rewrite IH.
Qed.

Lemma drop_while_head f x l :
  f x = false → path.drop_while f (x :: l) = x :: l.
Proof. intros Hx. simpl. by rewrite Hx. Qed.

Lemma drop_while_none f l :
  Forall (λ c, f c = false) l → path.drop_while f l = l.
Proof. destruct 1 as [|c l Hc _]; [done|by apply drop_while_head]. Qed.

Lemma no_sep_negb l :
  Forall (λ c, path.is_sep c = false) l →
  Forall (λ c, negb (path.is_sep c) = true) l.
Proof. intros H. eapply Forall_impl; [exact H|]. by intros c ->. Qed.

Lemma is_sep_sep : path.is_sep path.sep = true.
Proof. reflexivity. Qed.

(** The reversed characters of a path that ends in a separator-free
    segment. *)
Lemma rev_unsplit_snoc segs s :
  segs ≠ [] →
  rev (path.unsplit (segs ++ [s])) = rev s ++ path.sep :: rev (path.unsplit segs).
Proof.
  intros Hne. rewrite unsplit_snoc by done.
  rewrite rev_app_distr. simpl. by rewrite <- app_assoc.
Qed.

Lemma dirname_chars_unsplit segs s :
  Forall clean segs → s ≠ [] → Forall (λ c, path.is_sep c = false) s →
  path.dirname_chars (path.unsplit (segs ++ [s]))
  = match segs with [] => path.dot | _ => path.unsplit segs end.
Proof.
  intros Hsegs Hne Hs. destruct segs as [|s0 segs].
  - simpl. destruct s as [|c s]; [done|].
    apply Forall_cons in Hs as [Hc Hs].
    unfold path.dirname_chars.
    rewrite (drop_while_none path.is_sep) by by apply Forall_rev_list.
    rewrite drop_while_all by by apply no_sep_negb, Forall_rev_list.
    by rewrite Hc.
  - destruct (unsplit_head (s0 :: segs)) as (c & rest & Heq & Hc); [done..|].
    rewrite unsplit_snoc, Heq by done.
    change ((c :: rest) ++ path.sep :: s) with (c :: (rest ++ path.sep :: s)).
    unfold path.dirname_chars.
    rewrite rev_app_distr. simpl rev. rewrite <- app_assoc. simpl app.
    destruct (rev s) as [|x xs] eqn:Hrev.
    { apply (f_equal (@rev _)) in Hrev. rewrite rev_involutive in Hrev. done. }
    assert (Hxs : Forall (λ c, path.is_sep c = false) (x :: xs)).
    { rewrite <- Hrev. by apply Forall_rev_list. }
    pose proof Hxs as Hx. apply Forall_cons in Hx as [Hx _].
    change ((x :: xs) ++ path.sep :: rev rest)
      with (x :: (xs ++ path.sep :: rev rest)).
    rewrite drop_while_head by done.
    change (x :: (xs ++ path.sep :: rev rest))
      with ((x :: xs) ++ path.sep :: rev rest).
    rewrite drop_while_stop; [|by apply no_sep_negb|reflexivity].
    rewrite Hc. cbn [andb]. by rewrite rev_involutive.
Qed.

Lemma last_segment_unsplit segs s :
  Forall clean segs → s ≠ [] → Forall (λ c, path.is_sep c = false) s →
  path.last_segment (path.unsplit (segs ++ [s])) = s.
Proof.
  intros Hsegs Hne Hs. unfold path.last_segment.
  assert (Hrev : Forall (λ c, path.is_sep c = false) (rev s))
    by by apply Forall_rev_list.
  destruct segs as [|s0 segs].
  - simpl. rewrite drop_while_none by done.
    rewrite take_while_all by by apply no_sep_negb.
    apply rev_involutive.
  - rewrite rev_unsplit_snoc by done.
    destruct (rev s) as [|x xs] eqn:Heq.
    { apply (f_equal (@rev _)) in Heq. rewrite rev_involutive in Heq. done. }
    pose proof Hrev as Hx. apply Forall_cons in Hx as [Hx _].
    change ((x :: xs) ++ ?l) with (x :: (xs ++ l)).
    rewrite drop_while_head by done.
    change (x :: (xs ++ ?l)) with ((x :: xs) ++ l).
    rewrite take_while_stop; [|by apply no_sep_negb|reflexivity].
    rewrite <- Heq. apply rev_involutive.
Qed.

Lemma length_unsplit_snoc segs s :
  length s ≤ length (path.unsplit (segs ++ [s])).
Proof.
  destruct segs as [|s0 segs]; [done|].
  rewrite unsplit_snoc by done. rewrite length_app. simpl. lia.
Qed.

Lemma is_prefix_app a b : path.is_prefix a (a ++ b) = true.
Proof.
  induction a as [|x a IH]; [done|]. simpl.
  by rewrite bool_decide_eq_true_2, IH.
Qed.

Lemma is_suffix_app a b : path.is_suffix b (a ++ b) = true.
Proof. unfold path.is_suffix. rewrite rev_app_distr. apply is_prefix_app. Qed.

(** The base name of [.../name.ext] without [ext] is [name]. *)
Lemma basename_chars_unsplit segs name ext :
  Forall clean segs → name ≠ [] → ext ≠ [] →
  Forall (λ c, path.is_sep c = false) (name ++ ext) →
  path.basename_chars (path.unsplit (segs ++ [name ++ ext])) ext = name.
Proof.
  intros Hsegs Hname Hext Hsep.
  assert (Hne : name ++ ext ≠ []) by (by destruct name).
  pose proof (length_unsplit_snoc segs (name ++ ext)) as Hlen.
  rewrite length_app in Hlen.
  assert (0 < length name) by (destruct name; [done|simpl; lia]).
  unfold path.basename_chars.
  rewrite last_segment_unsplit by done.
  rewrite (bool_decide_eq_true_2 (ext ≠ [])) by done.
  rewrite (bool_decide_eq_true_2 (length ext ≤ _)) by lia.
  cbn [andb].
  rewrite bool_decide_eq_false_2.
  2:{ intros Heq. rewrite <- Heq in Hlen. lia. }
  rewrite (bool_decide_eq_false_2 (name ++ ext = [])) by done.
  rewrite is_suffix_app.
  rewrite bool_decide_eq_false_2.
  2:{ intros Heq. apply (f_equal length) in Heq. rewrite length_app in Heq. lia. }
  rewrite length_app, Nat.add_sub. apply take_app_length.
Qed.

Lemma clean_nonempty s : clean s → s ≠ [].
Proof. by intros (? & _). Qed.

Lemma split_dot_sep s :
  Forall (λ c, path.is_sep c = false) s →
  path.split (path.dot ++ path.sep :: s) = [path.dot; s].
Proof.
  intros Hs. rewrite split_app_sep.
  - by rewrite split_no_sep.
  - by repeat constructor.
Qed.

(** Joining the directory name of an entry with a clean name gives back the
    path with that name as its last segment. *)
Lemma join_chars_dirname segs name :
  Forall clean segs → clean name →
  path.join_chars
    [match segs with [] => path.dot | _ => path.unsplit segs end; name]
  = path.unsplit (segs ++ [name]).
Proof.
  intros Hsegs Hname.
  pose proof (clean_nonempty _ Hname) as Hne.
  unfold path.join_chars.
  destruct segs as [|s0 segs].
  - rewrite filter_cons_True by done. rewrite filter_cons_True by done.
    rewrite filter_nil.
    change (path.unsplit [path.dot; name]) with (path.dot ++ path.sep :: name).
    destruct (clean_last name Hname) as (l & c & Heq & Hc).
    unfold path.normalize_chars. cbn [path.dot app].
    change (path.period :: path.sep :: name)
      with (path.dot ++ path.sep :: name).
    unfold path.normalizeString.
    rewrite split_dot_sep by by apply clean_no_sep.
    cbn [foldl]. rewrite (normalize_step_clean _ _ name) by done.
    replace (path.normalize_step (negb (path.is_sep path.period)) [] path.dot)
      with (@nil (list ascii)) by reflexivity.
    cbn [rev app path.unsplit].
    assert (Hends : path.ends_with_sep (path.dot ++ path.sep :: name) = false).
    { rewrite Heq.
      replace (path.dot ++ path.sep :: l ++ [c])
        with ((path.dot ++ path.sep :: l) ++ [c]) by (by rewrite <- app_assoc).
      by rewrite ends_with_sep_snoc. }
    rewrite Hends.
    destruct name; [done|reflexivity].
  - destruct (unsplit_head (s0 :: segs)) as (c & rest & Heq & Hc); [done..|].
    rewrite filter_cons_True by (rewrite Heq; done).
    rewrite filter_cons_True by done. rewrite filter_nil.
    change (path.unsplit [path.unsplit (s0 :: segs); name])
      with (path.unsplit (s0 :: segs) ++ path.sep :: name).
    rewrite <- unsplit_snoc by done.
    apply normalize_chars_clean; [by destruct segs|].
    apply Forall_app. split; [done|by constructor].
Qed.

Lemma replace_backslashes_none l :
  Forall (λ c, c ≠ backslash) l →
  replace_backslashes (path.str l) = path.str l.
Proof.
  induction 1 as [|c l Hc _ IH]; [reflexivity|].
  cbn [path.str string_of_list_ascii replace_backslashes].
  fold (path.str l). rewrite IH.
  by rewrite bool_decide_eq_false_2.
Qed.

Lemma unsplit_no_backslash segs :
  Forall clean segs → Forall (λ c, c ≠ backslash) (path.unsplit segs).
Proof.
  induction 1 as [|s segs Hs Hsegs IH]; [constructor|].
  assert (Hback : Forall (λ c, c ≠ backslash) s).
  { destruct Hs as (_ & _ & _ & H). eapply Forall_impl; [exact H|]. by intros c []. }
  destruct segs as [|s' segs]; [done|].
  change (path.unsplit (s :: s' :: segs))
    with (s ++ path.sep :: path.unsplit (s' :: segs)).
  apply Forall_app. split; [done|]. constructor; [done|exact IH].
Qed.

Lemma unsplit_snoc_app segs a b :
  path.unsplit (segs ++ [a ++ b]) = path.unsplit (segs ++ [a]) ++ b.
Proof.
  destruct segs as [|s segs]; [reflexivity|].
  rewrite !unsplit_snoc by done. by rewrite <- app_assoc.
Qed.

(** For an entrypoint [dir/.../name.js] whose segments are clean, the
    declaration file is [dir/.../name.d.ts]. *)
Lemma types_of_entrypoint_js dirs name :
  Forall clean_segment dirs → clean_segment name →
  types_of_entrypoint (path_of (dirs ++ [name +:+ ".js"]))
  = path_of (dirs ++ [name +:+ ".d.ts"]).
Proof.
  intros Hdirs Hname.
  assert (Hsegs : Forall clean (path.chars <$> dirs)).
  { apply Forall_fmap. eapply Forall_impl; [exact Hdirs|]. done. }
  unfold clean_segment in Hname.
  unfold types_of_entrypoint, path.join, path.dirname, path.basename, path_of.
  rewrite !chars_str, !fmap_app. cbn [fmap list_fmap].
  rewrite !chars_app.
  rewrite dirname_chars_unsplit; [|done|by destruct (path.chars name)|].
  2:{ apply Forall_app. split; [by apply clean_no_sep|by repeat constructor]. }
  rewrite basename_chars_unsplit; [|done|by apply clean_nonempty|done|].
  2:{ apply Forall_app. split; [by apply clean_no_sep|by repeat constructor]. }
  rewrite join_chars_dirname by done.
  rewrite replace_backslashes_none.
  2:{ apply unsplit_no_backslash, Forall_app. split; [done|by constructor]. }
  rewrite unsplit_snoc_app, str_app. reflexivity.
Qed.

Lemma path_of_snoc_nonempty dirs name : path_of (dirs ++ [name +:+ ".js"]) ≠ "".
Proof.
  unfold path_of. intros Heq.
  apply (f_equal path.chars) in Heq. rewrite chars_str in Heq.
  apply (f_equal length) in Heq.
  rewrite fmap_app in Heq. cbn [fmap list_fmap] in Heq.
  pose proof (length_unsplit_snoc (path.chars <$> dirs)
                (path.chars (name +:+ ".js"))) as Hlen.
  rewrite Heq, chars_app, length_app in Hlen. simpl in Hlen. lia.
Qed.

(** * The specification, claim by claim *)

Section Claims.

Context {components : Components}.
Variable NodeProject_new : TypeScriptProjectOptions.t → NodeProject.t.

Local Abbreviation new := (TypeScriptProject_new NodeProject_new).

(** C1, as the code has it: with [disableTsconfig] truthy the constructor
    builds no main [TypescriptConfig] (the [tsconfig] field stays
    undefined).  The only compiler-configuration file it registers is the
    one of the jest block, [tsconfig.jest.json], and that one exactly when
    jest is enabled.  The [types] key of the manifest is what the manifest
    block made of it, whatever [disableTsconfig] says: when the constructor
    starts to build its components, and in the finished project unless one
    of these components writes that key.  A [TypescriptConfig] never touches
    the manifest. *)
Theorem disableTsconfig_leaves_jest_config o :
  truthy_bool (TypeScriptProjectOptions.disableTsconfig o) = true →
  let P := new o in
  let jest_config :=
    jest_tsconfig (TypeScriptProject.srcdir P) (TypeScriptProject.testdir P)
      (NodeProject_new o) in
  TypeScriptProject.tsconfig P = None
  ∧ NodeProject.files (TypeScriptProject.node P)
    = NodeProject.files (NodeProject_new o) ++
        (if jest_enabled o then [TypescriptConfig.file jest_config] else [])
  ∧ JsonFile.path (TypescriptConfig.file jest_config) = "tsconfig.jest.json"
  ∧ NodeProject.manifest (project_before_jest NodeProject_new o) !! "types"
    = NodeProject.manifest (register_types o (NodeProject_new o)) !! "types"
  ∧ ("types" ∉ manifest_keys (component_contributions NodeProject_new o) →
     NodeProject.manifest (TypeScriptProject.node P) !! "types"
     = NodeProject.manifest (register_types o (NodeProject_new o)) !! "types")
  ∧ ∀ p c, NodeProject.manifest (TypescriptConfig_new p c).2
           = NodeProject.manifest p.
Proof.
  intros Hdisabled P jest_config. subst P jest_config.
  assert (Hnone : ∀ sd ld p, (register_tsconfig o sd ld p).1 = None).
  { intros. unfold register_tsconfig. by rewrite Hdisabled. }
  split_and!.
  - by rewrite new_tsconfig, Hnone.
  - rewrite new_files. unfold tsconfig_files. by rewrite Hnone.
  - reflexivity.
  - by rewrite before_jest_manifest.
  - apply new_manifest_types.
  - reflexivity.
Qed.

(** C2, as the code has it: the constructor appends to the build script the
    test command and then the compile command, or the compile command and
    then the test command when [compileBeforeTest] is set, and behind them
    the package command whenever packaging is enabled, which is the
    default.  With jest enabled and [compileBeforeTest] false or absent it
    appends the command that removes the compiled-output directory to the
    test script before it builds any component, so that the command runs in
    front of every test command that jest, eslint and docgen contribute;
    with [compileBeforeTest] true it appends no such command.  What the
    components append to either script comes last. *)
Theorem build_order_and_cleanup o :
  jest_enabled o = true →
  let P := new o in
  let run := NodeProject.runScriptCommand (NodeProject_new o) in
  let compileBeforeTest :=
    default false (TypeScriptProjectOptions.compileBeforeTest o) in
  let contributed := component_contributions NodeProject_new o in
  NodeProject.script "build" (TypeScriptProject.node P)
  = NodeProject.script "build" (NodeProject_new o) ++
      (if compileBeforeTest
       then [run +:+ " compile"; run +:+ " test"]
       else [run +:+ " test"; run +:+ " compile"]) ++
      (if default true (TypeScriptProjectOptions.package o)
       then [run +:+ " package"] else []) ++
      script_commands "build" contributed
  ∧ NodeProject.script "test" (TypeScriptProject.node P)
    = NodeProject.script "test" (NodeProject_new o) ++
        (if compileBeforeTest then []
         else ["rm -fr " +:+ TypeScriptProject.libdir P +:+ "/"]) ++
        script_commands "test" contributed.
Proof.
  intros Hjest P run cbt contributed. subst P run cbt contributed. split.
  - rewrite new_build. unfold build_commands. by rewrite <- app_assoc.
  - rewrite new_test. unfold cleanup_commands. rewrite Hjest.
    by destruct (default false _).
Qed.

(** C4: with jest enabled a second [TypescriptConfig] is built.  Its file
    name is [tsconfig.jest.json], it includes the source and the test
    globs, it excludes [node_modules] only, and its compiler options are
    the defaults, without [rootDir] and [outDir].  Building it adds its own
    emitter behind those the project already had and leaves the project's
    [tsconfig], the first instance, as the main block built it. *)
Theorem jest_tsconfig_independent o :
  jest_enabled o = true →
  let P := new o in
  let srcdir := TypeScriptProject.srcdir P in
  let libdir := TypeScriptProject.libdir P in
  let testdir := TypeScriptProject.testdir P in
  let before := project_before_jest NodeProject_new o in
  let after := project_after_jest NodeProject_new o in
  let second := jest_tsconfig srcdir testdir before in
  TypescriptConfig.fileName second = "tsconfig.jest.json"
  ∧ TypescriptConfig.include second = [srcdir +:+ "/**/*.ts"; testdir +:+ "/**/*.ts"]
  ∧ TypescriptConfig.exclude second = ["node_modules"]
  ∧ TypescriptConfig.compilerOptions second = compilerOptions
  ∧ TypescriptConfig.compilerOptions second !! "rootDir" = None
  ∧ TypescriptConfig.compilerOptions second !! "outDir" = None
  ∧ TypescriptConfig.file second
    = JsonFile.mk "tsconfig.jest.json"
        (JsonFile.mkobj compilerOptions
           [srcdir +:+ "/**/*.ts"; testdir +:+ "/**/*.ts"] ["node_modules"])
  ∧ NodeProject.files after
    = NodeProject.files before ++ [TypescriptConfig.file second]
  ∧ NodeProject.files (TypeScriptProject.node P) = NodeProject.files after
  ∧ NodeProject.files before
    = NodeProject.files (NodeProject_new o) ++
        tsconfig_files o srcdir libdir (NodeProject_new o)
  ∧ TypeScriptProject.tsconfig P
    = (register_tsconfig o srcdir libdir
         (project_before_tsconfig NodeProject_new o)).1
  ∧ TypeScriptProject.jest P
    = Some (jest_options second (TypeScriptProjectOptions.jestOptions o)).
Proof.
  intros Hjest P srcdir libdir testdir before after second.
  subst P srcdir libdir testdir before after second.
  rewrite new_srcdir, new_libdir, new_testdir.
  split_and!.
  - reflexivity.
  - reflexivity.
  - reflexivity.
  - reflexivity.
  - change (compilerOptions !! "rootDir" = None). by vm_compute.
  - change (compilerOptions !! "outDir" = None). by vm_compute.
  - reflexivity.
  - unfold project_after_jest. cbn beta zeta.
    rewrite register_jest_files, Hjest. reflexivity.
  - rewrite new_node. autorewrite with registry. reflexivity.
  - unfold project_before_jest, project_before_tsconfig. cbn beta zeta.
    autorewrite with registry. unfold tsconfig_files.
    by rewrite (register_tsconfig_instance _ _ _ _ (NodeProject_new o)).
  - rewrite new_tsconfig, new_srcdir, new_libdir. reflexivity.
  - rewrite new_jest, register_jest_jest, Hjest.
    by rewrite new_srcdir, new_testdir.
Qed.

(** C5: the finished project always has the compiled-output directory as
    an exclude entry and the source directory as an include entry of its
    VCS-ignore list.  Its package-ignore list is optional; whenever the
    project has one, it holds the compiled-output directory as an include
    entry and the source directory as an exclude entry. *)
Theorem libdir_ignore_patterns o :
  let P := new o in
  let libdir := TypeScriptProject.libdir P in
  let srcdir := TypeScriptProject.srcdir P in
  IgnoreFile.Exclude ("/" +:+ libdir) ∈ NodeProject.gitignore (TypeScriptProject.node P)
  ∧ IgnoreFile.Include ("/" +:+ srcdir) ∈ NodeProject.gitignore (TypeScriptProject.node P)
  ∧ match NodeProject.npmignore (TypeScriptProject.node P) with
    | Some l =>
        IgnoreFile.Include ("/" +:+ libdir) ∈ l
        ∧ IgnoreFile.Exclude ("/" +:+ srcdir) ∈ l
    | None => NodeProject.npmignore (NodeProject_new o) = None
    end.
Proof.
  intros P libdir srcdir. subst P libdir srcdir.
  rewrite new_gitignore, new_npmignore.
  split_and!.
  - set_solver.
  - set_solver.
  - destruct (NodeProject.npmignore (NodeProject_new o)) as [l|]; [|reflexivity].
    cbn [fmap option_fmap option_map]. unfold package_patterns.
    split; set_solver.
Qed.

(** C6: with eslint enabled, its component is built with
    [./tsconfig.jest.json] as [tsconfigPath] when jest is enabled and with
    [./tsconfig.json] otherwise, and it joins the project's components. *)
Theorem eslint_tsconfigPath o :
  default true (TypeScriptProjectOptions.eslint o) = true →
  let P := new o in
  let eslint :=
    EslintOptions.mk
      (if jest_enabled o then "./tsconfig.jest.json" else "./tsconfig.json")
      [TypeScriptProject.srcdir P; TypeScriptProject.testdir P] in
  TypeScriptProject.eslint P = Some eslint
  ∧ EslintComponent eslint ∈ NodeProject.components (TypeScriptProject.node P).
Proof.
  intros Heslint P eslint. subst P eslint. split.
  - rewrite new_eslint, register_eslint_eslint, Heslint.
    by destruct (jest_enabled o).
  - rewrite new_node. autorewrite with registry. rewrite Heslint.
    destruct (jest_enabled o); set_solver.
Qed.

End Claims.

(** The file of a main instance goes by the instance's file name. *)
Lemma tsconfig_files_patterns o sd ld p l :
  Forall (λ f, IgnoreFile.Exclude ("/" +:+ JsonFile.path f)
               ∈ l ++ tsconfig_patterns o sd ld p)
    (tsconfig_files o sd ld p).
Proof.
  unfold tsconfig_files, tsconfig_patterns, register_tsconfig.
  destruct (negb (truthy_bool (TypeScriptProjectOptions.disableTsconfig o)));
    [|constructor].
  unfold TypescriptConfig_new. cbn beta iota zeta.
  cbn [fst TypescriptConfig.file TypescriptConfig.fileName JsonFile.path].
  constructor; [|constructor]. set_solver.
Qed.

(** C10: whatever the file name, building a [TypescriptConfig] registers its
    emitter under that name and appends the exclude entry ["/" + fileName] to
    the package-ignore list of the project; a project without such a list
    keeps none ([<$>] maps [None] to [None]).  The instance of the jest block
    thus appends [/tsconfig.jest.json], and in a finished project that has a
    package-ignore list every compiler-configuration file that the
    constructor added is excluded by it. *)
Theorem TypescriptConfig_new_excludes_file {components : Components}
    project options :
  let fileName := default "tsconfig.json" (TypescriptConfigOptions.fileName options) in
  let built := TypescriptConfig_new project options in
  TypescriptConfig.fileName built.1 = fileName
  ∧ JsonFile.path (TypescriptConfig.file built.1) = fileName
  ∧ NodeProject.files built.2
    = NodeProject.files project ++ [TypescriptConfig.file built.1]
  ∧ NodeProject.npmignore built.2
    = (λ l, l ++ [IgnoreFile.Exclude ("/" +:+ fileName)])
      <$> NodeProject.npmignore project
  ∧ (∀ srcdir testdir,
      NodeProject.npmignore
        (TypescriptConfig_new project (jest_tsconfig_options srcdir testdir)).2
      = (λ l, l ++ [IgnoreFile.Exclude "/tsconfig.jest.json"])
        <$> NodeProject.npmignore project)
  ∧ ∀ NodeProject_new o,
      ∃ added,
        NodeProject.files
          (TypeScriptProject.node (TypeScriptProject_new NodeProject_new o))
        = NodeProject.files (NodeProject_new o) ++ added
        ∧ match NodeProject.npmignore
                  (TypeScriptProject.node (TypeScriptProject_new NodeProject_new o)) with
          | Some l =>
              Forall (λ f, IgnoreFile.Exclude ("/" +:+ JsonFile.path f) ∈ l) added
          | None => NodeProject.npmignore (NodeProject_new o) = None
          end.
Proof.
  intros fileName built. split_and!; try reflexivity.
  intros NodeProject_new o. eexists. split; [apply new_files|].
  rewrite new_npmignore.
  destruct (NodeProject.npmignore (NodeProject_new o)) as [l|]; [|reflexivity].
  cbn [fmap option_fmap option_map].
  apply Forall_app. split.
  - eapply Forall_impl; [apply (tsconfig_files_patterns _ _ _ _ l)|].
    intros f Hin. rewrite app_assoc. apply elem_of_app. by left.
  - destruct (jest_enabled o); constructor; [|constructor].
    change (JsonFile.path _) with "tsconfig.jest.json". set_solver.
Qed.

(** Without a package-ignore list the constructor registers no pattern. *)
Example TypescriptConfig_new_unpackaged :
  NodeProject.npmignore
    (TypescriptConfig_new (NodeProject_unpackaged default_options)
       (jest_tsconfig_options "src" "test")).2 = None.
Proof. reflexivity. Qed.


Lemma compilerOptions_rootDir : compilerOptions !! "rootDir" = None.
Proof. by vm_compute. Qed.

Lemma compilerOptions_outDir : compilerOptions !! "outDir" = None.
Proof. by vm_compute. Qed.

(** [{ rootDir, outDir, ...compilerOptions }] is the defaults with the two
    computed keys added: the defaults hold neither. *)
Lemma computed_over_defaults sd ld :
  compilerOptions ∪ <["outDir" := JString ld]> (<["rootDir" := JString sd]> ∅)
  = <["outDir" := JString ld]> (<["rootDir" := JString sd]> compilerOptions).
Proof.
  apply map_eq. intros k.
  rewrite lookup_union.
  destruct (decide (k = "outDir")) as [->|Hout].
  { by rewrite compilerOptions_outDir, !lookup_insert_eq. }
  destruct (decide (k = "rootDir")) as [->|Hroot].
  { rewrite compilerOptions_rootDir, lookup_insert_ne, !lookup_insert_eq by done.
    by rewrite lookup_insert_ne, lookup_insert_eq by done. }
  rewrite !lookup_insert_ne, lookup_empty by done.
  by destruct (compilerOptions !! k).
Qed.

(** A key that the literal leaves out comes from the spread object alone; a
    key of the literal is the fallback for the spread object. *)
Lemma spread_key_None {A} (over : option A) : spread_key None over = over.
Proof. by destruct over. Qed.

Lemma spread_key_Some {A} (d : A) (over : option A) :
  spread_key (Some d) over = Some (default d over).
Proof. by destruct over. Qed.

Section MoreClaims.

Context {components : Components}.
Variable NodeProject_new : TypeScriptProjectOptions.t → NodeProject.t.

Local Abbreviation new := (TypeScriptProject_new NodeProject_new).

(** C3, as the code has it: the options handed to the main
    [TypescriptConfig] are the caller's [tsconfig] spread over
    [{ include, exclude, compilerOptions }], key by key at that level.  So
    without a caller's [tsconfig] the compiler options are the defaults
    with the computed [rootDir] and [outDir]; with one, they are the
    caller's [compilerOptions] as a whole, and neither the defaults nor the
    computed fields are merged into them.  [fileName], [include] and
    [exclude] come from the caller's [tsconfig] when it has them. *)
Theorem tsconfig_compilerOptions_layers o :
  truthy_bool (TypeScriptProjectOptions.disableTsconfig o) = false →
  let P := new o in
  let srcdir := TypeScriptProject.srcdir P in
  let libdir := TypeScriptProject.libdir P in
  let custom := TypeScriptProjectOptions.tsconfig o in
  ∃ c, TypeScriptProject.tsconfig P = Some c
    ∧ TypescriptConfig.compilerOptions c
      = match custom with
        | Some t => TypescriptConfigOptions.compilerOptions t
        | None =>
            <["outDir" := JString libdir]>
              (<["rootDir" := JString srcdir]> compilerOptions)
        end
    ∧ TypescriptConfig.fileName c
      = default "tsconfig.json" (custom ≫= TypescriptConfigOptions.fileName)
    ∧ TypescriptConfig.include c
      = default [srcdir +:+ "/**/*.ts"] (custom ≫= TypescriptConfigOptions.include)
    ∧ TypescriptConfig.exclude c
      = default ["node_modules"; libdir] (custom ≫= TypescriptConfigOptions.exclude)
    ∧ JsonFile.contents (TypescriptConfig.file c)
      = JsonFile.mkobj (TypescriptConfig.compilerOptions c)
          (TypescriptConfig.include c) (TypescriptConfig.exclude c).
Proof.
  intros Henabled P srcdir libdir custom. subst P srcdir libdir custom.
  rewrite new_tsconfig, new_srcdir, new_libdir.
  unfold register_tsconfig. rewrite Henabled. cbn [negb].
  unfold TypescriptConfig_new. cbn beta iota zeta.
  eexists. split; [reflexivity|].
  cbn [TypescriptConfig.compilerOptions TypescriptConfig.fileName
       TypescriptConfig.include TypescriptConfig.exclude TypescriptConfig.file
       JsonFile.contents].
  unfold tsconfig_options.
  destruct (TypeScriptProjectOptions.tsconfig o) as [[fn inc exc co]|].
  - cbn [TypescriptConfigOptions.spread TypescriptConfigOptions.compilerOptions
         TypescriptConfigOptions.fileName TypescriptConfigOptions.include
         TypescriptConfigOptions.exclude mbind option_bind].
    split_and!.
    + reflexivity.
    + by destruct fn.
    + by destruct inc.
    + by destruct exc.
    + reflexivity.
  - cbn [TypescriptConfigOptions.spread TypescriptConfigOptions.compilerOptions
         TypescriptConfigOptions.fileName TypescriptConfigOptions.include
         TypescriptConfigOptions.exclude mbind option_bind default].
    split_and!; [apply computed_over_defaults | reflexivity ..].
Qed.

(** C7, as the code has it: the constructor writes the [types] key of the
    manifest exactly when [entrypointTypes] is a non-empty string or the
    entrypoint of the project is not the empty string, and leaves the key
    alone otherwise.  The value is [entrypointTypes] when the caller gave
    one, else the declaration file named after the entrypoint: for an
    entrypoint [dir/.../name.js] of clean segments that is
    [dir/.../name.d.ts].  This is the key when the constructor starts to
    build its components, and the key of the finished project unless one of
    these components writes it. *)
Theorem manifest_types_field o :
  let P := new o in
  let entrypoint := NodeProject.entrypoint (NodeProject_new o) in
  let entrypointTypes := TypeScriptProjectOptions.entrypointTypes o in
  let written :=
    truthy_string entrypointTypes || negb (bool_decide (entrypoint = "")) in
  let types :=
    if written
    then Some (JString (default (types_of_entrypoint entrypoint) entrypointTypes))
    else NodeProject.manifest (NodeProject_new o) !! "types" in
  NodeProject.manifest (project_before_jest NodeProject_new o) !! "types" = types
  ∧ ("types" ∉ manifest_keys (component_contributions NodeProject_new o) →
     NodeProject.manifest (TypeScriptProject.node P) !! "types" = types
     ∧ (NodeProject.manifest (NodeProject_new o) !! "types" = None →
        (is_Some (NodeProject.manifest (TypeScriptProject.node P) !! "types")
         ↔ written = true))
     ∧ (∀ dirs name,
          entrypointTypes = None →
          Forall clean_segment dirs → clean_segment name →
          entrypoint = path_of (dirs ++ [name +:+ ".js"]) →
          NodeProject.manifest (TypeScriptProject.node P) !! "types"
          = Some (JString (path_of (dirs ++ [name +:+ ".d.ts"]))))).
Proof.
  intros P entrypoint entrypointTypes written types.
  assert (Hblock :
    NodeProject.manifest (register_types o (NodeProject_new o)) !! "types" = types).
  { subst types entrypoint entrypointTypes written.
    unfold register_types. case_match; [|reflexivity].
    project_simpl. by rewrite lookup_insert_eq. }
  split.
  { by rewrite before_jest_manifest. }
  intros Hkeys.
  assert (Hfinished :
    NodeProject.manifest (TypeScriptProject.node P) !! "types" = types).
  { subst P. by rewrite new_manifest_types. }
  split_and!.
  - exact Hfinished.
  - intros Hnone. rewrite Hfinished. subst types. destruct written.
    + split; [done|]. by eexists.
    + rewrite Hnone. split; [by intros [? ?]|done].
  - intros dirs name Htypes Hdirs Hname Hentry.
    rewrite Hfinished. subst types written. rewrite Htypes, Hentry.
    rewrite (bool_decide_eq_false_2 (path_of _ = "")).
    2:{ apply path_of_snoc_nonempty. }
    cbn [truthy_string orb negb default].
    by rewrite types_of_entrypoint_js.
Qed.

(** C8: building the app variant from options [O] is building the generic
    project from the preset options: every key from [O], and
    [entrypoint = ''], [package = false],
    [allowLibraryDependencies = false] and [releaseWorkflow = false] for
    the keys that [O] leaves out. *)
Theorem TypeScriptAppProject_is_preset o :
  TypeScriptAppProject_new NodeProject_new o = new (app_preset_options o)
  ∧ TypeScriptProjectOptions.spread app_defaults o = app_preset_options o.
Proof.
  assert (Hspread : TypeScriptProjectOptions.spread app_defaults o
                    = app_preset_options o).
  { destruct o as [sd ld td ep ald rw ono j jo e tv dg dd tc dt cbt sc et pk].
    unfold TypeScriptProjectOptions.spread, app_defaults, app_preset_options.
    cbn [TypeScriptProjectOptions.srcdir TypeScriptProjectOptions.libdir
         TypeScriptProjectOptions.testdir TypeScriptProjectOptions.entrypoint
         TypeScriptProjectOptions.allowLibraryDependencies
         TypeScriptProjectOptions.releaseWorkflow
         TypeScriptProjectOptions.otherNodeOptions TypeScriptProjectOptions.jest
         TypeScriptProjectOptions.jestOptions TypeScriptProjectOptions.eslint
         TypeScriptProjectOptions.typescriptVersion TypeScriptProjectOptions.docgen
         TypeScriptProjectOptions.docsDirectory TypeScriptProjectOptions.tsconfig
         TypeScriptProjectOptions.disableTsconfig
         TypeScriptProjectOptions.compileBeforeTest
         TypeScriptProjectOptions.sampleCode TypeScriptProjectOptions.entrypointTypes
         TypeScriptProjectOptions.package].
    by rewrite (right_id_L ∅ (∪)), !spread_key_None, !spread_key_Some. }
  split; [|exact Hspread].
  unfold TypeScriptAppProject_new. by rewrite Hspread.
Qed.

End MoreClaims.

(** ** Sample code *)

Lemma io_bind_returns {A B} (m : IO A) (k : A → IO B) d d' a :
  m d = (d', inr a) → io_bind m k d = k a d'.
Proof. intros H. unfold io_bind. by rewrite H. Qed.

Lemma io_update_returns f d d' :
  f d = inr d' → io_update f d = (d', inr tt).
Proof. intros H. unfold io_update. by rewrite H. Qed.

(** For an existing path the guard is true or throws: it never is false. *)
Lemma has_sources_exists dir d :
  fs.pathExistsSync dir d = true →
  has_sources dir d = (d, inr true) ∨ has_sources dir d = (d, inl fs.ENOTDIR).
Proof.
  intros Hexists. unfold has_sources, io_query. rewrite Hexists.
  unfold fs.pathExistsSync in Hexists. unfold fs.readdirSync.
  destruct (fs.stat dir d) as [[|data]|]; [by left | by right | done].
Qed.

Lemma has_sources_directory dir d :
  fs.stat dir d = Some fs.Dir → has_sources dir d = (d, inr true).
Proof.
  intros Hdir. unfold has_sources, io_query, fs.pathExistsSync, fs.readdirSync.
  by rewrite Hdir.
Qed.

Lemma has_sources_missing dir d :
  fs.pathExistsSync dir d = false → has_sources dir d = (d, inr false).
Proof. intros Hmissing. unfold has_sources, io_query. by rewrite Hmissing. Qed.

Lemma writeFileSync_written p data d d' :
  fs.writeFileSync p data d = inr d' → fs.stat p d' = Some (fs.File data).
Proof.
  unfold fs.writeFileSync, fs.stat, fs.node_at.
  destruct (fs.is_root (fs.resolve p)) eqn:Hroot; [done|].
  repeat case_match; try done.
  all: intros [= <-]; by rewrite lookup_insert_eq.
Qed.

(** C9: [synthesize] writes nothing whenever the source directory exists,
    and when it is a directory it returns normally, whatever the directory
    holds (the guard tests an array, which is truthy even when empty).  When
    the source directory is missing and the sample source is written, the
    same guard on the test directory makes [synthesize] return right there:
    the file system stays as the write of the sample source left it, without
    the sample test. *)
Theorem SampleCode_synthesize_guards project_srcdir project_testdir outdir d :
  let srcdir := path.join outdir project_srcdir in
  let testdir := path.join outdir project_testdir in
  let index := path.join srcdir "index.ts" in
  let synthesize := SampleCode_synthesize project_srcdir project_testdir outdir in
  (fs.pathExistsSync srcdir d = true → (synthesize d).1 = d)
  ∧ (fs.stat srcdir d = Some fs.Dir → synthesize d = (d, inr tt))
  ∧ (∀ names : list string, truthy_array (filter (λ x, endsWith x ".ts" = true) names) = true)
  ∧ (fs.pathExistsSync srcdir d = false →
     ∀ d1 d2,
       fs.mkdirpSync srcdir d = inr d1 →
       fs.writeFileSync index (join_lines srcCode) d1 = inr d2 →
       fs.stat index d2 = Some (fs.File (join_lines srcCode))
       ∧ (fs.pathExistsSync testdir d2 = true → (synthesize d).1 = d2)
       ∧ (fs.stat testdir d2 = Some fs.Dir → synthesize d = (d2, inr tt))).
Proof.
  intros srcdir testdir index synthesize.
  subst synthesize. unfold SampleCode_synthesize.
  fold srcdir. fold testdir. fold index.
  split_and!.
  - intros Hexists. unfold io_bind.
    by destruct (has_sources_exists _ _ Hexists) as [-> | ->].
  - intros Hdir. unfold io_bind. by rewrite (has_sources_directory _ _ Hdir).
  - reflexivity.
  - intros Hmissing d1 d2 Hmkdir Hwrite.
    split; [by eapply writeFileSync_written|].
    rewrite (io_bind_returns _ _ _ _ _ (has_sources_missing _ _ Hmissing)).
    rewrite (io_bind_returns _ _ _ _ _ (io_update_returns _ _ _ Hmkdir)).
    rewrite (io_bind_returns _ _ _ _ _ (io_update_returns _ _ _ Hwrite)).
    split.
    + intros Hexists. unfold io_bind.
      by destruct (has_sources_exists _ _ Hexists) as [-> | ->].
    + intros Hdir. unfold io_bind. by rewrite (has_sources_directory _ _ Hdir).
Qed.

(** * Concrete inputs *)

Ltac clean_segment_proof :=
  unfold clean_segment, clean; split_and!; [done | done | done |];
  repeat constructor; done.

Lemma clean_segment_lib : clean_segment "lib".
Proof. clean_segment_proof. Defined.

Lemma clean_segment_index : clean_segment "index".
Proof. clean_segment_proof. Defined.

(** A key that a list of keys does not hold, by evaluation. *)
Ltac absent_key :=
  match goal with
  | |- ?P => apply (@bool_decide_unpack P _); vm_compute; exact I
  end.

(** C1 at [{ disableTsconfig: true }]: the sample components write the
    manifest key [jest] and leave [types] alone. *)
Lemma disableTsconfig_leaves_jest_config_witness :
  truthy_bool (TypeScriptProjectOptions.disableTsconfig options_disableTsconfig) = true
  ∧ TypeScriptProject.tsconfig project_disableTsconfig = None
  ∧ manifest_keys
      (component_contributions (components := sample_components)
         NodeProject_fresh options_disableTsconfig)
    = ["jest"]
  ∧ NodeProject.manifest (TypeScriptProject.node project_disableTsconfig) !! "types"
    = NodeProject.manifest
        (register_types options_disableTsconfig
           (NodeProject_fresh options_disableTsconfig)) !! "types".
Proof.
  destruct (disableTsconfig_leaves_jest_config (components := sample_components)
              NodeProject_fresh options_disableTsconfig eq_refl)
    as (Hnone & _ & _ & _ & Htypes & _).
  split_and!.
  - reflexivity.
  - exact Hnone.
  - reflexivity.
  - apply Htypes. absent_key.
Defined.

(** C1 as stated fails at [{ disableTsconfig: true }]: jest is enabled by
    default, and its compiler-configuration file is registered. *)
Lemma disableTsconfig_registers_jest_file :
  truthy_bool (TypeScriptProjectOptions.disableTsconfig options_disableTsconfig) = true
  ∧ jest_enabled options_disableTsconfig = true
  ∧ JsonFile.path <$> NodeProject.files (TypeScriptProject.node project_disableTsconfig)
    = ["tsconfig.jest.json"]
  ∧ NodeProject.files (TypeScriptProject.node project_disableTsconfig) ≠ [].
Proof. split_and!; [reflexivity | reflexivity | by vm_compute | by vm_compute]. Qed.

(** C2 at [{ compileBeforeTest: true, package: false }], where the test
    script holds what the sample components contribute and no cleanup, and
    at [{}], where the cleanup comes first. *)
Lemma build_order_and_cleanup_witness :
  (jest_enabled options_compileBeforeTest = true
   ∧ NodeProject.script "build" (TypeScriptProject.node project_compileBeforeTest)
     = ["yarn run compile"; "yarn run test"]
   ∧ NodeProject.script "test" (TypeScriptProject.node project_compileBeforeTest)
     = ["jest --passWithNoTests"; "eslint"])
  ∧ (jest_enabled default_options = true
     ∧ NodeProject.script "build" (TypeScriptProject.node project_default)
       = ["yarn run test"; "yarn run compile"; "yarn run package"]
     ∧ NodeProject.script "test" (TypeScriptProject.node project_default)
       = ["rm -fr lib/"; "jest --passWithNoTests"; "eslint"]).
Proof.
  split.
  - split; [reflexivity|].
    exact (build_order_and_cleanup (components := sample_components)
             NodeProject_fresh options_compileBeforeTest eq_refl).
  - split; [reflexivity|].
    exact (build_order_and_cleanup (components := sample_components)
             NodeProject_fresh default_options eq_refl).
Defined.

(** C2 as stated fails at [{}]: jest is enabled, [compileBeforeTest] is
    absent, and the build script has a third command, for packaging. *)
Lemma build_script_has_package_command :
  jest_enabled default_options = true
  ∧ TypeScriptProjectOptions.compileBeforeTest default_options = None
  ∧ NodeProject.script "build" (TypeScriptProject.node project_default)
    = ["yarn run test"; "yarn run compile"; "yarn run package"]
  ∧ NodeProject.script "build" (TypeScriptProject.node project_default)
    ≠ ["yarn run test"; "yarn run compile"].
Proof. split_and!; [reflexivity | reflexivity | by vm_compute | by vm_compute]. Qed.

(** C3 at [{}]. *)
Lemma tsconfig_compilerOptions_layers_witness :
  truthy_bool (TypeScriptProjectOptions.disableTsconfig default_options) = false
  ∧ ∃ c, TypeScriptProject.tsconfig project_default = Some c
      ∧ TypescriptConfig.compilerOptions c
        = <["outDir" := JString "lib"]> (<["rootDir" := JString "src"]> compilerOptions).
Proof.
  split; [reflexivity|].
  destruct (tsconfig_compilerOptions_layers (components := sample_components)
              NodeProject_fresh default_options eq_refl)
    as (c & Hc & Hoptions & _).
  exists c. split; [exact Hc | exact Hoptions].
Defined.

(** C3 as stated fails at [{ tsconfig: { compilerOptions: { allowJs: true } } }]:
    the compiler options of the project are the caller's alone, although a
    merge key by key would keep [strict] from the defaults and [rootDir] from
    the computed fields. *)
Lemma custom_tsconfig_replaces_compilerOptions :
  ∃ c, TypeScriptProject.tsconfig project_custom_tsconfig = Some c
    ∧ TypescriptConfig.compilerOptions c = {["allowJs" := JBool true]}
    ∧ TypescriptConfig.compilerOptions c !! "strict" = None
    ∧ TypescriptConfig.compilerOptions c !! "rootDir" = None
    ∧ ({["allowJs" := JBool true]}
         ∪ <["outDir" := JString "lib"]> (<["rootDir" := JString "src"]> compilerOptions))
        !! "strict" = Some (JBool true)
    ∧ TypescriptConfig.compilerOptions c
      ≠ {["allowJs" := JBool true]}
          ∪ <["outDir" := JString "lib"]> (<["rootDir" := JString "src"]> compilerOptions).
Proof.
  eexists. split; [by vm_compute|].
  split_and!; [reflexivity | by vm_compute | by vm_compute | by vm_compute |].
  intros Heq. apply (f_equal (λ m : gmap string JsonValue, m !! "strict")) in Heq.
  vm_compute in Heq. discriminate.
Qed.

(** C4 at [{}]. *)
Lemma jest_tsconfig_independent_witness :
  jest_enabled default_options = true
  ∧ TypescriptConfig.fileName
      (jest_tsconfig "src" "test" (project_before_jest NodeProject_fresh default_options))
    = "tsconfig.jest.json".
Proof.
  split; [reflexivity|].
  exact (proj1 (jest_tsconfig_independent (components := sample_components)
                  NodeProject_fresh default_options eq_refl)).
Defined.

(** C6 at [{}]. *)
Lemma eslint_tsconfigPath_witness :
  default true (TypeScriptProjectOptions.eslint default_options) = true
  ∧ TypeScriptProject.eslint project_default
    = Some (EslintOptions.mk "./tsconfig.jest.json" ["src"; "test"]).
Proof.
  split; [reflexivity|].
  exact (proj1 (eslint_tsconfigPath (components := sample_components)
                  NodeProject_fresh default_options eq_refl)).
Defined.

(** C7 at [{}], where the entrypoint is [lib/index.js] and the sample
    components leave the [types] key alone. *)
Lemma manifest_types_field_witness :
  ("types" ∉ manifest_keys
               (component_contributions (components := sample_components)
                  NodeProject_fresh default_options))
  ∧ NodeProject.manifest (NodeProject_fresh default_options) !! "types" = None
  ∧ TypeScriptProjectOptions.entrypointTypes default_options = None
  ∧ is_Some (NodeProject.manifest (TypeScriptProject.node project_default) !! "types")
  ∧ NodeProject.manifest (TypeScriptProject.node project_default) !! "types"
    = Some (JString "lib/index.d.ts").
Proof.
  assert (Hkeys :
    "types" ∉ manifest_keys
                (component_contributions (components := sample_components)
                   NodeProject_fresh default_options)).
  { absent_key. }
  destruct (manifest_types_field (components := sample_components)
              NodeProject_fresh default_options) as (_ & Hfinished).
  destruct (Hfinished Hkeys) as (_ & Hiff & Hvalue).
  split_and!.
  - exact Hkeys.
  - reflexivity.
  - reflexivity.
  - apply (Hiff eq_refl). reflexivity.
  - apply (Hvalue ["lib"] "index").
    + reflexivity.
    + constructor; [exact clean_segment_lib | constructor].
    + exact clean_segment_index.
    + reflexivity.
Defined.

(** C7 as stated fails at [{ entrypoint: '', entrypointTypes: '' }]: the
    caller supplies [entrypointTypes], and the field is not written. *)
Lemma empty_entrypointTypes_not_written :
  TypeScriptProjectOptions.entrypointTypes options_empty_types = Some ""
  ∧ NodeProject.entrypoint (NodeProject_fresh options_empty_types) = ""
  ∧ NodeProject.manifest (TypeScriptProject.node project_empty_types) !! "types" = None.
Proof. split_and!; [reflexivity | reflexivity | by vm_compute]. Qed.

(** A project without a package-ignore list stays without one, also when
    components contribute patterns to it. *)
Example unpackaged_project_has_no_npmignore :
  NodeProject.npmignore
    (TypeScriptProject.node
       (TypeScriptProject_new (components := sample_components)
          NodeProject_unpackaged default_options))
  = None
  ∧ NodeProject.gitignore
      (TypeScriptProject.node
         (TypeScriptProject_new (components := sample_components)
            NodeProject_unpackaged default_options))
    = [IgnoreFile.Exclude "/lib"; IgnoreFile.Include "/src";
       IgnoreFile.Exclude "/dist"; IgnoreFile.Exclude "/coverage";
       IgnoreFile.Include "/test"].
Proof. split; by vm_compute. Qed.

(** The app variant on options that set none of the preset keys, and on
    options that set the entrypoint. *)
Example app_project_without_entrypoint :
  NodeProject.manifest
    (TypeScriptProject.node
       (TypeScriptAppProject_new (components := sample_components)
          NodeProject_fresh default_options))
    !! "types" = None
  ∧ NodeProject.script "build"
      (TypeScriptProject.node
         (TypeScriptAppProject_new (components := sample_components)
            NodeProject_fresh default_options))
    = ["yarn run test"; "yarn run compile"].
Proof. split; by vm_compute. Qed.

Example app_project_with_entrypoint :
  NodeProject.manifest
    (TypeScriptProject.node
       (TypeScriptAppProject_new (components := sample_components)
          NodeProject_fresh options_app))
    !! "types" = Some (JString "lib/main.d.ts").
Proof. by vm_compute. Qed.

(** C9 on an empty source directory, and on an empty test directory next to
    a missing source directory. *)
Lemma SampleCode_synthesize_guards_witness :
  (fs.stat (path.join "out" "src") fs_empty_srcdir = Some fs.Dir
   ∧ SampleCode_synthesize "src" "test" "out" fs_empty_srcdir
     = (fs_empty_srcdir, inr tt))
  ∧ (fs.pathExistsSync (path.join "out" "src") fs_empty_testdir = false
     ∧ SampleCode_synthesize "src" "test" "out" fs_empty_testdir
       = (<["out/src/index.ts" := fs.File (join_lines srcCode)]>
            (<["out/src" := fs.Dir]> fs_empty_testdir), inr tt)).
Proof.
  split.
  - split; [by vm_compute|].
    apply (proj1 (proj2 (SampleCode_synthesize_guards "src" "test" "out" fs_empty_srcdir))).
    by vm_compute.
  - split; [by vm_compute|].
    destruct (proj2 (proj2 (proj2
      (SampleCode_synthesize_guards "src" "test" "out" fs_empty_testdir)))
      ltac:(by vm_compute)
      (<["out/src" := fs.Dir]> fs_empty_testdir)
      (<["out/src/index.ts" := fs.File (join_lines srcCode)]>
         (<["out/src" := fs.Dir]> fs_empty_testdir))
      ltac:(by vm_compute) ltac:(by vm_compute)) as (_ & _ & Hreturn).
    apply Hreturn. by vm_compute.
Defined.

(** * Further properties of the constructor *)

(** ** The registries that the claims leave out, block by block *)

Lemma scripts_addScriptCommand_ne name name' commands p :
  name ≠ name' →
  NodeProject.scripts (NodeProject.addScriptCommand name commands p) !! name'
  = NodeProject.scripts p !! name'.
Proof.
  intros. unfold NodeProject.addScriptCommand. project_simpl.
  by rewrite lookup_insert_ne.
Qed.

Lemma scripts_start_addEntry entry o p :
  NodeProject.scripts (NodeProject.start_addEntry entry o p) = NodeProject.scripts p.
Proof. reflexivity. Qed.

Lemma register_scripts_other o p name :
  name ∉ ["compile"; "watch"; "build"; "package"] →
  NodeProject.scripts (register_scripts o p) !! name = NodeProject.scripts p !! name.
Proof.
  intros Hname. rewrite !not_elem_of_cons in Hname.
  destruct Hname as (Hc & Hw & Hb & Hp & _).
  apply not_eq_sym in Hc, Hw, Hb, Hp.
  unfold register_scripts, addBuildCommand,
    NodeProject.addScript, NodeProject.addCompileCommand.
  repeat case_match;
    repeat first
      [ rewrite scripts_start_addEntry
      | rewrite scripts_addScriptCommand_ne by done ];
    reflexivity.
Qed.

Lemma register_scripts_compile o p :
  NodeProject.script "compile" (register_scripts o p)
  = NodeProject.script "compile" p ++ ["tsc"].
Proof.
  unfold register_scripts, addBuildCommand,
    NodeProject.addScript, NodeProject.addCompileCommand.
  repeat case_match;
    repeat first
      [ rewrite script_start_addEntry
      | rewrite script_addScriptCommand_ne by done
      | rewrite script_addScriptCommand ];
    reflexivity.
Qed.

Lemma register_scripts_watch o p :
  NodeProject.script "watch" (register_scripts o p)
  = NodeProject.script "watch" p ++ ["tsc -w"].
Proof.
  unfold register_scripts, addBuildCommand,
    NodeProject.addScript, NodeProject.addCompileCommand.
  repeat case_match;
    repeat first
      [ rewrite script_start_addEntry
      | rewrite script_addScriptCommand_ne by done
      | rewrite script_addScriptCommand ];
    reflexivity.
Qed.

Lemma register_scripts_package o p :
  NodeProject.script "package" (register_scripts o p)
  = NodeProject.script "package" p ++
      (if default true (TypeScriptProjectOptions.package o)
       then package_commands (NodeProject.packageManager p) else []).
Proof.
  unfold register_scripts, addBuildCommand, package_commands,
    NodeProject.addScript, NodeProject.addCompileCommand.
  repeat case_match;
    repeat first
      [ rewrite script_start_addEntry
      | rewrite script_addScriptCommand_ne by done
      | rewrite script_addScriptCommand ];
    rewrite ?app_nil_r; reflexivity.
Qed.

Lemma register_scripts_start o p :
  NodeProject.start (register_scripts o p)
  = (λ entries, entries ++ start_entries o) <$> NodeProject.start p.
Proof.
  unfold register_scripts, start_entries, addBuildCommand,
    NodeProject.addScript, NodeProject.addCompileCommand.
  repeat case_match; project_simpl;
    destruct (NodeProject.start p) as [entries|]; try reflexivity;
    cbn [fmap option_fmap option_map]; f_equal;
    by rewrite <- ?app_assoc.
Qed.

Lemma register_scripts_devDependencies o p :
  NodeProject.devDependencies (register_scripts o p) = NodeProject.devDependencies p.
Proof. frame register_scripts. Qed.

Lemma register_scripts_minNodeVersion o p :
  NodeProject.minNodeVersion (register_scripts o p) = NodeProject.minNodeVersion p.
Proof. frame register_scripts. Qed.

Lemma register_types_scripts o p :
  NodeProject.scripts (register_types o p) = NodeProject.scripts p.
Proof. frame register_types. Qed.

Lemma register_types_start o p :
  NodeProject.start (register_types o p) = NodeProject.start p.
Proof. frame register_types. Qed.

Lemma register_types_devDependencies o p :
  NodeProject.devDependencies (register_types o p) = NodeProject.devDependencies p.
Proof. frame register_types. Qed.

Lemma register_types_minNodeVersion o p :
  NodeProject.minNodeVersion (register_types o p) = NodeProject.minNodeVersion p.
Proof. frame register_types. Qed.

Lemma register_tsconfig_scripts o sd ld p :
  NodeProject.scripts (register_tsconfig o sd ld p).2 = NodeProject.scripts p.
Proof. frame register_tsconfig. Qed.

Lemma register_tsconfig_start o sd ld p :
  NodeProject.start (register_tsconfig o sd ld p).2 = NodeProject.start p.
Proof. frame register_tsconfig. Qed.

Lemma register_tsconfig_devDependencies o sd ld p :
  NodeProject.devDependencies (register_tsconfig o sd ld p).2
  = NodeProject.devDependencies p.
Proof. frame register_tsconfig. Qed.

Lemma register_tsconfig_minNodeVersion o sd ld p :
  NodeProject.minNodeVersion (register_tsconfig o sd ld p).2
  = NodeProject.minNodeVersion p.
Proof. frame register_tsconfig. Qed.

Lemma register_ignores_scripts sd ld p :
  NodeProject.scripts (register_ignores sd ld p) = NodeProject.scripts p.
Proof. reflexivity. Qed.

Lemma register_ignores_start sd ld p :
  NodeProject.start (register_ignores sd ld p) = NodeProject.start p.
Proof. reflexivity. Qed.

Lemma register_ignores_devDependencies sd ld p :
  NodeProject.devDependencies (register_ignores sd ld p) = NodeProject.devDependencies p.
Proof. reflexivity. Qed.

Lemma register_ignores_minNodeVersion sd ld p :
  NodeProject.minNodeVersion (register_ignores sd ld p) = NodeProject.minNodeVersion p.
Proof. reflexivity. Qed.

#[local] Hint Rewrite
  register_scripts_compile register_scripts_watch register_scripts_package
  register_scripts_start register_scripts_devDependencies
  register_scripts_minNodeVersion
  register_types_scripts register_types_start register_types_devDependencies
  register_types_minNodeVersion
  register_tsconfig_scripts register_tsconfig_start
  register_tsconfig_devDependencies register_tsconfig_minNodeVersion
  register_ignores_scripts register_ignores_start
  register_ignores_devDependencies register_ignores_minNodeVersion
  @register_jest_start @register_jest_devDependencies @register_jest_minNodeVersion
  @register_eslint_start @register_eslint_devDependencies
  @register_eslint_minNodeVersion
  @register_tooling_start @register_tooling_devDependencies
  : registry.

(** The script block appends the commands of lines 131-170 to their
    scripts, and nothing to any other script. *)
Lemma register_scripts_script o p ld name :
  NodeProject.script name (register_scripts o p)
  = NodeProject.script name p ++
      (if bool_decide (name = "test") then []
       else constructor_commands o (NodeProject.runScriptCommand p)
              (NodeProject.packageManager p) ld name).
Proof.
  unfold constructor_commands.
  destruct (decide (name = "compile")) as [->|Hcompile].
  { by rewrite register_scripts_compile. }
  destruct (decide (name = "watch")) as [->|Hwatch].
  { by rewrite register_scripts_watch. }
  destruct (decide (name = "build")) as [->|Hbuild].
  { by rewrite register_scripts_build. }
  destruct (decide (name = "package")) as [->|Hpackage].
  { by rewrite register_scripts_package. }
  rewrite (bool_decide_eq_false_2 (name = "compile")),
    (bool_decide_eq_false_2 (name = "watch")),
    (bool_decide_eq_false_2 (name = "build")),
    (bool_decide_eq_false_2 (name = "package")) by done.
  assert (Hsame : NodeProject.script name (register_scripts o p)
                  = NodeProject.script name p).
  { unfold NodeProject.script. rewrite register_scripts_other; [done|].
    rewrite !not_elem_of_cons. split_and!; [done..|apply not_elem_of_nil]. }
  rewrite Hsame. case_bool_decide; by rewrite app_nil_r.
Qed.

Lemma tsconfig_options_fileName sd ld custom :
  default "tsconfig.json"
    (TypescriptConfigOptions.fileName (tsconfig_options sd ld custom))
  = default "tsconfig.json" (custom ≫= TypescriptConfigOptions.fileName).
Proof.
  unfold tsconfig_options. destruct custom as [[fn inc exc co]|]; [|reflexivity].
  by destruct fn.
Qed.

Section ConstructorProperties.

Context {components : Components}.
Variable NodeProject_new : TypeScriptProjectOptions.t → NodeProject.t.

Local Abbreviation new := (TypeScriptProject_new NodeProject_new).

(** A script of the finished project: what the project had, then what the
    constructor appends itself, then what the components contribute. *)
Lemma new_script o name :
  NodeProject.script name (TypeScriptProject.node (new o))
  = NodeProject.script name (NodeProject_new o) ++
      constructor_commands o (NodeProject.runScriptCommand (NodeProject_new o))
        (NodeProject.packageManager (NodeProject_new o))
        (default "lib" (TypeScriptProjectOptions.libdir o)) name ++
      script_commands name (component_contributions NodeProject_new o).
Proof.
  registries. rewrite register_jest_script.
  unfold project_before_jest, project_before_tsconfig. cbn beta zeta.
  autorewrite with registry.
  rewrite (register_scripts_script _ _
             (default "lib" (TypeScriptProjectOptions.libdir o))).
  unfold component_contributions. rewrite !script_commands_app, <- !app_assoc.
  f_equal. case_bool_decide as Htest.
  - subst name. reflexivity.
  - reflexivity.
Qed.

(** X1: the constructor pins [typescript] to the caller's version, or to
    [^3.9.5], and [@types/node] to the caret of the project's minimum node
    version, or of [10.17.0].  It does so behind the dependencies that jest
    and eslint register and in front of those of docgen: the two pins replace
    what the project, jest or eslint registered under these names, and they
    are the final ones whenever docgen is off. *)
Theorem devDependencies_pins o :
  let typescript :=
    default (Semver.caret "3.9.5") (TypeScriptProjectOptions.typescriptVersion o) in
  let types_node :=
    Semver.caret (default "10.17.0" (NodeProject.minNodeVersion (NodeProject_new o))) in
  let dependencies := NodeProject.devDependencies (TypeScriptProject.node (new o)) in
  dependencies
  = devDependencies_after (docgen_contributed NodeProject_new o)
      (<["@types/node" := types_node]>
         (<["typescript" := typescript]>
            (devDependencies_after
               (jest_contributed NodeProject_new o ++ eslint_contributed NodeProject_new o)
               (NodeProject.devDependencies (NodeProject_new o)))))
  ∧ (if truthy_bool (TypeScriptProjectOptions.docgen o) then True
     else dependencies !! "typescript" = Some typescript
          ∧ dependencies !! "@types/node" = Some types_node).
Proof.
  intros typescript types_node dependencies.
  assert (Hdependencies :
    dependencies
    = devDependencies_after (docgen_contributed NodeProject_new o)
        (<["@types/node" := types_node]>
           (<["typescript" := typescript]>
              (devDependencies_after
                 (jest_contributed NodeProject_new o
                  ++ eslint_contributed NodeProject_new o)
                 (NodeProject.devDependencies (NodeProject_new o)))))).
  { subst dependencies typescript types_node. registries.
    by rewrite devDependencies_after_app. }
  split; [exact Hdependencies|].
  destruct (truthy_bool (TypeScriptProjectOptions.docgen o)) eqn:Hdocgen; [done|].
  rewrite Hdependencies.
  unfold docgen_contributed, docgen_contributions. rewrite Hdocgen.
  cbn [devDependencies_after foldl]. split.
  - rewrite lookup_insert_ne by done. by rewrite lookup_insert_eq.
  - by rewrite lookup_insert_eq.
Qed.

(** X2: every script of the finished project holds the commands the
    project had, then the commands of the constructor itself, then the
    commands that jest, eslint and docgen contribute, in the order in which
    these components are built.  The constructor itself appends [tsc] to the
    compile script, [tsc -w] to the watch script, the build commands to the
    build script, the four packaging commands to the package script unless
    packaging is off, the cleanup to the test script, and nothing to any
    other script. *)
Theorem scripts_contributions o name :
  let base := NodeProject_new o in
  let run := NodeProject.runScriptCommand base in
  let libdir := default "lib" (TypeScriptProjectOptions.libdir o) in
  let package := default true (TypeScriptProjectOptions.package o) in
  let compileBeforeTest :=
    default false (TypeScriptProjectOptions.compileBeforeTest o) in
  let own :=
    if bool_decide (name = "compile") then ["tsc"]
    else if bool_decide (name = "watch") then ["tsc -w"]
    else if bool_decide (name = "build") then
      (if compileBeforeTest
       then [run +:+ " compile"; run +:+ " test"]
       else [run +:+ " test"; run +:+ " compile"])
      ++ (if package then [run +:+ " package"] else [])
    else if bool_decide (name = "package") then
      (if package
       then ["rm -fr dist"; "mkdir -p dist/js";
             NodeProject.packageManager base +:+ " pack"; "mv *.tgz dist/js/"]
       else [])
    else if bool_decide (name = "test") then
      (if default true (TypeScriptProjectOptions.jest o) && negb compileBeforeTest
       then ["rm -fr " +:+ libdir +:+ "/"] else [])
    else [] in
  NodeProject.script name (TypeScriptProject.node (new o))
  = NodeProject.script name base ++ own ++
      script_commands name (component_contributions NodeProject_new o).
Proof. apply new_script. Qed.

(** X3: a project with a start menu gets the entries [compile], [watch] and
    [build], and [package] behind them unless packaging is switched off, in
    this order behind the entries it had and in front of the entries that
    the components contribute; a project without a start menu gets none. *)
Theorem start_menu_entries o :
  NodeProject.start (TypeScriptProject.node (new o))
  = (λ entries,
       entries ++
       [("compile", {| desc := "Only compile"; category := BUILD |});
        ("watch", {| desc := "Watch & compile in the background"; category := BUILD |});
        ("build", {| desc := "Full release build (test+compile)"; category := BUILD |})]
       ++ (if default true (TypeScriptProjectOptions.package o)
           then [("package", {| desc := "Create an npm tarball"; category := RELEASE |})]
           else [])
       ++ menu_entries (component_contributions NodeProject_new o))
    <$> NodeProject.start (NodeProject_new o).
Proof.
  registries.
  destruct (NodeProject.start (NodeProject_new o)) as [entries|]; [|reflexivity].
  cbn [fmap option_fmap option_map]. f_equal.
  unfold component_contributions, start_entries.
  by rewrite !menu_entries_app, <- !app_assoc.
Qed.

(** X4: the patterns of the constructor keep their order in the finished
    project, whatever else is appended between them.  In the VCS-ignore
    list the compiled-output directory is excluded, then the source
    directory included, then [/dist] excluded and, with jest, the test
    directory included.  In the package-ignore list, when there is one, the
    file of the main [TypescriptConfig] is excluded (unless that is
    disabled), then come the nine patterns of lines 216-230, where
    [/tsconfig.json] is excluded whatever the main file is called, then,
    with jest, [/tsconfig.jest.json] and the test directory are excluded. *)
Theorem ignore_patterns_in_order o :
  let srcdir := default "src" (TypeScriptProjectOptions.srcdir o) in
  let libdir := default "lib" (TypeScriptProjectOptions.libdir o) in
  let testdir := default "test" (TypeScriptProjectOptions.testdir o) in
  let fileName :=
    default "tsconfig.json"
      (TypeScriptProjectOptions.tsconfig o ≫= TypescriptConfigOptions.fileName) in
  ([IgnoreFile.Exclude ("/" +:+ libdir);
    IgnoreFile.Include ("/" +:+ srcdir);
    IgnoreFile.Exclude "/dist"] ++
   (if default true (TypeScriptProjectOptions.jest o)
    then [IgnoreFile.Include ("/" +:+ testdir)] else []))
  `sublist_of` NodeProject.gitignore (TypeScriptProject.node (new o))
  ∧ match NodeProject.npmignore (TypeScriptProject.node (new o)) with
    | Some l =>
        ((if truthy_bool (TypeScriptProjectOptions.disableTsconfig o) then []
          else [IgnoreFile.Exclude ("/" +:+ fileName)]) ++
         [IgnoreFile.Include ("/" +:+ libdir);
          IgnoreFile.Exclude ("/" +:+ srcdir);
          IgnoreFile.Include ("/" +:+ libdir +:+ "/**/*.js");
          IgnoreFile.Include ("/" +:+ libdir +:+ "/**/*.d.ts");
          IgnoreFile.Exclude "dist";
          IgnoreFile.Exclude "/tsconfig.json";
          IgnoreFile.Exclude "/.github";
          IgnoreFile.Exclude "/.vscode";
          IgnoreFile.Exclude "/.projenrc.js"] ++
         (if default true (TypeScriptProjectOptions.jest o)
          then [IgnoreFile.Exclude "/tsconfig.jest.json";
                IgnoreFile.Exclude ("/" +:+ testdir)]
          else []))
        `sublist_of` l
    | None => NodeProject.npmignore (NodeProject_new o) = None
    end.
Proof.
  intros srcdir libdir testdir fileName. split.
  - rewrite new_gitignore, new_libdir, new_srcdir, new_testdir.
    fold srcdir libdir testdir. unfold jest_enabled.
    apply sublist_inserts_l, sublist_app; [done|].
    apply sublist_inserts_l, sublist_inserts_r. done.
  - rewrite new_npmignore, new_libdir, new_srcdir, new_testdir.
    fold srcdir libdir testdir.
    assert (Hmain :
      tsconfig_patterns o srcdir libdir (NodeProject_new o)
      = if truthy_bool (TypeScriptProjectOptions.disableTsconfig o) then []
        else [IgnoreFile.Exclude ("/" +:+ fileName)]).
    { unfold tsconfig_patterns, register_tsconfig.
      destruct (truthy_bool (TypeScriptProjectOptions.disableTsconfig o));
        [reflexivity|].
      cbn [negb]. unfold TypescriptConfig_new. cbn beta iota zeta.
      cbn [fst TypescriptConfig.fileName].
      by rewrite tsconfig_options_fileName. }
    rewrite Hmain. unfold jest_enabled, package_patterns.
    destruct (NodeProject.npmignore (NodeProject_new o)) as [l|]; [|reflexivity].
    cbn [fmap option_fmap option_map].
    apply sublist_inserts_l, sublist_app; [done|].
    apply sublist_app; [done|].
    destruct (default true (TypeScriptProjectOptions.jest o));
      [|apply sublist_nil_l].
    apply (sublist_app [_] [_]); [done|].
    apply sublist_inserts_l, sublist_inserts_r. done.
Qed.

(** X5: the components join the project in the order jest, eslint, sample
    code, docgen, each one only when its toggle is on; jest, eslint and
    sample code are on unless switched off, docgen is off unless switched
    on.  The sample code and eslint get the source and test directories of
    the project. *)
Theorem components_in_order o :
  let srcdir := default "src" (TypeScriptProjectOptions.srcdir o) in
  let testdir := default "test" (TypeScriptProjectOptions.testdir o) in
  NodeProject.components (TypeScriptProject.node (new o))
  = NodeProject.components (NodeProject_new o) ++
      (if default true (TypeScriptProjectOptions.jest o)
       then [JestComponent
               (jest_options (jest_tsconfig srcdir testdir (NodeProject_new o))
                  (TypeScriptProjectOptions.jestOptions o))]
       else []) ++
      (if default true (TypeScriptProjectOptions.eslint o)
       then [EslintComponent
               (EslintOptions.mk
                  (if default true (TypeScriptProjectOptions.jest o)
                   then "./tsconfig.jest.json" else "./tsconfig.json")
                  [srcdir; testdir])]
       else []) ++
      (if default true (TypeScriptProjectOptions.sampleCode o)
       then [SampleCodeComponent srcdir testdir] else []) ++
      (if truthy_bool (TypeScriptProjectOptions.docgen o)
       then [TypedocDocgenComponent] else []).
Proof.
  intros srcdir testdir.
  rewrite new_node, new_srcdir, new_testdir. fold srcdir testdir.
  unfold project_after_jest, project_before_jest, project_before_tsconfig.
  cbn beta zeta. autorewrite with registry.
  unfold jest_enabled. rewrite <- !app_assoc.
  destruct (default true (TypeScriptProjectOptions.jest o)); reflexivity.
Qed.

(** X6: the [Jest] component gets [{ typescript: tsconfig, ...jestOptions }]:
    a [typescript] key in the caller's [jestOptions] replaces the
    [TypescriptConfig] that the jest block has built.  That instance still
    keeps its emitter in the project, and eslint still points at its file:
    neither depends on [jestOptions]. *)
Theorem jestOptions_typescript_wins o :
  let P := new o in
  let srcdir := TypeScriptProject.srcdir P in
  let testdir := TypeScriptProject.testdir P in
  let built := jest_tsconfig srcdir testdir (NodeProject_new o) in
  let jestOptions := TypeScriptProjectOptions.jestOptions o in
  TypeScriptProject.jest P
  = (if jest_enabled o
     then Some (JestOptions.mk
                  (Some (default built (jestOptions ≫= JestOptions.typescript)))
                  (default ∅ (JestOptions.other <$> jestOptions)))
     else None)
  ∧ (if jest_enabled o
     then TypescriptConfig.file built ∈ NodeProject.files (TypeScriptProject.node P)
     else True)
  ∧ TypeScriptProject.eslint P
    = (if default true (TypeScriptProjectOptions.eslint o)
       then Some (EslintOptions.mk
                    (if jest_enabled o then "./tsconfig.jest.json" else "./tsconfig.json")
                    [srcdir; testdir])
       else None).
Proof.
  intros P srcdir testdir built jestOptions.
  subst P srcdir testdir built jestOptions. split_and!.
  - rewrite new_jest, register_jest_jest.
    destruct (jest_enabled o); [|reflexivity].
    unfold jest_options.
    destruct (TypeScriptProjectOptions.jestOptions o) as [[ts other]|];
      [|reflexivity].
    by destruct ts.
  - destruct (jest_enabled o) eqn:Hjest; [|done].
    rewrite new_files, Hjest. set_solver.
  - rewrite new_eslint, register_eslint_eslint. by destruct (jest_enabled o).
Qed.

(** X7: the constructor adds the emitter of the main [TypescriptConfig]
    (unless that is disabled) and then the emitter of the jest one (unless
    jest is off), and checks no file name: when both are added, their paths
    differ exactly when the caller has not named the main file
    [tsconfig.jest.json]. *)
Theorem emitters_and_collisions o :
  let fileName :=
    default "tsconfig.json"
      (TypeScriptProjectOptions.tsconfig o ≫= TypescriptConfigOptions.fileName) in
  let added :=
    (if truthy_bool (TypeScriptProjectOptions.disableTsconfig o) then []
     else [fileName]) ++
    (if jest_enabled o then ["tsconfig.jest.json"] else []) in
  JsonFile.path <$> NodeProject.files (TypeScriptProject.node (new o))
  = (JsonFile.path <$> NodeProject.files (NodeProject_new o)) ++ added
  ∧ (truthy_bool (TypeScriptProjectOptions.disableTsconfig o) = false →
     jest_enabled o = true →
     (NoDup added ↔ fileName ≠ "tsconfig.jest.json")).
Proof.
  intros fileName added. subst added. split.
  - rewrite new_files, !fmap_app, new_srcdir, new_libdir, new_testdir.
    do 2 f_equal.
    + unfold tsconfig_files, register_tsconfig.
      destruct (truthy_bool (TypeScriptProjectOptions.disableTsconfig o));
        [reflexivity|].
      cbn [negb]. unfold TypescriptConfig_new. cbn beta iota zeta.
      cbn [fst TypescriptConfig.file fmap list_fmap JsonFile.path].
      by rewrite tsconfig_options_fileName.
    + by destruct (jest_enabled o).
  - intros -> ->. cbn [app]. split.
    + intros Hnodup Heq. apply NoDup_cons in Hnodup as [Hnotin _].
      apply Hnotin. rewrite Heq. constructor.
    + intros Hne. apply NoDup_cons. split; [|apply NoDup_singleton].
      by rewrite list_elem_of_singleton.
Qed.

(** Writing a key in front of the contributions changes that key at
    most. *)
Lemma manifest_after_insert_delete cs m k v :
  delete k (manifest_after cs (<[k := v]> m)) = delete k (manifest_after cs m).
Proof.
  revert m. induction cs as [|c cs IH]; intros m.
  { apply delete_insert_eq. }
  destruct c as [| | | | | | |key value]; try apply IH.
  change (delete k (manifest_after cs (<[key := value]> (<[k := v]> m)))
          = delete k (manifest_after cs (<[key := value]> m))).
  destruct (decide (key = k)) as [->|Hne].
  - by rewrite insert_insert_eq.
  - rewrite insert_insert_ne by done. apply IH.
Qed.

(** X8: of the manifest the constructor itself touches the [types] key
    alone: without that key, the finished manifest is the manifest that the
    project had with the keys of the components written to it. *)
Theorem manifest_other_keys o :
  delete "types" (NodeProject.manifest (TypeScriptProject.node (new o)))
  = delete "types"
      (manifest_after (component_contributions NodeProject_new o)
         (NodeProject.manifest (NodeProject_new o))).
Proof.
  rewrite new_manifest. unfold register_types.
  case_match; [|reflexivity].
  project_simpl. apply manifest_after_insert_delete.
Qed.

(** X9: the app variant switches packaging off by default.  For options
    without a [package] key, and for [package: false], the constructor adds
    neither the packaging commands nor the package step of the build script;
    for [package: true] it adds both.  What the components contribute to the
    two scripts comes behind. *)
Theorem app_packaging_off_by_default o :
  let P := TypeScriptAppProject_new NodeProject_new o in
  let preset := TypeScriptProjectOptions.spread app_defaults o in
  let base := NodeProject_new preset in
  let run := NodeProject.runScriptCommand base in
  let package := default false (TypeScriptProjectOptions.package o) in
  let contributed := component_contributions NodeProject_new preset in
  NodeProject.script "package" (TypeScriptProject.node P)
  = NodeProject.script "package" base ++
      (if package
       then ["rm -fr dist"; "mkdir -p dist/js";
             NodeProject.packageManager base +:+ " pack"; "mv *.tgz dist/js/"]
       else []) ++
      script_commands "package" contributed
  ∧ NodeProject.script "build" (TypeScriptProject.node P)
    = NodeProject.script "build" base ++
        (if default false (TypeScriptProjectOptions.compileBeforeTest o)
         then [run +:+ " compile"; run +:+ " test"]
         else [run +:+ " test"; run +:+ " compile"]) ++
        (if package then [run +:+ " package"] else []) ++
        script_commands "build" contributed.
Proof.
  intros P preset base run package contributed.
  subst P base run package contributed.
  unfold TypeScriptAppProject_new. fold preset.
  assert (Hpackage : TypeScriptProjectOptions.package preset
                     = Some (default false (TypeScriptProjectOptions.package o))).
  { subst preset. destruct o. apply spread_key_Some. }
  assert (Hcbt : TypeScriptProjectOptions.compileBeforeTest preset
                 = TypeScriptProjectOptions.compileBeforeTest o).
  { subst preset. destruct o. apply spread_key_None. }
  split.
  - rewrite new_script. unfold constructor_commands.
    rewrite Hpackage. reflexivity.
  - rewrite new_build. unfold build_commands.
    by rewrite Hpackage, Hcbt, <- app_assoc.
Qed.

End ConstructorProperties.

(** * Further properties of the declaration file *)

Lemma trailing_seps_unsplit segs name :
  name ≠ [] → Forall (λ c, path.is_sep c = false) name →
  path.trailing_seps (path.unsplit (segs ++ [name])) = [].
Proof.
  intros Hne Hname. unfold path.trailing_seps.
  assert (Hrev : ∃ x xs rest,
    rev (path.unsplit (segs ++ [name])) = x :: xs ++ rest ∧ path.is_sep x = false).
  { destruct (rev name) as [|x xs] eqn:Heq.
    { apply (f_equal (@rev _)) in Heq. rewrite rev_involutive in Heq. done. }
    assert (Hx : path.is_sep x = false).
    { apply Forall_rev_list in Hname. rewrite Heq in Hname.
      by apply Forall_cons in Hname as [? _]. }
    destruct segs as [|s segs].
    - exists x, xs, []. simpl. by rewrite Heq, app_nil_r.
    - rewrite rev_unsplit_snoc, Heq by done. eauto. }
  destruct Hrev as (x & xs & rest & -> & Hx). simpl. by rewrite Hx.
Qed.

Lemma last_segment_no_sep s :
  s ≠ [] → Forall (λ c, path.is_sep c = false) s → path.last_segment s = s.
Proof. intros. by apply (last_segment_unsplit [] s). Qed.

(** The base name of a path whose last segment does not end in [ext] is
    that segment. *)
Lemma basename_chars_other segs name ext :
  Forall clean segs → name ≠ [] → Forall (λ c, path.is_sep c = false) name →
  ext ≠ [] → Forall (λ c, path.is_sep c = false) ext →
  path.is_suffix ext name = false →
  path.basename_chars (path.unsplit (segs ++ [name])) ext = name.
Proof.
  intros Hsegs Hne Hname Hext Hextsep Hsuffix.
  unfold path.basename_chars.
  rewrite last_segment_unsplit by done.
  destruct (bool_decide (ext ≠ []) && bool_decide (length ext ≤ _)); [|done].
  rewrite bool_decide_eq_false_2.
  2:{ intros Heq.
      pose proof (last_segment_unsplit segs name Hsegs Hne Hname) as Hlast.
      rewrite <- Heq, last_segment_no_sep in Hlast by done.
      rewrite Hlast in Hsuffix.
      pose proof (is_suffix_app [] name) as Hself. simpl in Hself. congruence. }
  rewrite (bool_decide_eq_false_2 (name = [])) by done.
  rewrite Hsuffix, trailing_seps_unsplit by done.
  rewrite app_nil_r. by destruct (path.is_suffix name ext).
Qed.

(** X10: an entrypoint whose last segment does not end in [.js] keeps its
    name, and [.d.ts] is put behind it: [lib/index.mjs] gives
    [lib/index.mjs.d.ts]. *)
Theorem types_of_entrypoint_other_extension dirs name :
  Forall clean_segment dirs → clean_segment name →
  endsWith name ".js" = false →
  types_of_entrypoint (path_of (dirs ++ [name]))
  = path_of (dirs ++ [name +:+ ".d.ts"]).
Proof.
  intros Hdirs Hname Hends.
  assert (Hsegs : Forall clean (path.chars <$> dirs)).
  { apply Forall_fmap. eapply Forall_impl; [exact Hdirs|]. done. }
  unfold clean_segment in Hname. unfold endsWith in Hends.
  unfold types_of_entrypoint, path.join, path.dirname, path.basename, path_of.
  rewrite !chars_str, !fmap_app. cbn [fmap list_fmap].
  rewrite dirname_chars_unsplit;
    [|done|by apply clean_nonempty|by apply clean_no_sep].
  rewrite basename_chars_other;
    [|done|by apply clean_nonempty|by apply clean_no_sep|done
     |by repeat constructor|done].
  rewrite join_chars_dirname by done.
  rewrite replace_backslashes_none.
  2:{ apply unsplit_no_backslash, Forall_app. split; [done|by constructor]. }
  rewrite chars_app, unsplit_snoc_app, str_app. reflexivity.
Qed.

Lemma replace_backslashes_chars s :
  Forall (λ c, c ≠ backslash) (path.chars (replace_backslashes s)).
Proof.
  induction s as [|c s IH]; [constructor|].
  cbn [replace_backslashes path.chars list_ascii_of_string].
  constructor; [|exact IH].
  case_bool_decide; [done|done].
Qed.

(** X11: whatever the entrypoint, the declaration file ends in [.d.ts] and
    holds no backslash. *)
Theorem types_of_entrypoint_shape entrypoint :
  endsWith (types_of_entrypoint entrypoint) ".d.ts" = true
  ∧ Forall (λ c, c ≠ backslash) (path.chars (types_of_entrypoint entrypoint)).
Proof.
  unfold types_of_entrypoint, endsWith. rewrite chars_app. split.
  - apply is_suffix_app.
  - apply Forall_app. split; [apply replace_backslashes_chars|].
    by repeat constructor.
Qed.

(** * Further properties of sample-code synthesis *)

(** ** The last segment of a resolved path *)

Lemma split_nonempty l : path.split l ≠ [].
Proof.
  induction l as [|c l IH]; [done|]. simpl.
  destruct (path.is_sep c); [done|]. by destruct (path.split l).
Qed.

Lemma split_app l1 l2 :
  path.split (l1 ++ path.sep :: l2) = path.split l1 ++ path.split l2.
Proof.
  induction l1 as [|c l1 IH]; [reflexivity|].
  cbn [app path.split]. rewrite IH.
  destruct (path.is_sep c); [reflexivity|].
  pose proof (split_nonempty l1) as Hne.
  by destruct (path.split l1).
Qed.

Lemma ends_in_split name l :
  Forall (λ c, path.is_sep c = false) name → ends_in name l →
  ∃ segs, path.split l = segs ++ [name].
Proof.
  intros Hname (pre & -> & [-> | (pre' & ->)]).
  - exists []. by apply split_no_sep.
  - exists (path.split pre'). rewrite <- app_assoc. cbn [app].
    by rewrite split_app, (split_no_sep name).
Qed.

Lemma ends_in_unsplit segs name : ends_in name (path.unsplit (segs ++ [name])).
Proof.
  destruct segs as [|s segs].
  - exists []. by split; [|left].
  - rewrite unsplit_snoc by done.
    exists (path.unsplit (s :: segs) ++ [path.sep]). split.
    + by rewrite <- app_assoc.
    + right. by eexists.
Qed.

Lemma ends_in_sep name l : ends_in name l → ends_in name (path.sep :: l).
Proof.
  intros (pre & -> & Hpre). exists (path.sep :: pre). split; [done|].
  right. destruct Hpre as [-> | (pre' & ->)].
  - by exists [].
  - by exists (path.sep :: pre').
Qed.

Lemma ends_in_last name l :
  clean name → ends_in name l →
  ∃ init c, l = init ++ [c] ∧ path.is_sep c = false.
Proof.
  intros Hname (pre & -> & _).
  destruct (clean_last name Hname) as (init & c & -> & Hc).
  exists (pre ++ init), c. by rewrite <- app_assoc.
Qed.

Lemma ends_in_no_trailing_sep name l :
  clean name → ends_in name l → path.ends_with_sep l = false.
Proof.
  intros Hname Hl. destruct (ends_in_last name l Hname Hl) as (init & c & -> & Hc).
  by rewrite ends_with_sep_snoc.
Qed.

(** Normalizing keeps a clean last segment. *)
Lemma normalize_chars_ends_in name l :
  clean name → ends_in name l → ends_in name (path.normalize_chars l).
Proof.
  intros Hname Hl.
  destruct (ends_in_split name l (clean_no_sep _ Hname) Hl) as (segs & Hsplit).
  pose proof (ends_in_no_trailing_sep name l Hname Hl) as Htrailing.
  assert (Hnormal : ∀ allow, ends_in name (path.normalizeString l allow)
                             ∧ path.normalizeString l allow ≠ []).
  { intros allow. unfold path.normalizeString.
    rewrite Hsplit, foldl_app. cbn [foldl].
    rewrite normalize_step_clean by done. cbn [rev].
    split; [apply ends_in_unsplit|].
    intros Heq. apply (f_equal length) in Heq.
    pose proof (length_unsplit_snoc
      (rev (foldl (path.normalize_step allow) [] segs)) name) as Hlen.
    rewrite Heq in Hlen. destruct Hname as (Hne & _).
    destruct name; [done|simpl in Hlen; lia]. }
  unfold path.normalize_chars.
  destruct l as [|c l']; [by destruct Hl as (pre & Heq & _), pre, name, Hname|].
  cbn beta iota zeta. rewrite Htrailing.
  destruct (Hnormal (negb (path.is_sep c))) as [Hends Hne].
  destruct (path.normalizeString (c :: l') (negb (path.is_sep c))) as [|x xs];
    [done|].
  destruct (path.is_sep c); [by apply ends_in_sep|done].
Qed.

Lemma strip_trailing_sep_ends_in name l :
  clean name → ends_in name l → fs.strip_trailing_sep l = l.
Proof.
  intros Hname Hl. destruct (ends_in_last name l Hname Hl) as (init & c & -> & Hc).
  unfold fs.strip_trailing_sep. rewrite rev_unit.
  destruct (rev init); [done|]. by rewrite Hc.
Qed.

Lemma last_segment_ends_in name l :
  clean name → ends_in name l → path.last_segment l = name.
Proof.
  intros Hname (pre & -> & Hpre).
  pose proof (clean_no_sep _ Hname) as Hsep.
  pose proof (clean_nonempty _ Hname) as Hne.
  unfold path.last_segment. rewrite rev_app_distr.
  destruct (rev name) as [|x xs] eqn:Heq.
  { apply (f_equal (@rev _)) in Heq. rewrite rev_involutive in Heq. done. }
  assert (Hxs : Forall (λ c, path.is_sep c = false) (x :: xs)).
  { rewrite <- Heq. by apply Forall_rev_list. }
  pose proof Hxs as Hx. apply Forall_cons in Hx as [Hx _].
  change ((x :: xs) ++ ?l) with (x :: (xs ++ l)).
  rewrite drop_while_head by done.
  change (x :: (xs ++ ?l)) with ((x :: xs) ++ l).
  destruct Hpre as [-> | (pre' & ->)].
  - change (rev (@nil ascii)) with (@nil ascii).
    rewrite app_nil_r, take_while_all by by apply no_sep_negb.
    rewrite <- Heq. apply rev_involutive.
  - rewrite rev_unit.
    rewrite take_while_stop; [|by apply no_sep_negb|reflexivity].
    rewrite <- Heq. apply rev_involutive.
Qed.

(** The key of [dir/name] in the file system has [name] as its last
    segment. *)
Lemma resolve_join_last_segment dir name :
  clean_segment name →
  path.last_segment (path.chars (fs.resolve (path.join dir name))) = path.chars name.
Proof.
  intros Hname. unfold clean_segment in Hname.
  unfold fs.resolve, path.join. rewrite !chars_str.
  assert (Hjoin : ends_in (path.chars name)
                    (path.join_chars [path.chars dir; path.chars name])).
  { unfold path.join_chars.
    pose proof (clean_nonempty _ Hname) as Hne.
    destruct (path.chars dir) as [|c cs] eqn:Hdir.
    - rewrite filter_cons_False by (intros H; by apply H).
      rewrite filter_cons_True by done. rewrite filter_nil.
      destruct (path.chars name) as [|x xs] eqn:Hx; [done|].
      apply normalize_chars_ends_in; [done|]. exists []. by split; [|left].
    - rewrite filter_cons_True by done.
      rewrite filter_cons_True by done. rewrite filter_nil.
      apply normalize_chars_ends_in; [done|].
      exists ((c :: cs) ++ [path.sep]). split.
      + cbn [path.unsplit]. by rewrite <- app_assoc.
      + right. by eexists. }
  pose proof (normalize_chars_ends_in _ _ Hname Hjoin) as Hnormal.
  rewrite (strip_trailing_sep_ends_in _ _ Hname Hnormal).
  by apply last_segment_ends_in.
Qed.

Lemma sample_keys_differ srcdir testdir :
  fs.resolve (path.join testdir "hello.test.ts")
  ≠ fs.resolve (path.join srcdir "index.ts").
Proof.
  intros Heq.
  apply (f_equal (λ k, path.last_segment (path.chars k))) in Heq.
  rewrite !resolve_join_last_segment in Heq.
  - discriminate Heq.
  - unfold clean_segment, clean; split_and!; [done..|]. repeat constructor; done.
  - unfold clean_segment, clean; split_and!; [done..|]. repeat constructor; done.
Qed.

(** ** The file-system operations *)

Lemma mkdirp_from_lookup fuel k d d' k' n :
  fs.mkdirp_from fuel k d = inr d' → d !! k' = Some n → d' !! k' = Some n.
Proof.
  revert k d'. induction fuel as [|fuel IH]; intros k d' Hmk Hk'; simpl in Hmk.
  - destruct (fs.is_root k); [by simplify_eq|].
    destruct (d !! k) as [[|data]|] eqn:Hk; simplify_eq; [done|].
    rewrite lookup_insert_ne; [done|]. intros <-. congruence.
  - destruct (fs.is_root k); [by simplify_eq|].
    destruct (d !! k) as [[|data]|] eqn:Hk; simplify_eq; [done|].
    destruct (fs.mkdirp_from fuel (path.dirname k) d) as [e|d''] eqn:Hrec;
      simplify_eq.
    rewrite lookup_insert_ne; [by eapply IH|]. intros <-. congruence.
Qed.

Lemma mkdirp_from_dir fuel k d d' :
  fs.mkdirp_from fuel k d = inr d' → fs.node_at k d' = Some fs.Dir.
Proof.
  unfold fs.node_at. destruct fuel as [|fuel]; simpl.
  - destruct (fs.is_root k); [done|].
    destruct (d !! k) as [[|data]|] eqn:Hk; intros; simplify_eq; [done|].
    apply lookup_insert_eq.
  - destruct (fs.is_root k); [done|].
    destruct (d !! k) as [[|data]|] eqn:Hk; intros; simplify_eq; [done|].
    destruct (fs.mkdirp_from fuel (path.dirname k) d); simplify_eq.
    apply lookup_insert_eq.
Qed.

Lemma mkdirpSync_dir p d d' :
  fs.mkdirpSync p d = inr d' → fs.stat p d' = Some fs.Dir.
Proof. apply mkdirp_from_dir. Qed.

Lemma node_at_lookup k d d' n :
  (∀ k', d !! k' = Some n → d' !! k' = Some n) →
  fs.node_at k d = Some n → fs.node_at k d' = Some n.
Proof. unfold fs.node_at. destruct (fs.is_root k); auto. Qed.

Lemma mkdirpSync_node_at p d d' k n :
  fs.mkdirpSync p d = inr d' → fs.node_at k d = Some n → fs.node_at k d' = Some n.
Proof.
  intros Hmk. apply node_at_lookup. intros k'. by eapply mkdirp_from_lookup.
Qed.

Lemma writeFileSync_inv p data d d' :
  fs.writeFileSync p data d = inr d' →
  d' = <[fs.resolve p := fs.File data]> d
  ∧ fs.node_at (fs.resolve p) d ≠ Some fs.Dir.
Proof.
  unfold fs.writeFileSync.
  destruct (fs.node_at (fs.resolve p) d) as [[|old]|];
    [done| |];
    destruct (fs.node_at (path.dirname (fs.resolve p)) d) as [[|?]|];
    intros; simplify_eq; done.
Qed.

Lemma writeFileSync_dir p data d d' k :
  fs.writeFileSync p data d = inr d' →
  fs.node_at k d = Some fs.Dir → fs.node_at k d' = Some fs.Dir.
Proof.
  intros Hwrite Hdir. apply writeFileSync_inv in Hwrite as [-> Hnot].
  unfold fs.node_at in *. destruct (fs.is_root k) eqn:Hroot; [done|].
  rewrite lookup_insert_ne; [done|]. intros Heq. rewrite Heq, Hroot in Hnot. done.
Qed.

Lemma writeFileSync_other p data d d' k :
  fs.writeFileSync p data d = inr d' → k ≠ fs.resolve p →
  fs.node_at k d' = fs.node_at k d.
Proof.
  intros Hwrite Hne. apply writeFileSync_inv in Hwrite as [-> _].
  unfold fs.node_at. destruct (fs.is_root k); [done|].
  by rewrite lookup_insert_ne.
Qed.

(** ** Paths are kept *)

Lemma fs_extends_refl d : fs_extends d d.
Proof. intros k. split; [done|]. intros data Hk. by exists data. Qed.

Lemma fs_extends_trans d1 d2 d3 :
  fs_extends d1 d2 → fs_extends d2 d3 → fs_extends d1 d3.
Proof.
  intros H12 H23 k. destruct (H12 k) as [Hd Hf], (H23 k) as [Hd' Hf'].
  split; [auto|]. intros data Hk. destruct (Hf data Hk) as [data' Hk']. eauto.
Qed.

Lemma mkdirpSync_extends p d d' : fs.mkdirpSync p d = inr d' → fs_extends d d'.
Proof.
  intros Hmk k. split.
  - by eapply mkdirp_from_lookup.
  - intros data Hk. exists data. by eapply mkdirp_from_lookup.
Qed.

Lemma writeFileSync_extends p data d d' :
  fs.writeFileSync p data d = inr d' → fs_extends d d'.
Proof.
  intros Hwrite. apply writeFileSync_inv in Hwrite as [-> Hnot].
  unfold fs.node_at in Hnot. intros k.
  destruct (decide (k = fs.resolve p)) as [->|Hne].
  - split.
    + intros Hdir. destruct (fs.is_root (fs.resolve p)); [done|]. congruence.
    + intros old _. exists data. apply lookup_insert_eq.
  - rewrite lookup_insert_ne by done. split; [done|]. intros old Hk. by exists old.
Qed.

Lemma io_ret_extends {A} (a : A) : io_extends (io_ret a).
Proof. intros d. apply fs_extends_refl. Qed.

Lemma io_query_extends {A} (f : gmap string fs.node → fs.error + A) :
  io_extends (io_query f).
Proof. intros d. apply fs_extends_refl. Qed.

Lemma io_update_extends f :
  (∀ d d', f d = inr d' → fs_extends d d') → io_extends (io_update f).
Proof.
  intros Hf d. unfold io_update. destruct (f d) as [e|d'] eqn:Heq; simpl.
  - apply fs_extends_refl.
  - by apply Hf.
Qed.

Lemma io_bind_extends {A B} (m : IO A) (k : A → IO B) :
  io_extends m → (∀ a, io_extends (k a)) → io_extends (io_bind m k).
Proof.
  intros Hm Hk d. unfold io_bind. specialize (Hm d).
  destruct (m d) as [d' [e|a]]; simpl in *; [done|].
  eapply fs_extends_trans; [exact Hm|apply Hk].
Qed.

(** ** The runs of [synthesize] *)

Lemma io_bind_throws {A B} (m : IO A) (k : A → IO B) d d' e :
  m d = (d', inl e) → io_bind m k d = (d', inl e).
Proof. intros H. unfold io_bind. by rewrite H. Qed.

Lemma io_update_throws f d e :
  f d = inl e → io_update f d = (d, inl e).
Proof. intros H. unfold io_update. by rewrite H. Qed.

(** The guard either finds a directory, or finds nothing at the path, or
    throws. *)
Lemma has_sources_cases dir d :
  (has_sources dir d = (d, inr true) ∧ fs.stat dir d = Some fs.Dir)
  ∨ (has_sources dir d = (d, inr false) ∧ fs.pathExistsSync dir d = false)
  ∨ (∃ data, has_sources dir d = (d, inl fs.ENOTDIR)
             ∧ fs.stat dir d = Some (fs.File data)).
Proof.
  unfold has_sources, io_query, fs.pathExistsSync, fs.readdirSync.
  destruct (fs.stat dir d) as [[|data]|]; eauto.
Qed.

(** Every normal return of [synthesize] is one of three runs: the source
    directory was there; or the source sample was written and the test
    directory was there; or both samples were written. *)
Lemma SampleCode_synthesize_returns project_srcdir project_testdir outdir d d' :
  let srcdir := path.join outdir project_srcdir in
  let testdir := path.join outdir project_testdir in
  SampleCode_synthesize project_srcdir project_testdir outdir d = (d', inr tt) →
  (fs.stat srcdir d = Some fs.Dir ∧ d' = d)
  ∨ (fs.pathExistsSync srcdir d = false
     ∧ ∃ d1 d2,
         fs.mkdirpSync srcdir d = inr d1
         ∧ fs.writeFileSync (path.join srcdir "index.ts") (join_lines srcCode) d1 = inr d2
         ∧ ((fs.stat testdir d2 = Some fs.Dir ∧ d' = d2)
            ∨ (fs.pathExistsSync testdir d2 = false
               ∧ ∃ d3,
                   fs.mkdirpSync testdir d2 = inr d3
                   ∧ fs.writeFileSync (path.join testdir "hello.test.ts")
                       (join_lines testCode) d3 = inr d'))).
Proof.
  intros srcdir testdir. unfold SampleCode_synthesize. fold srcdir testdir.
  destruct (has_sources_cases srcdir d) as [[Hg Hdir] | [[Hg Hmissing] | (data & Hg & _)]].
  - rewrite (io_bind_returns _ _ _ _ _ Hg). intros [= <-]. by left.
  - rewrite (io_bind_returns _ _ _ _ _ Hg). intros H. right. split; [done|].
    destruct (fs.mkdirpSync srcdir d) as [e|d1] eqn:Hmk.
    { rewrite (io_bind_throws _ _ _ _ _ (io_update_throws _ _ _ Hmk)) in H. done. }
    rewrite (io_bind_returns _ _ _ _ _ (io_update_returns _ _ _ Hmk)) in H.
    destruct (fs.writeFileSync (path.join srcdir "index.ts") (join_lines srcCode) d1)
      as [e|d2] eqn:Hwrite.
    { rewrite (io_bind_throws _ _ _ _ _ (io_update_throws _ _ _ Hwrite)) in H. done. }
    rewrite (io_bind_returns _ _ _ _ _ (io_update_returns _ _ _ Hwrite)) in H.
    exists d1, d2. split_and!; [done..|].
    destruct (has_sources_cases testdir d2)
      as [[Hg' Hdir'] | [[Hg' Hmissing'] | (data & Hg' & _)]].
    + rewrite (io_bind_returns _ _ _ _ _ Hg') in H. injection H as <-. by left.
    + rewrite (io_bind_returns _ _ _ _ _ Hg') in H. right. split; [done|].
      destruct (fs.mkdirpSync testdir d2) as [e|d3] eqn:Hmk'.
      { rewrite (io_bind_throws _ _ _ _ _ (io_update_throws _ _ _ Hmk')) in H. done. }
      rewrite (io_bind_returns _ _ _ _ _ (io_update_returns _ _ _ Hmk')) in H.
      exists d3. split; [done|].
      unfold io_update in H.
      destruct (fs.writeFileSync _ _ d3) as [e|d4]; by simplify_eq.
    + rewrite (io_bind_throws _ _ _ _ _ Hg') in H. done.
  - rewrite (io_bind_throws _ _ _ _ _ Hg). done.
Qed.

Lemma SampleCode_synthesize_srcdir project_srcdir project_testdir outdir d d' :
  SampleCode_synthesize project_srcdir project_testdir outdir d = (d', inr tt) →
  fs.stat (path.join outdir project_srcdir) d' = Some fs.Dir.
Proof.
  intros Hrun. apply SampleCode_synthesize_returns in Hrun.
  destruct Hrun as [[Hdir ->] | (_ & d1 & d2 & Hmk & Hwrite & Htest)]; [done|].
  assert (Hd2 : fs.stat (path.join outdir project_srcdir) d2 = Some fs.Dir).
  { eapply writeFileSync_dir; [exact Hwrite|]. by eapply mkdirpSync_dir. }
  destruct Htest as [[_ ->] | (_ & d3 & Hmk' & Hwrite')]; [done|].
  eapply writeFileSync_dir; [exact Hwrite'|].
  by eapply mkdirpSync_node_at.
Qed.

(** X12: sample code is generated once.  After a run of [synthesize] that
    returned normally, a second run on the file system it left returns
    normally and changes nothing. *)
Theorem SampleCode_synthesize_once project_srcdir project_testdir outdir d d' :
  SampleCode_synthesize project_srcdir project_testdir outdir d = (d', inr tt) →
  SampleCode_synthesize project_srcdir project_testdir outdir d' = (d', inr tt).
Proof.
  intros Hrun. apply SampleCode_synthesize_srcdir in Hrun.
  unfold SampleCode_synthesize.
  by rewrite (io_bind_returns _ _ _ _ _ (has_sources_directory _ _ Hrun)).
Qed.

(** X13: [synthesize] removes nothing, whether it returns or throws: every
    directory of the file system is a directory afterwards, and every file
    is a file. *)
Theorem SampleCode_synthesize_keeps_paths project_srcdir project_testdir outdir d :
  fs_extends d (SampleCode_synthesize project_srcdir project_testdir outdir d).1.
Proof.
  revert d. change (io_extends (SampleCode_synthesize project_srcdir project_testdir outdir)).
  unfold SampleCode_synthesize.
  apply io_bind_extends; [apply io_query_extends|]. intros [|]; [apply io_ret_extends|].
  apply io_bind_extends; [apply io_update_extends, mkdirpSync_extends|]. intros _.
  apply io_bind_extends; [apply io_update_extends, writeFileSync_extends|]. intros _.
  apply io_bind_extends; [apply io_query_extends|]. intros [|]; [apply io_ret_extends|].
  apply io_bind_extends; [apply io_update_extends, mkdirpSync_extends|]. intros _.
  apply io_update_extends, writeFileSync_extends.
Qed.

(** X14: the exceptions of [synthesize].  A regular file at the path of the
    source directory makes it throw [ENOTDIR] with nothing written.  A
    regular file at the path of the test directory makes it throw [ENOTDIR]
    after the sample source was written, and the sample source stays.  A
    failing [mkdirpSync] of the source directory is thrown on with nothing
    written. *)
Theorem SampleCode_synthesize_throws project_srcdir project_testdir outdir d :
  let srcdir := path.join outdir project_srcdir in
  let testdir := path.join outdir project_testdir in
  let index := path.join srcdir "index.ts" in
  let synthesize := SampleCode_synthesize project_srcdir project_testdir outdir in
  (∀ data, fs.stat srcdir d = Some (fs.File data) →
           synthesize d = (d, inl fs.ENOTDIR))
  ∧ (fs.pathExistsSync srcdir d = false →
     ∀ e, fs.mkdirpSync srcdir d = inl e → synthesize d = (d, inl e))
  ∧ (fs.pathExistsSync srcdir d = false →
     ∀ d1 d2 data,
       fs.mkdirpSync srcdir d = inr d1 →
       fs.writeFileSync index (join_lines srcCode) d1 = inr d2 →
       fs.stat testdir d2 = Some (fs.File data) →
       synthesize d = (d2, inl fs.ENOTDIR)
       ∧ fs.stat index d2 = Some (fs.File (join_lines srcCode))).
Proof.
  intros srcdir testdir index synthesize. subst synthesize.
  unfold SampleCode_synthesize. fold srcdir testdir index.
  assert (Hfile : ∀ dir d0 data,
    fs.stat dir d0 = Some (fs.File data) → has_sources dir d0 = (d0, inl fs.ENOTDIR)).
  { intros dir d0 data Hstat.
    unfold has_sources, io_query, fs.pathExistsSync, fs.readdirSync.
    by rewrite Hstat. }
  split_and!.
  - intros data Hstat. by rewrite (io_bind_throws _ _ _ _ _ (Hfile _ _ _ Hstat)).
  - intros Hmissing e Hmk.
    rewrite (io_bind_returns _ _ _ _ _ (has_sources_missing _ _ Hmissing)).
    by rewrite (io_bind_throws _ _ _ _ _ (io_update_throws _ _ _ Hmk)).
  - intros Hmissing d1 d2 data Hmk Hwrite Hstat.
    split; [|by eapply writeFileSync_written].
    rewrite (io_bind_returns _ _ _ _ _ (has_sources_missing _ _ Hmissing)).
    rewrite (io_bind_returns _ _ _ _ _ (io_update_returns _ _ _ Hmk)).
    rewrite (io_bind_returns _ _ _ _ _ (io_update_returns _ _ _ Hwrite)).
    by rewrite (io_bind_throws _ _ _ _ _ (Hfile _ _ _ Hstat)).
Qed.

(** X15: when there was nothing at the path of the source directory and
    [synthesize] returns normally, the file system it leaves has the source
    directory, the test directory and [index.ts] with the sample source;
    writing the sample test does not touch the sample source. *)
Theorem SampleCode_synthesize_creates project_srcdir project_testdir outdir d d' :
  let srcdir := path.join outdir project_srcdir in
  let testdir := path.join outdir project_testdir in
  fs.pathExistsSync srcdir d = false →
  SampleCode_synthesize project_srcdir project_testdir outdir d = (d', inr tt) →
  fs.stat srcdir d' = Some fs.Dir
  ∧ fs.stat testdir d' = Some fs.Dir
  ∧ fs.stat (path.join srcdir "index.ts") d' = Some (fs.File (join_lines srcCode)).
Proof.
  intros srcdir testdir Hmissing Hrun.
  split; [by eapply SampleCode_synthesize_srcdir|].
  apply SampleCode_synthesize_returns in Hrun. fold srcdir testdir in Hrun.
  destruct Hrun as [[Hdir _] | (_ & d1 & d2 & Hmk & Hwrite & Htest)].
  { unfold fs.pathExistsSync in Hmissing. by rewrite Hdir in Hmissing. }
  pose proof (writeFileSync_written _ _ _ _ Hwrite) as Hindex.
  destruct Htest as [[Hdir ->] | (_ & d3 & Hmk' & Hwrite')]; [done|].
  split.
  - eapply writeFileSync_dir; [exact Hwrite'|]. by eapply mkdirpSync_dir.
  - unfold fs.stat in *.
    rewrite (writeFileSync_other _ _ _ _ _ Hwrite').
    + by eapply mkdirpSync_node_at.
    + apply not_eq_sym, sample_keys_differ.
Qed.

(** * Further properties at concrete inputs *)

(** X7 at [{}]. *)
Lemma emitters_and_collisions_witness :
  truthy_bool (TypeScriptProjectOptions.disableTsconfig default_options) = false
  ∧ jest_enabled default_options = true
  ∧ NoDup ["tsconfig.json"; "tsconfig.jest.json"].
Proof.
  split; [reflexivity|]. split; [reflexivity|].
  apply (proj2 (emitters_and_collisions (components := sample_components)
                  NodeProject_fresh default_options)
           eq_refl eq_refl).
  done.
Defined.

Lemma clean_segment_index_mjs : clean_segment "index.mjs".
Proof. clean_segment_proof. Defined.

(** X10 at [lib/index.mjs]. *)
Lemma types_of_entrypoint_other_extension_witness :
  endsWith "index.mjs" ".js" = false
  ∧ types_of_entrypoint "lib/index.mjs" = "lib/index.mjs.d.ts".
Proof.
  split; [reflexivity|].
  apply (types_of_entrypoint_other_extension ["lib"] "index.mjs").
  - constructor; [exact clean_segment_lib | constructor].
  - exact clean_segment_index_mjs.
  - reflexivity.
Defined.

(** X12 and X15 on an output directory that holds nothing yet. *)
Lemma SampleCode_synthesize_once_witness :
  SampleCode_synthesize "src" "test" "out" fs_empty_outdir
  = (<["out/test/hello.test.ts" := fs.File (join_lines testCode)]>
       (<["out/test" := fs.Dir]>
          (<["out/src/index.ts" := fs.File (join_lines srcCode)]>
             (<["out/src" := fs.Dir]> fs_empty_outdir))), inr tt)
  ∧ SampleCode_synthesize "src" "test" "out"
      (<["out/test/hello.test.ts" := fs.File (join_lines testCode)]>
         (<["out/test" := fs.Dir]>
            (<["out/src/index.ts" := fs.File (join_lines srcCode)]>
               (<["out/src" := fs.Dir]> fs_empty_outdir))))
    = (<["out/test/hello.test.ts" := fs.File (join_lines testCode)]>
         (<["out/test" := fs.Dir]>
            (<["out/src/index.ts" := fs.File (join_lines srcCode)]>
               (<["out/src" := fs.Dir]> fs_empty_outdir))), inr tt).
Proof.
  assert (Hrun :
    SampleCode_synthesize "src" "test" "out" fs_empty_outdir
    = (<["out/test/hello.test.ts" := fs.File (join_lines testCode)]>
         (<["out/test" := fs.Dir]>
            (<["out/src/index.ts" := fs.File (join_lines srcCode)]>
               (<["out/src" := fs.Dir]> fs_empty_outdir))), inr tt))
    by (vm_compute; reflexivity).
  split; [exact Hrun|].
  exact (SampleCode_synthesize_once "src" "test" "out" _ _ Hrun).
Defined.

Lemma SampleCode_synthesize_creates_witness :
  fs.pathExistsSync (path.join "out" "src") fs_empty_outdir = false
  ∧ fs.stat "out/src/index.ts"
      (SampleCode_synthesize "src" "test" "out" fs_empty_outdir).1
    = Some (fs.File (join_lines srcCode)).
Proof.
  assert (Hmissing : fs.pathExistsSync (path.join "out" "src") fs_empty_outdir = false)
    by (vm_compute; reflexivity).
  split; [exact Hmissing|].
  refine (proj2 (proj2 (SampleCode_synthesize_creates "src" "test" "out"
    fs_empty_outdir _ Hmissing _))).
  vm_compute; reflexivity.
Defined.

(** X14 on a source path, and on a test path, that is a regular file. *)
Lemma SampleCode_synthesize_throws_witness :
  (fs.stat (path.join "out" "src") fs_src_is_file = Some (fs.File "x")
   ∧ SampleCode_synthesize "src" "test" "out" fs_src_is_file
     = (fs_src_is_file, inl fs.ENOTDIR))
  ∧ (fs.stat (path.join "out" "test") fs_test_is_file = Some (fs.File "x")
     ∧ (SampleCode_synthesize "src" "test" "out" fs_test_is_file).2
       = inl fs.ENOTDIR).
Proof.
  split.
  - assert (Hstat : fs.stat (path.join "out" "src") fs_src_is_file
                    = Some (fs.File "x")) by (vm_compute; reflexivity).
    split; [exact Hstat|].
    exact (proj1 (SampleCode_synthesize_throws "src" "test" "out" fs_src_is_file)
             "x" Hstat).
  - split; [vm_compute; reflexivity|].
    assert (Hmissing :
      fs.pathExistsSync (path.join "out" "src") fs_test_is_file = false)
      by (vm_compute; reflexivity).
    assert (Hmkdir :
      fs.mkdirpSync (path.join "out" "src") fs_test_is_file
      = inr (<["out/src" := fs.Dir]> fs_test_is_file))
      by (vm_compute; reflexivity).
    assert (Hwrite :
      fs.writeFileSync (path.join (path.join "out" "src") "index.ts")
        (join_lines srcCode) (<["out/src" := fs.Dir]> fs_test_is_file)
      = inr (<["out/src/index.ts" := fs.File (join_lines srcCode)]>
               (<["out/src" := fs.Dir]> fs_test_is_file)))
      by (vm_compute; reflexivity).
    assert (Hstat :
      fs.stat (path.join "out" "test")
        (<["out/src/index.ts" := fs.File (join_lines srcCode)]>
           (<["out/src" := fs.Dir]> fs_test_is_file))
      = Some (fs.File "x"))
      by (vm_compute; reflexivity).
    destruct (proj2 (proj2
      (SampleCode_synthesize_throws "src" "test" "out" fs_test_is_file))
      Hmissing _ _ "x" Hmkdir Hwrite Hstat) as [Hthrows _].
    by rewrite Hthrows.
Defined.
